(** * A shallow embedding of the POS pricing, transaction and receipt model

    The development follows the source modules [models/config.py],
    [models/transaction.py] and [controllers/pos_controller.py], and the
    helpers of [utils.py].  Python objects become records,
    methods become functions that return the updated object, raised
    exceptions become the [Raise] case of [result], and everything the
    program reads from its environment (the clock, the file system and
    the outcome of an I/O call) is an explicit argument.

    Objects are modelled by value.  The controller makes every
    transaction and every receipt itself and never stores one object in
    two places it later updates: a generated receipt moves to the history
    and a fresh one takes its place.  So no update made through the
    controller's methods is visible through a second reference. *)

From Stdlib Require Import ZArith String Ascii List Bool Lia Sorted Permutation.
From Stdlib Require Import Floats.PrimFloat Floats.FloatOps Floats.SpecFloat.
From stdpp Require Import gmap strings list.

Set Warnings "-inexact-float".

Open Scope Z_scope.

(** ** Exceptions *)

Inductive exn : Type :=
| ValueError (msg : string)
| OverflowError
| IndexError
| OSError
| NoSectionError
| InterpolationError
| ParsingError
| DuplicateSectionError
| DuplicateOptionError.

Inductive result (A : Type) : Type :=
| Ok (a : A)
| Raise (e : exn).
Arguments Ok {A} a.
Arguments Raise {A} e.

Definition bind {A B : Type} (r : result A) (k : A -> result B) : result B :=
  match r with
  | Ok a => k a
  | Raise e => Raise e
  end.

Notation "x <- r ;; k" := (bind r (fun x => k))
  (at level 100, r at next level, right associativity).

Definition is_ok {A : Type} (r : result A) : bool :=
  match r with Ok _ => true | Raise _ => false end.

(** ** The Python built-ins the program relies on *)

Module Py.

(** *** Characters and decimal digits *)

Definition code (c : ascii) : Z := Z.of_N (N_of_ascii c).
Definition chr (n : Z) : ascii := ascii_of_N (Z.to_N n).

Definition is_digit (c : ascii) : bool := (48 <=? code c) && (code c <=? 57).
Definition digit_val (c : ascii) : Z := code c - 48.
Definition digit_char (d : Z) : ascii := chr (48 + d).

(** Text is ASCII text.  On code points above 127 Python's case
    mappings, [float] and [repr] go by the Unicode tables, which are not
    part of the model: the functions below leave such characters alone,
    and a statement about text that comes from outside the program (a
    service name, the configuration file) takes [isascii] as a
    hypothesis where the difference could show. *)

(** [s.isascii()] *)
Definition isascii (s : string) : bool :=
  forallb (fun c => code c <? 128) (list_ascii_of_string s).

(** [str.lower] and [str.upper] *)
Definition lower_char (c : ascii) : ascii :=
  if (65 <=? code c) && (code c <=? 90) then chr (code c + 32) else c.
Definition upper_char (c : ascii) : ascii :=
  if (97 <=? code c) && (code c <=? 122) then chr (code c - 32) else c.

Fixpoint lower (s : string) : string :=
  match s with
  | EmptyString => EmptyString
  | String c r => String (lower_char c) (lower r)
  end.

Fixpoint upper (s : string) : string :=
  match s with
  | EmptyString => EmptyString
  | String c r => String (upper_char c) (upper r)
  end.

(** ["=" * 50] *)
Fixpoint repeat_str (s : string) (n : nat) : string :=
  match n with
  | O => EmptyString
  | S k => s +:+ repeat_str s k
  end.

(** ["\n".join(lines)] *)
Fixpoint join (sep : string) (l : list string) : string :=
  match l with
  | [] => EmptyString
  | [x] => x
  | x :: r => x +:+ sep +:+ join sep r
  end.

(** The decimal digits of a non-negative integer, most significant
    first.  The fuel is the binary length, which bounds the decimal one. *)
Fixpoint digits_aux (fuel : nat) (n : Z) (acc : list ascii) : list ascii :=
  match fuel with
  | O => acc
  | S f =>
      let acc' := digit_char (n mod 10) :: acc in
      if n <? 10 then acc' else digits_aux f (n / 10) acc'
  end.

Definition digits (n : Z) : list ascii :=
  digits_aux (S (Z.to_nat (Z.log2 n))) n [].

(** [str(n)] for an [int].  (The interpreter's configurable cap on the
    length of an integer's decimal string is not part of the model.) *)
Definition str_int (n : Z) : string :=
  if n <? 0 then String "-" (string_of_list_ascii (digits (- n)))
  else string_of_list_ascii (digits n).

(** A number below [10^w] on exactly [w] digits, zero-filled, as the
    numeric fields of [strftime] are.  (Only the last [w] digits of a
    larger number would be kept; no field of a valid date is larger.) *)
Fixpoint pad_digits (w : nat) (n : Z) (acc : list ascii) : list ascii :=
  match w with
  | O => acc
  | S k => pad_digits k (n / 10) (digit_char (n mod 10) :: acc)
  end.

Definition zfill (w : nat) (n : Z) : string :=
  string_of_list_ascii (pad_digits w n []).

(** *** Binary64 numbers *)

Definition SF64 (m e : Z) : spec_float := binary_normalize prec emax m e false.

(** The float nearest to [m * 10^e] for [m > 0] (ties to even).  The
    quotient by a power of ten is taken with enough extra bits, and a
    sticky bit stands for the discarded remainder. *)
Definition nearest_decimal (m e : Z) : spec_float :=
  let nd := Z.of_nat (List.length (digits m)) in
  if 310 <? nd + e then S754_infinity false
  else if nd + e <? -330 then S754_zero false
  else if 0 <=? e then SF64 (m * 10 ^ e) 0
  else
    let den := 10 ^ (- e) in
    let s := Z.max 0 (64 + Z.log2 den - Z.log2 m) in
    let num := m * 2 ^ s in
    let q := num / den in
    let sticky := if num mod den =? 0 then 0 else 1 in
    SF64 (2 * q + sticky) (- s - 1).

(** [int] to [float], as in [x * n] for a float [x] and an int [n]:
    correctly rounded, [OverflowError] beyond the largest float. *)
Definition float_of_int (n : Z) : result float :=
  match SF64 n 0 with
  | S754_infinity _ => Raise OverflowError
  | sf => Ok (SF2Prim sf)
  end.

(** [x * n] with [x : float] and [n : int]. *)
Definition mul_int (x : float) (n : Z) : result float :=
  y <- float_of_int n ;; Ok (x * y)%float.

(** [sum(...)] over floats: left to right from zero, each addition
    rounded, as CPython computes it up to version 3.11 (later versions
    add a compensation term to float sums).  The [int] zero a sum over
    nothing returns is rendered as the float zero: the two compare
    equal, add alike and print alike under [.2f]. *)
Definition sum (l : list float) : float :=
  fold_left PrimFloat.add l 0%float.

(** *** [float(s)] for a string

    The accepted syntax is the interpreter's: surrounding white space
    (the blank and the characters 9 to 13), a sign, [inf], [infinity] or
    [nan] in any letter case, or a decimal numeral with an optional
    fraction and exponent; single underscores may separate digits. *)

Definition is_space (c : ascii) : bool :=
  ((9 <=? code c) && (code c <=? 13)) || (code c =? 32).

Fixpoint lstrip (l : list ascii) : list ascii :=
  match l with
  | c :: r => if is_space c then lstrip r else l
  | [] => []
  end.

Definition strip (l : list ascii) : list ascii := rev (lstrip (rev (lstrip l))).

Definition is_underscore (c : ascii) : bool := code c =? 95.

Fixpoint drop_underscores (prev : ascii) (l : list ascii) : option (list ascii) :=
  match l with
  | [] => if is_underscore prev then None else Some []
  | c :: r =>
      if is_underscore c then
        if is_digit prev then drop_underscores c r else None
      else if is_underscore prev && negb (is_digit c) then None
      else option_map (cons c) (drop_underscores c r)
  end.

Fixpoint span_digits (l : list ascii) : list ascii * list ascii :=
  match l with
  | c :: r =>
      if is_digit c then let '(d, rest) := span_digits r in (c :: d, rest)
      else ([], l)
  | [] => ([], [])
  end.

Definition digits_value (l : list ascii) : Z :=
  fold_left (fun acc c => 10 * acc + digit_val c) l 0.

Definition split_sign (l : list ascii) : bool * list ascii :=
  match l with
  | c :: r =>
      if code c =? 45 then (true, r)
      else if code c =? 43 then (false, r)
      else (false, l)
  | [] => (false, [])
  end.

Definition is_exp_mark (c : ascii) : bool := (code c =? 101) || (code c =? 69).

(** The exponent part; when no digit follows the mark, nothing is
    consumed. *)
Definition parse_exponent (l : list ascii) : Z * list ascii :=
  match l with
  | c :: r =>
      if is_exp_mark c then
        let '(neg, r1) := split_sign r in
        let '(ed, r2) := span_digits r1 in
        match ed with
        | [] => (0, l)
        | _ => ((if neg then - digits_value ed else digits_value ed), r2)
        end
      else (0, l)
  | [] => (0, [])
  end.

Definition parse_decimal (neg : bool) (l : list ascii) : option spec_float :=
  let '(ip, r1) := span_digits l in
  let '(fp, r2) :=
    match r1 with
    | c :: r => if code c =? 46 then span_digits r else ([], r1)
    | [] => ([], [])
    end in
  match ip ++ fp with
  | [] => None
  | ds =>
      let '(ex, r3) := parse_exponent r2 in
      match r3 with
      | [] =>
          let m := digits_value ds in
          let sf := if m =? 0 then S754_zero false
                    else nearest_decimal m (ex - Z.of_nat (List.length fp)) in
          Some (if neg then SFopp sf else sf)
      | _ => None
      end
  end.

Definition lower_list (l : list ascii) : list ascii := map lower_char l.

Definition parse_float (l : list ascii) : option spec_float :=
  match drop_underscores Ascii.zero l with
  | None => None
  | Some l1 =>
      let '(neg, body) := split_sign (strip l1) in
      let w := string_of_list_ascii (lower_list body) in
      if String.eqb w "inf" || String.eqb w "infinity"
      then Some (S754_infinity neg)
      else if String.eqb w "nan" then Some S754_nan
      else parse_decimal neg body
  end.

(** [repr(s)] for a string: between apostrophes, or between double
    quotes when the text has an apostrophe and no double quote; the
    quote in use and the backslash are escaped, and so are the control
    characters. *)
Definition hex_digit (n : Z) : ascii := if n <? 10 then chr (48 + n) else chr (87 + n).

Definition repr_char (quote c : ascii) : list ascii :=
  if Ascii.eqb c quote || (code c =? 92) then [chr 92; c]
  else if code c =? 9 then [chr 92; "t"%char]
  else if code c =? 10 then [chr 92; "n"%char]
  else if code c =? 13 then [chr 92; "r"%char]
  else if (code c <? 32) || (code c =? 127)
  then [chr 92; "x"%char; hex_digit (code c / 16); hex_digit (code c mod 16)]
  else [c].

Definition repr_str (s : string) : string :=
  let l := list_ascii_of_string s in
  let quote :=
    if existsb (fun c => code c =? 39) l && negb (existsb (fun c => code c =? 34) l)
    then chr 34 else chr 39 in
  string_of_list_ascii (quote :: flat_map (repr_char quote) l ++ [quote]).

Definition float_of_str (s : string) : result float :=
  match parse_float (list_ascii_of_string s) with
  | Some sf => Ok (SF2Prim sf)
  | None => Raise (ValueError ("could not convert string to float: " +:+ repr_str s))
  end.

(** *** [f"{x:.2f}"]: two decimals, rounded half to even on the exact
    binary value *)

Definition round_half_even (num den : Z) : Z :=
  let q := num / den in
  let r := num mod den in
  if 2 * r <? den then q
  else if den <? 2 * r then q + 1
  else if Z.even q then q else q + 1.

Definition sign_str (s : bool) : string := if s then "-" else "".

Definition fixed2 (c : Z) : string :=
  string_of_list_ascii (digits (c / 100)) +:+ "." +:+ zfill 2 (c mod 100).

Definition format_2f (x : float) : string :=
  match Prim2SF x with
  | S754_nan => "nan"
  | S754_infinity s => sign_str s +:+ "inf"
  | S754_zero s => sign_str s +:+ "0.00"
  | S754_finite s m e =>
      let c := if 0 <=? e then Z.pos m * 2 ^ e * 100
               else round_half_even (Z.pos m * 100) (2 ^ (- e)) in
      sign_str s +:+ fixed2 c
  end.

(** *** [str(x)] for a float: the shortest digit string that reads back
    as [x], in fixed notation for decimal exponents from -4 to 15 and in
    scientific notation otherwise *)

Definition lt_pow10 (num den p : Z) : bool :=
  if 0 <=? p then num <? 10 ^ p * den else num * 10 ^ (- p) <? den.

(** The least [p] from the starting point on with [num/den < 10^p]. *)
Fixpoint find_decpt (fuel : nat) (num den p : Z) : Z :=
  match fuel with
  | O => p
  | S f => if lt_pow10 num den p then p else find_decpt f num den (p + 1)
  end.

(** A starting point below the decimal exponent, from the binary one
    ([0.30103] approximates the decimal logarithm of two). *)
Definition decpt_lower_bound (num den : Z) : Z :=
  (Z.log2 num - Z.log2 den - 1) * 30103 / 100000 - 1.

Definition reads_back (x : float) (d k : Z) : bool :=
  PrimFloat.eqb (SF2Prim (nearest_decimal d k)) x.

(** The [n]-digit decimal nearest to [num/den] if it reads back as [x]
    (or else its neighbour on the other side). *)
Definition try_digits (x : float) (num den p n : Z) : option Z :=
  let k := n - p in
  let a := if 0 <=? k then num * 10 ^ k else num in
  let b := if 0 <=? k then den else den * 10 ^ (- k) in
  let q := a / b in
  let r := a mod b in
  if r =? 0 then (if reads_back x q (- k) then Some q else None)
  else
    let low_first := (2 * r <? b) || ((2 * r =? b) && Z.even q) in
    let c1 := if low_first then q else q + 1 in
    let c2 := if low_first then q + 1 else q in
    if reads_back x c1 (- k) then Some c1
    else if reads_back x c2 (- k) then Some c2
    else None.

Fixpoint shortest_digits (fuel : nat) (x : float) (num den p n : Z)
  : Z * Z :=
  match fuel with
  | O => (num / den, n)
  | S f =>
      match try_digits x num den p n with
      | Some d => (d, n)
      | None => shortest_digits f x num den p (n + 1)
      end
  end.

Fixpoint strip_zeros_rev (l : list ascii) : list ascii :=
  match l with
  | c :: r => if code c =? 48 then strip_zeros_rev r else l
  | [] => []
  end.

Definition zeros (n : Z) : list ascii := repeat "0"%char (Z.to_nat n).

(** Layout of the digit string [ds] with the decimal point after the
    first [decpt] digits. *)
Definition layout_repr (ds : list ascii) (decpt : Z) : list ascii :=
  let k := Z.of_nat (List.length ds) in
  if (-4 <? decpt) && (decpt <=? 16) then
    if decpt <=? 0 then "0"%char :: "."%char :: zeros (- decpt) ++ ds
    else if k <=? decpt then ds ++ zeros (decpt - k) ++ ["."%char; "0"%char]
    else firstn (Z.to_nat decpt) ds ++ "."%char :: skipn (Z.to_nat decpt) ds
  else
    let e := decpt - 1 in
    let mant := match ds with
                | [c] => [c]
                | c :: r => c :: "."%char :: r
                | [] => ["0"%char]
                end in
    mant ++ "e"%char :: (if e <? 0 then "-"%char else "+"%char)
         :: (if Z.abs e <? 10 then "0"%char :: digits (Z.abs e)
             else digits (Z.abs e)).

Definition repr_finite (x : float) (m : positive) (e : Z) : list ascii :=
  let num := if 0 <=? e then Z.pos m * 2 ^ e else Z.pos m in
  let den := if 0 <=? e then 1 else 2 ^ (- e) in
  let p := find_decpt 8 num den (decpt_lower_bound num den) in
  let '(d, n) := shortest_digits 17 (abs x) num den p 1 in
  let all := digits d in
  let decpt := p + (Z.of_nat (List.length all) - n) in
  layout_repr (rev (strip_zeros_rev (rev all))) decpt.

Definition str_float (x : float) : string :=
  match Prim2SF x with
  | S754_nan => "nan"
  | S754_infinity s => sign_str s +:+ "inf"
  | S754_zero s => sign_str s +:+ "0.0"
  | S754_finite s m e => sign_str s +:+ string_of_list_ascii (repr_finite x m e)
  end.

(** *** [list.pop(i)]: a negative index counts from the end *)

Definition pop {A : Type} (l : list A) (i : Z) : result (A * list A) :=
  let n := Z.of_nat (List.length l) in
  let j := if i <? 0 then i + n else i in
  if (0 <=? j) && (j <? n) then
    match l !! Z.to_nat j with
    | Some x => Ok (x, delete (Z.to_nat j) l)
    | None => Raise IndexError
    end
  else Raise IndexError.

(** *** [datetime] and the [strftime] directives in use *)

Record datetime : Type := {
  year : Z; month : Z; day : Z; hour : Z; minute : Z; second : Z
}.

Definition valid_datetime (d : datetime) : Prop :=
  1 <= year d <= 9999 /\ 1 <= month d <= 12 /\ 1 <= day d <= 31 /\
  0 <= hour d <= 23 /\ 0 <= minute d <= 59 /\ 0 <= second d <= 59.

Definition hour12 (h : Z) : Z := if h mod 12 =? 0 then 12 else h mod 12.

(** One directive.  The year is written on four digits, as documented
    (the C libraries differ below the year 1000: some omit the leading
    zeros), and the half-day mark is the one of the C locale. *)
Definition directive (c : ascii) (d : datetime) : string :=
  if Ascii.eqb c "m" then zfill 2 (month d)
  else if Ascii.eqb c "d" then zfill 2 (day d)
  else if Ascii.eqb c "Y" then zfill 4 (year d)
  else if Ascii.eqb c "H" then zfill 2 (hour d)
  else if Ascii.eqb c "M" then zfill 2 (minute d)
  else if Ascii.eqb c "S" then zfill 2 (second d)
  else if Ascii.eqb c "I" then zfill 2 (hour12 (hour d))
  else if Ascii.eqb c "p" then (if hour d <? 12 then "AM" else "PM")
  else if Ascii.eqb c "%" then "%"
  else String "%" (String c EmptyString).

Fixpoint strftime (fmt : string) (d : datetime) : string :=
  match fmt with
  | EmptyString => EmptyString
  | String c r =>
      if Ascii.eqb c "%" then
        match r with
        | String x r' => directive x d +:+ strftime r' d
        | EmptyString => "%"
        end
      else String c (strftime r d)
  end.

(** *** Comparing floats: [x <= y] on the decoded values, as
    IEEE 754 orders them ([nan] compares false with everything) *)

Definition float_le (x y : float) : bool := SFleb (Prim2SF x) (Prim2SF y).

(** [s.startswith(p)] and [s.endswith(p)] *)
Fixpoint starts_with (p l : list ascii) : bool :=
  match p, l with
  | [], _ => true
  | a :: p', c :: l' => Ascii.eqb a c && starts_with p' l'
  | _ :: _, [] => false
  end.

Definition startswith (s p : string) : bool :=
  starts_with (list_ascii_of_string p) (list_ascii_of_string s).

Definition endswith (s p : string) : bool :=
  starts_with (rev (list_ascii_of_string p)) (rev (list_ascii_of_string s)).

(** [sorted(l, reverse=True)] on strings: by insertion, from the largest
    down.  (Equal strings are indistinguishable, so the order among them
    does not matter.) *)
Fixpoint insert_desc (x : string) (l : list string) : list string :=
  match l with
  | [] => [x]
  | y :: r => if String.leb y x then x :: l else y :: insert_desc x r
  end.

Definition sorted_reverse (l : list string) : list string :=
  fold_right insert_desc [] l.

End Py.

(** ** The standard [configparser.ConfigParser], as far as the program
    uses it

    A parser holds the [DEFAULT] section and the named sections; option
    names are lower-cased, values are raw strings, and references of the
    form [%(name)s] are expanded when a value is read. *)

Module ConfigParser.

Record t : Type := {
  defaults : gmap string string;
  sections : gmap string (gmap string string)
}.

Definition empty : t := {| defaults := ∅; sections := ∅ |}.

Definition default_section : string := "DEFAULT".

Definition optionxform (o : string) : string := Py.lower o.

(** [section in parser] *)
Definition contains (cp : t) (section : string) : bool :=
  String.eqb section default_section || bool_decide (is_Some (sections cp !! section)).

Definition is_percent (c : ascii) : bool := Py.code c =? 37.

Definition has_percent (l : list ascii) : bool := existsb is_percent l.

(** [value.replace('%%', '')] *)
Fixpoint drop_escaped (l : list ascii) : list ascii :=
  match l with
  | a :: r =>
      match r with
      | b :: r' =>
          if is_percent a && is_percent b then drop_escaped r'
          else a :: drop_escaped r
      | [] => [a]
      end
  | [] => []
  end.

(** A reference [%(name)s] at the head of [l]: the name and what
    follows the reference. *)
Fixpoint reference_name (l acc : list ascii) : option (list ascii * list ascii) :=
  match l with
  | c :: r =>
      if Py.code c =? 41 then
        match acc, r with
        | _ :: _, s :: r' => if Py.code s =? 115 then Some (rev acc, r') else None
        | _, _ => None
        end
      else reference_name r (c :: acc)
  | [] => None
  end.

Definition reference (l : list ascii) : option (list ascii * list ascii) :=
  match l with
  | a :: b :: r =>
      if is_percent a && (Py.code b =? 40) then reference_name r [] else None
  | _ => None
  end.

(** [_KEYCRE.sub('', value)]; the fuel is the length of the text. *)
Fixpoint drop_references (fuel : nat) (l : list ascii) : list ascii :=
  match fuel, l with
  | S f, c :: r =>
      match reference l with
      | Some (_, rest) => drop_references f rest
      | None => c :: drop_references f r
      end
  | _, _ => l
  end.

(** [BasicInterpolation.before_set] *)
Definition before_set (value : string) : result string :=
  let l := drop_escaped (list_ascii_of_string value) in
  if has_percent (drop_references (List.length l) l)
  then Raise (ValueError "invalid interpolation syntax")
  else Ok value.

Inductive scan : Type :=
| Text
| AfterPercent
| InName (acc : list ascii)
| AfterName (name : list ascii).

(** [BasicInterpolation._interpolate_some]; [fuel] counts the nesting
    levels still allowed, ten at the outermost call. *)
Fixpoint interpolate_some (fuel : nat) (map : gmap string string)
    (rest : list ascii) : result (list ascii) :=
  match fuel with
  | O => Raise InterpolationError
  | S f =>
      (fix go (st : scan) (l : list ascii) {struct l} : result (list ascii) :=
         match st, l with
         | Text, [] => Ok []
         | Text, c :: r =>
             if is_percent c then go AfterPercent r
             else out <- go Text r ;; Ok (c :: out)
         | AfterPercent, c :: r =>
             if is_percent c then out <- go Text r ;; Ok (c :: out)
             else if Py.code c =? 40 then go (InName []) r
             else Raise InterpolationError
         | InName acc, c :: r =>
             if Py.code c =? 41 then
               match acc with
               | [] => Raise InterpolationError
               | _ => go (AfterName (rev acc)) r
               end
             else go (InName (c :: acc)) r
         | AfterName name, c :: r =>
             if Py.code c =? 115 then
               match map !! optionxform (string_of_list_ascii name) with
               | None => Raise InterpolationError
               | Some v =>
                   let lv := list_ascii_of_string v in
                   x <- (if has_percent lv then interpolate_some f map lv
                         else Ok lv) ;;
                   out <- go Text r ;;
                   Ok (x ++ out)
               end
             else Raise InterpolationError
         | _, [] => Raise InterpolationError
         end) Text rest
  end.

Definition MAX_INTERPOLATION_DEPTH : nat := 10.

(** [BasicInterpolation.before_get] *)
Definition before_get (map : gmap string string) (value : string) : result string :=
  l <- interpolate_some MAX_INTERPOLATION_DEPTH map (list_ascii_of_string value) ;;
  Ok (string_of_list_ascii l).

(** The chain of lookups of a section: the section, then [DEFAULT]. *)
Definition unify_values (cp : t) (section : string) : option (gmap string string) :=
  match sections cp !! section with
  | Some d => Some (d ∪ defaults cp)
  | None =>
      if String.eqb section default_section then Some (defaults cp) else None
  end.

(** [parser.getfloat(section, option, fallback=fb)]: the fallback
    stands in for a missing section or option only. *)
Definition getfloat (cp : t) (section option : string) (fallback : float)
  : result float :=
  match unify_values cp section with
  | None => Ok fallback
  | Some d =>
      match d !! optionxform option with
      | None => Ok fallback
      | Some raw => v <- before_get d raw ;; Py.float_of_str v
      end
  end.

(** [parser.set(section, option, value)] *)
Definition set (cp : t) (section option value : string) : result t :=
  _ <- (if String.eqb value "" then Ok value else before_set value) ;;
  if String.eqb section "" || String.eqb section default_section then
    Ok {| defaults := <[optionxform option := value]> (defaults cp);
          sections := sections cp |}
  else
    match sections cp !! section with
    | None => Raise NoSectionError
    | Some d =>
        Ok {| defaults := defaults cp;
              sections := <[section := <[optionxform option := value]> d]> (sections cp) |}
    end.

Fixpoint set_all (cp : t) (section : string) (kvs : list (string * string))
  : result t :=
  match kvs with
  | [] => Ok cp
  | (k, v) :: r => cp' <- set cp section k v ;; set_all cp' section r
  end.

(** [parser[section] = {k: v, ...}]: the section is emptied or created,
    then filled. *)
Definition setitem (cp : t) (section : string) (kvs : list (string * string))
  : result t :=
  let cleared :=
    if String.eqb section default_section then
      {| defaults := ∅; sections := sections cp |}
    else
      {| defaults := defaults cp; sections := <[section := ∅]> (sections cp) |} in
  set_all cleared section kvs.

End ConfigParser.

(** ** The environment: persisted files and the outcome of I/O calls *)

(** What a configuration file holds, as the reader sees it: a sequence
    of sections with their options, in the order of the file, or text on
    which the reader raises [ParsingError].  (A file that cannot be
    opened is skipped by [read], as an absent one is.) *)
Inductive ini_file : Type :=
| IniSections (secs : list (string * list (string * string)))
| IniRejected.

Record World : Type := {
  ini_files : gmap string ini_file;
  text_files : gmap string string;
  directories : gset string
}.

(** How a call that writes a file ends. *)
Inductive write_outcome (C : Type) : Type :=
| Written
| OpenFails
| WriteFails (partial : C).
Arguments Written {C}.
Arguments OpenFails {C}.
Arguments WriteFails {C} partial.

(** ** [models/config.py] *)

Module PriceConfig.

Record t : Type := {
  config_file : string;
  config : ConfigParser.t
}.

Definition with_config (self : t) (cp : ConfigParser.t) : t :=
  {| config_file := config_file self; config := cp |}.

Definition default_prices : list (string * list (string * string)) :=
  [ ("PRINT",
      [("monochrome_price", "5.00"); ("colored_price", "8.00");
       ("image_surcharge", "2.00")]);
    ("PHOTOCOPY",
      [("monochrome_price", "3.00"); ("colored_price", "5.00");
       ("image_surcharge", "2.00")]);
    ("SCAN",
      [("monochrome_price", "2.00"); ("colored_price", "4.00");
       ("image_surcharge", "2.00")]) ].

Fixpoint setitems (cp : ConfigParser.t) (l : list (string * list (string * string)))
  : result ConfigParser.t :=
  match l with
  | [] => Ok cp
  | (name, kvs) :: r => cp' <- ConfigParser.setitem cp name kvs ;; setitems cp' r
  end.

Definition load_default_config (self : t) : result t :=
  cp <- setitems (config self) default_prices ;; Ok (with_config self cp).

(** [parser.read(path)] on the sections of a file: each option is
    stored, raw, under its lower-cased name in the section it stands in. *)
Definition read_section (cp : ConfigParser.t) (name : string)
    (kvs : list (string * string)) : ConfigParser.t :=
  let add (d : gmap string string) :=
    fold_left (fun acc kv => <[ConfigParser.optionxform (fst kv) := snd kv]> acc) kvs d in
  if String.eqb name ConfigParser.default_section then
    {| ConfigParser.defaults := add (ConfigParser.defaults cp);
       ConfigParser.sections := ConfigParser.sections cp |}
  else
    {| ConfigParser.defaults := ConfigParser.defaults cp;
       ConfigParser.sections :=
         <[name := add (default ∅ (ConfigParser.sections cp !! name))]>
           (ConfigParser.sections cp) |}.

Definition read_sections (cp : ConfigParser.t)
    (secs : list (string * list (string * string))) : ConfigParser.t :=
  fold_left (fun acc s => read_section acc (fst s) (snd s)) secs cp.

(** The reader is strict: a section the file holds twice, [DEFAULT]
    apart, and an option a section name holds twice in the file raise at
    their second occurrence; what the parser held before the read does
    not count.  The exception leaves [__init__], and the parser is lost
    with it, so the check is made ahead of the reading. *)
Fixpoint check_options (name : string) (kvs : list (string * string))
    (added : gset (string * string)) : result (gset (string * string)) :=
  match kvs with
  | [] => Ok added
  | kv :: r =>
      let key := (name, ConfigParser.optionxform (fst kv)) in
      if bool_decide (key ∈ added) then Raise DuplicateOptionError
      else check_options name r ({[key]} ∪ added)
  end.

Fixpoint check_sections (secs : list (string * list (string * string)))
    (sections_added : gset string) (options_added : gset (string * string))
  : result unit :=
  match secs with
  | [] => Ok tt
  | s :: r =>
      if negb (String.eqb (fst s) ConfigParser.default_section)
         && bool_decide (fst s ∈ sections_added)
      then Raise DuplicateSectionError
      else
        options_added' <- check_options (fst s) (snd s) options_added ;;
        check_sections r ({[fst s]} ∪ sections_added) options_added'
  end.

Definition load_config (self : t) (w : World) : result t :=
  match ini_files w !! config_file self with
  | None => Ok self
  | Some (IniSections secs) =>
      _ <- check_sections secs ∅ ∅ ;;
      Ok (with_config self (read_sections (config self) secs))
  | Some IniRejected => Raise ParsingError
  end.

(** [PriceConfig(config_file)] *)
Definition init (config_file : string) (w : World) : result t :=
  let self := {| config_file := config_file; config := ConfigParser.empty |} in
  self1 <- load_default_config self ;;
  load_config self1 w.

(** [parser.write(f)]: the [DEFAULT] section when it has options, then
    every section. *)
Definition dump (cp : ConfigParser.t) : list (string * list (string * string)) :=
  (if bool_decide (ConfigParser.defaults cp = ∅) then []
   else [(ConfigParser.default_section, map_to_list (ConfigParser.defaults cp))])
  ++ map (fun s => (fst s, map_to_list (snd s))) (map_to_list (ConfigParser.sections cp)).

Definition save_config (self : t) (w : World) (io : write_outcome ini_file)
  : result unit * World :=
  let store (f : ini_file) :=
    {| ini_files := <[config_file self := f]> (ini_files w);
       text_files := text_files w;
       directories := directories w |} in
  match io with
  | OpenFails => (Raise OSError, w)
  | WriteFails partial => (Raise OSError, store partial)
  | Written => (Ok tt, store (IniSections (dump (config self))))
  end.

Definition get_monochrome_price (self : t) (service : string) : result float :=
  let section := Py.upper service in
  ConfigParser.getfloat (config self) section "monochrome_price" 0.10%float.

Definition get_colored_price (self : t) (service : string) : result float :=
  let section := Py.upper service in
  ConfigParser.getfloat (config self) section "colored_price" 0.25%float.

Definition get_image_surcharge (self : t) (service : string) : result float :=
  let section := Py.upper service in
  ConfigParser.getfloat (config self) section "image_surcharge" 0.05%float.

Definition set_price (option : string) (self : t) (service : string) (price : float)
  : result t :=
  let section := Py.upper service in
  cp <- (if ConfigParser.contains (config self) section then Ok (config self)
         else ConfigParser.setitem (config self) section []) ;;
  cp' <- ConfigParser.set cp section option (Py.str_float price) ;;
  Ok (with_config self cp').

Definition set_monochrome_price := set_price "monochrome_price".
Definition set_colored_price := set_price "colored_price".
Definition set_image_surcharge := set_price "image_surcharge".

(** The dictionary of one service in [get_all_prices]. *)
Record prices : Type := {
  monochrome : float;
  colored : float;
  image_surcharge : float
}.

(** A dictionary display evaluates its values in order; the first
    look-up to raise ends it. *)
Definition service_prices (self : t) (service : string) : result prices :=
  m <- get_monochrome_price self service ;;
  c <- get_colored_price self service ;;
  i <- get_image_surcharge self service ;;
  Ok {| monochrome := m; colored := c; image_surcharge := i |}.

Fixpoint all_prices (self : t) (services : list string)
  : result (list (string * prices)) :=
  match services with
  | [] => Ok []
  | service :: r =>
      p <- service_prices self service ;;
      rest <- all_prices self r ;;
      Ok ((service, p) :: rest)
  end.

Definition get_all_prices (self : t) : result (list (string * prices)) :=
  all_prices self ["print"; "photocopy"; "scan"].

End PriceConfig.

(** ** [models/transaction.py] *)

Inductive ServiceType : Type := PRINT | PHOTOCOPY | SCAN.

Definition value (s : ServiceType) : string :=
  match s with
  | PRINT => "Print"
  | PHOTOCOPY => "Photocopy"
  | SCAN => "Scan"
  end.

Module Transaction.

Record t : Type := {
  service_type : ServiceType;
  pages : Z;
  is_colored : bool;
  has_images : bool;
  timestamp : Py.datetime;
  subtotal : float
}.

(** [Transaction(service_type, pages, is_colored, has_images)] at the
    clock reading [now]. *)
Definition init (service_type : ServiceType) (pages : Z)
    (is_colored has_images : bool) (now : Py.datetime) : t :=
  {| service_type := service_type; pages := pages; is_colored := is_colored;
     has_images := has_images; timestamp := now; subtotal := 0%float |}.

Definition with_subtotal (self : t) (x : float) : t :=
  {| service_type := service_type self; pages := pages self;
     is_colored := is_colored self; has_images := has_images self;
     timestamp := timestamp self; subtotal := x |}.

(** The method stores the subtotal in the object and returns it.  An
    exception leaves the object as the assignments made so far have it:
    untouched when the base price fails, holding the base cost when the
    surcharge fails. *)
Definition calculate_subtotal (self : t) (config : PriceConfig.t)
  : result float * t :=
  let service_name := Py.lower (value (service_type self)) in
  let base_price :=
    if is_colored self then PriceConfig.get_colored_price config service_name
    else PriceConfig.get_monochrome_price config service_name in
  match (b <- base_price ;; Py.mul_int b (pages self)) with
  | Raise e => (Raise e, self)
  | Ok base_cost =>
      let self1 := with_subtotal self base_cost in
      if has_images self then
        match (s <- PriceConfig.get_image_surcharge config service_name ;;
               Py.mul_int s (pages self)) with
        | Raise e => (Raise e, self1)
        | Ok extra =>
            let self2 := with_subtotal self1 (base_cost + extra)%float in
            (Ok (subtotal self2), self2)
        end
      else (Ok (subtotal self1), self1)
  end.

Definition to_string (self : t) : string :=
  let color_str := if is_colored self then "Colored" else "Monochrome" in
  let images_str := if has_images self then " (with images)" else "" in
  value (service_type self) +:+ " - " +:+ Py.str_int (pages self) +:+ " pages - "
    +:+ color_str +:+ images_str +:+ ": ₱" +:+ Py.format_2f (subtotal self).

End Transaction.

Module Receipt.

Record t : Type := {
  transactions : list Transaction.t;
  timestamp : Py.datetime;
  total : float
}.

(** [Receipt()] at the clock reading [now]. *)
Definition init (now : Py.datetime) : t :=
  {| transactions := []; timestamp := now; total := 0%float |}.

Definition calculate_total (self : t) : float * t :=
  let x := Py.sum (map Transaction.subtotal (transactions self)) in
  (x, {| transactions := transactions self; timestamp := timestamp self; total := x |}).

Definition add_transaction (self : t) (transaction : Transaction.t) : t :=
  let self1 := {| transactions := transactions self ++ [transaction];
                  timestamp := timestamp self; total := total self |} in
  snd (calculate_total self1).

Definition remove_transaction (self : t) (index : Z) : result unit * t :=
  if (0 <=? index) && (index <? Z.of_nat (List.length (transactions self))) then
    match Py.pop (transactions self) index with
    | Raise e => (Raise e, self)
    | Ok (_, rest) =>
        let self1 := {| transactions := rest; timestamp := timestamp self;
                        total := total self |} in
        (Ok tt, snd (calculate_total self1))
    end
  else (Ok tt, self).

Definition get_receipt_filename (self : t) : string :=
  let timestamp_str := Py.strftime "%m-%d-%Y_%H-%M-%S" (timestamp self) in
  "Receipt_" +:+ timestamp_str +:+ ".txt".

(** The loop over [enumerate(self.transactions, 1)]. *)
Fixpoint numbered_lines (i : Z) (l : list Transaction.t) : list string :=
  match l with
  | [] => []
  | transaction :: r =>
      (Py.str_int i +:+ ". " +:+ Transaction.to_string transaction)
        :: numbered_lines (i + 1) r
  end.

Definition receipt_lines (self : t) : list string :=
  [ Py.repeat_str "=" 50;
    "           PRINTING BUSINESS POS";
    Py.repeat_str "=" 50;
    "";
    "Date: " +:+ Py.strftime "%m/%d/%Y" (timestamp self);
    "Time: " +:+ Py.strftime "%I:%M:%S %p" (timestamp self);
    "";
    Py.repeat_str "-" 50;
    "TRANSACTION DETAILS:";
    Py.repeat_str "-" 50 ]
  ++ numbered_lines 1 (transactions self)
  ++ [ "";
       Py.repeat_str "-" 50;
       "TOTAL: ₱" +:+ Py.format_2f (total self);
       Py.repeat_str "-" 50;
       "";
       "Thank you for your business!";
       Py.repeat_str "=" 50 ].

Definition generate_receipt_text (self : t) : string :=
  Py.join (String (Py.chr 10) EmptyString) (receipt_lines self).

End Receipt.

(** ** [controllers/pos_controller.py] *)

Module POSController.

Record t : Type := {
  config : PriceConfig.t;
  current_receipt : Receipt.t;
  receipt_history : list Receipt.t
}.

(** [POSController()] *)
Definition init (w : World) (now : Py.datetime) : result t :=
  cfg <- PriceConfig.init "config.ini" w ;;
  Ok {| config := cfg; current_receipt := Receipt.init now; receipt_history := [] |}.

Definition with_receipt (self : t) (r : Receipt.t) : t :=
  {| config := config self; current_receipt := r;
     receipt_history := receipt_history self |}.

Definition with_config (self : t) (cfg : PriceConfig.t) : t :=
  {| config := cfg; current_receipt := current_receipt self;
     receipt_history := receipt_history self |}.

Definition add_transaction (self : t) (service_type : ServiceType) (pages : Z)
    (is_colored has_images : bool) (now : Py.datetime)
  : result Transaction.t * t :=
  let transaction := Transaction.init service_type pages is_colored has_images now in
  match Transaction.calculate_subtotal transaction (config self) with
  | (Raise e, _) => (Raise e, self)
  | (Ok _, transaction') =>
      (Ok transaction',
       with_receipt self (Receipt.add_transaction (current_receipt self) transaction'))
  end.

(** The [try] block and its [except IndexError] handler; any other
    exception would leave the method. *)
Definition remove_transaction (self : t) (index : Z) : result bool * t :=
  match Receipt.remove_transaction (current_receipt self) index with
  | (Ok _, r) => (Ok true, with_receipt self r)
  | (Raise IndexError, r) => (Ok false, with_receipt self r)
  | (Raise e, r) => (Raise e, with_receipt self r)
  end.

Definition clear_current_receipt (self : t) (now : Py.datetime) : t :=
  with_receipt self (Receipt.init now).

Definition get_current_transactions (self : t) : list Transaction.t :=
  Receipt.transactions (current_receipt self).

Definition get_current_total (self : t) : float * t :=
  let '(x, r) := Receipt.calculate_total (current_receipt self) in
  (x, with_receipt self r).

(** [os.path.join("receipts", name)] *)
Definition receipt_path (name : string) : string := "receipts/" +:+ name.

(** [makedirs_ok] tells whether [os.makedirs] succeeds, [io] how the
    [open] and [write] end, and [now] is the clock reading when the
    fresh receipt is made. *)
Definition generate_receipt (self : t) (w : World) (makedirs_ok : bool)
    (io : write_outcome string) (now : Py.datetime)
  : result string * t * World :=
  match Receipt.transactions (current_receipt self) with
  | [] => (Raise (ValueError "No transactions to generate receipt for"), self, w)
  | _ :: _ =>
      if negb makedirs_ok then (Raise OSError, self, w)
      else
        let w1 := {| ini_files := ini_files w; text_files := text_files w;
                     directories := {["receipts"]} ∪ directories w |} in
        let receipt_content := Receipt.generate_receipt_text (current_receipt self) in
        let filename := receipt_path (Receipt.get_receipt_filename (current_receipt self)) in
        let store (c : string) :=
          {| ini_files := ini_files w1;
             text_files := <[filename := c]> (text_files w1);
             directories := directories w1 |} in
        match io with
        | OpenFails => (Raise OSError, self, w1)
        | WriteFails partial => (Raise OSError, self, store partial)
        | Written =>
            (Ok filename,
             {| config := config self;
                current_receipt := Receipt.init now;
                receipt_history := receipt_history self ++ [current_receipt self] |},
             store receipt_content)
        end
  end.

(** The three setters run in order; an exception leaves the table as
    the setters before it made it, and the save is reached only when
    all three returned. *)
Definition update_pricing (self : t) (w : World) (io : write_outcome ini_file)
    (service : string) (monochrome_price colored_price image_surcharge : float)
  : result unit * t * World :=
  match PriceConfig.set_monochrome_price (config self) service monochrome_price with
  | Raise e => (Raise e, self, w)
  | Ok c1 =>
      match PriceConfig.set_colored_price c1 service colored_price with
      | Raise e => (Raise e, with_config self c1, w)
      | Ok c2 =>
          match PriceConfig.set_image_surcharge c2 service image_surcharge with
          | Raise e => (Raise e, with_config self c2, w)
          | Ok c3 =>
              let '(r, w') := PriceConfig.save_config c3 w io in
              (r, with_config self c3, w')
          end
      end
  end.

(** The loop of [recalculate_current_transactions]: an exception stops
    it, with the transactions before the failing one already updated. *)
Fixpoint recalculate_each (cfg : PriceConfig.t) (l : list Transaction.t)
  : result unit * list Transaction.t :=
  match l with
  | [] => (Ok tt, [])
  | transaction :: r =>
      match Transaction.calculate_subtotal transaction cfg with
      | (Raise e, transaction') => (Raise e, transaction' :: r)
      | (Ok _, transaction') =>
          let '(res, r') := recalculate_each cfg r in
          (res, transaction' :: r')
      end
  end.

Definition recalculate_current_transactions (self : t) : result unit * t :=
  let r := current_receipt self in
  let '(res, l) := recalculate_each (config self) (Receipt.transactions r) in
  let r1 := {| Receipt.transactions := l; Receipt.timestamp := Receipt.timestamp r;
               Receipt.total := Receipt.total r |} in
  match res with
  | Raise e => (Raise e, with_receipt self r1)
  | Ok _ => (Ok tt, with_receipt self (snd (Receipt.calculate_total r1)))
  end.

Definition get_receipt_history (self : t) : list Receipt.t := receipt_history self.

Definition get_pricing_info (self : t) (service : string) : result PriceConfig.prices :=
  PriceConfig.service_prices (config self) service.

Definition get_all_pricing (self : t) : result (list (string * PriceConfig.prices)) :=
  PriceConfig.get_all_prices (config self).

(** The dictionary of [get_transaction_preview]. *)
Record preview : Type := {
  pages : Z;
  base_price : float;
  base_total : float;
  is_colored : bool;
  has_images : bool;
  image_surcharge : float;
  image_total : float;
  subtotal : float
}.

(** The temporary transaction is priced first; the base price is then
    looked up again for the breakdown, and the surcharge too when the
    transaction has images.  The controller itself is not touched. *)
Definition get_transaction_preview (self : t) (service_type : ServiceType)
    (n : Z) (colored images : bool) (now : Py.datetime) : result preview :=
  let temp_transaction := Transaction.init service_type n colored images now in
  sub <- fst (Transaction.calculate_subtotal temp_transaction (config self)) ;;
  let service_name := Py.lower (value service_type) in
  price <- (if colored then PriceConfig.get_colored_price (config self) service_name
            else PriceConfig.get_monochrome_price (config self) service_name) ;;
  total <- Py.mul_int price n ;;
  let p := {| pages := n; base_price := price; base_total := total;
              is_colored := colored; has_images := images;
              image_surcharge := 0; image_total := 0; subtotal := sub |} in
  if images then
    s <- PriceConfig.get_image_surcharge (config self) service_name ;;
    extra <- Py.mul_int s n ;;
    Ok {| pages := n; base_price := price; base_total := total;
          is_colored := colored; has_images := images;
          image_surcharge := s; image_total := extra; subtotal := sub |}
  else Ok p.

End POSController.

(** ** [utils.py] *)

Module Utils.

Definition format_currency (amount : float) : string := "₱" +:+ Py.format_2f amount.

(** [0.01 <= price <= 100.00] *)
Definition validate_pricing (price : float) : bool :=
  Py.float_le 0.01 price && Py.float_le price 100.

(** The paths of the file system: its files and its directories, each
    spelled as the program spells it. *)
Definition paths (w : World) : gset string :=
  dom (text_files w) ∪ dom (ini_files w) ∪ directories w.

(** [os.path.exists(p)] *)
Definition path_exists (w : World) (p : string) : bool := bool_decide (p ∈ paths w).

(** The name under which a path shows in the listing of a directory, if
    it lies directly in it. *)
Definition entry_name (dir path : string) : option string :=
  let d := list_ascii_of_string dir ++ ["/"%char] in
  let p := list_ascii_of_string path in
  if Py.starts_with d p then
    let name := skipn (List.length d) p in
    match name with
    | [] => None
    | _ :: _ =>
        if existsb (Ascii.eqb "/"%char) name then None
        else Some (string_of_list_ascii name)
    end
  else None.

(** [os.listdir(dir)]: the names of the entries of the directory, in an
    order of the system's choosing; an [OSError] (a
    [NotADirectoryError]) when the path is no directory. *)
Definition listdir (w : World) (dir : string) : result (list string) :=
  if bool_decide (dir ∈ directories w) then
    Ok (omap (entry_name dir) (elements (paths w)))
  else Raise OSError.

(** The loop over the listing and the final [sorted(files,
    reverse=True)].  File names are held as their bytes; on names that
    are valid UTF-8 the order of the bytes is the order of the code
    points Python compares by. *)
Definition select_receipts (receipts_dir : string) (names : list string) : list string :=
  let files :=
    map (fun filename => receipts_dir +:+ "/" +:+ filename)
      (filter (fun filename =>
                 Py.startswith filename "Receipt_" && Py.endswith filename ".txt" = true)
         names) in
  Py.sorted_reverse files.

Definition get_receipt_files (w : World) : result (list string) :=
  let receipts_dir := "receipts" in
  if negb (path_exists w receipts_dir) then Ok []
  else names <- listdir w receipts_dir ;; Ok (select_receipts receipts_dir names).

End Utils.

(** * The vocabulary of the statements *)

Definition empty_world : World :=
  {| ini_files := ∅; text_files := ∅; directories := ∅ |}.

Definition noon : Py.datetime :=
  {| Py.year := 2025; Py.month := 7; Py.day := 4;
     Py.hour := 12; Py.minute := 0; Py.second := 0 |}.

(** A reading of the clock: a valid date and time of day, the year on
    four digits. *)
Definition clock_reading (d : Py.datetime) : Prop :=
  Py.valid_datetime d /\ 1000 <= Py.year d.

(** The rate triple of a service category in a price table. *)
Definition monochrome_rate (cfg : PriceConfig.t) (C : ServiceType) : result float :=
  PriceConfig.get_monochrome_price cfg (Py.lower (value C)).
Definition colored_rate (cfg : PriceConfig.t) (C : ServiceType) : result float :=
  PriceConfig.get_colored_price cfg (Py.lower (value C)).
Definition image_surcharge (cfg : PriceConfig.t) (C : ServiceType) : result float :=
  PriceConfig.get_image_surcharge cfg (Py.lower (value C)).

(** The subtotal formula in the words of the specification:
    [base = is_colored ? colored_rate : monochrome_rate;
     subtotal = base * pages;
     if has_images: subtotal += image_surcharge * pages]. *)
Definition spec_subtotal (cfg : PriceConfig.t) (C : ServiceType) (pages : Z)
    (is_colored has_images : bool) : result float :=
  base <- (if is_colored then colored_rate cfg C else monochrome_rate cfg C) ;;
  subtotal <- Py.mul_int base pages ;;
  if has_images then
    surcharge <- image_surcharge cfg C ;;
    extra <- Py.mul_int surcharge pages ;;
    Ok (subtotal + extra)%float
  else Ok subtotal.

(** The receipt invariant: the cached total is the sum of the cached
    subtotals. *)
Definition total_is_sum (r : Receipt.t) : Prop :=
  Receipt.total r = Py.sum (map Transaction.subtotal (Receipt.transactions r)).

Definition EmptyReceipt : exn := ValueError "No transactions to generate receipt for".

(** The table a controller starts with when no configuration file
    exists, and a coloured five-page print job with images. *)
Definition default_table : PriceConfig.t :=
  Eval vm_compute in
    match PriceConfig.init "config.ini" empty_world with
    | Ok c => c
    | Raise _ => {| PriceConfig.config_file := "config.ini";
                    PriceConfig.config := ConfigParser.empty |}
    end.

Definition print_job : Transaction.t := Transaction.init PRINT 5 true true noon.

Definition fresh_controller : POSController.t :=
  {| POSController.config := default_table;
     POSController.current_receipt := Receipt.init noon;
     POSController.receipt_history := [] |}.

(** Reading a name of the form [Receipt_MM-DD-YYYY_HH-MM-SS.txt] back:
    each literal character is checked, each field is read over exactly
    its number of digits, and nothing may follow. *)
Fixpoint take_digits (n : nat) (acc : Z) (l : list ascii) : option (Z * list ascii) :=
  match n with
  | O => Some (acc, l)
  | S k =>
      match l with
      | c :: r =>
          if Py.is_digit c then take_digits k (10 * acc + Py.digit_val c) r else None
      | [] => None
      end
  end.

Fixpoint expect (lit l : list ascii) : option (list ascii) :=
  match lit with
  | [] => Some l
  | a :: lit' =>
      match l with
      | c :: r => if Ascii.eqb a c then expect lit' r else None
      | [] => None
      end
  end.

Definition parse_receipt_filename (s : string) : option Py.datetime :=
  l ← expect (list_ascii_of_string "Receipt_") (list_ascii_of_string s);
  '(mo, l) ← take_digits 2 0 l;
  l ← expect ["-"%char] l;
  '(d, l) ← take_digits 2 0 l;
  l ← expect ["-"%char] l;
  '(y, l) ← take_digits 4 0 l;
  l ← expect ["_"%char] l;
  '(h, l) ← take_digits 2 0 l;
  l ← expect ["-"%char] l;
  '(mi, l) ← take_digits 2 0 l;
  l ← expect ["-"%char] l;
  '(sec, l) ← take_digits 2 0 l;
  l ← expect (list_ascii_of_string ".txt") l;
  match l with
  | [] => Some {| Py.year := y; Py.month := mo; Py.day := d;
                  Py.hour := h; Py.minute := mi; Py.second := sec |}
  | _ :: _ => None
  end.

(** The name of a category in the words of the specification. *)
Definition service_name (C : ServiceType) : string :=
  match C with PRINT => "Print" | PHOTOCOPY => "Photocopy" | SCAN => "Scan" end.

(** An amount on exactly two decimals: an optional minus sign, at least
    one digit, a point and two digits. *)
Definition two_decimals (s : string) : bool :=
  let l := list_ascii_of_string s in
  let body := match l with
              | c :: r => if Py.code c =? 45 then r else l
              | [] => []
              end in
  let '(ip, rest) := Py.span_digits body in
  match ip, rest with
  | _ :: _, p :: a :: b :: [] =>
      (Py.code p =? 46) && Py.is_digit a && Py.is_digit b
  | _, _ => false
  end.

Definition is_finite (x : float) : bool :=
  match Prim2SF x with
  | S754_zero _ | S754_finite _ _ _ => true
  | S754_infinity _ | S754_nan => false
  end.

Definition banner : string := "==================================================".
Definition separator : string := "--------------------------------------------------".

(** *** Reading the receipt text back

    The readers below are written for the statements alone: what the
    program prints is checked by reading it back, not by how the
    program builds it. *)

Definition newline : ascii := Py.chr 10.

(** A text without a newline. *)
Definition one_line (s : string) : Prop :=
  forallb (fun c => negb (Ascii.eqb c newline)) (list_ascii_of_string s) = true.

(** The lines of a text, as [text.split("\n")] gives them. *)
Fixpoint lines_of (s : string) : list string :=
  match s with
  | EmptyString => [EmptyString]
  | String c r =>
      if Ascii.eqb c newline then EmptyString :: lines_of r
      else match lines_of r with
           | first :: rest => String c first :: rest
           | [] => [String c EmptyString]
           end
  end.

(** A natural number read from its decimal digits: at least one digit,
    and no leading zero but for zero itself. *)
Fixpoint read_digits (l : list ascii) (acc : Z) : option Z :=
  match l with
  | [] => Some acc
  | c :: r => if Py.is_digit c then read_digits r (10 * acc + Py.digit_val c) else None
  end.

Definition read_nat (l : list ascii) : option Z :=
  match l with
  | [] => None
  | [_] => read_digits l 0
  | c :: _ :: _ => if Py.code c =? 48 then None else read_digits l 0
  end.

(** An integer: a natural number, or a positive one after a minus
    sign. *)
Definition read_int (l : list ascii) : option Z :=
  match l with
  | c :: r =>
      if Py.code c =? 45 then
        match read_nat r with
        | Some n => if 0 <? n then Some (- n) else None
        | None => None
        end
      else read_nat l
  | [] => None
  end.

(** An amount on two decimals: an optional minus sign, a natural number,
    a point and exactly two digits; read as the sign and the number of
    hundredths. *)
Definition read_amount (s : string) : option (bool * Z) :=
  let l := list_ascii_of_string s in
  let '(negative, body) :=
    match l with
    | c :: r => if Py.code c =? 45 then (true, r) else (false, l)
    | [] => (false, l)
    end in
  match rev body with
  | b :: a :: p :: units =>
      if (Py.code p =? 46) && Py.is_digit a && Py.is_digit b then
        match read_nat (rev units) with
        | Some n => Some (negative, 100 * n + 10 * Py.digit_val a + Py.digit_val b)
        | None => None
        end
      else None
  | _ => None
  end.

(** [c] hundredths is the magnitude [m * 2^e] rounded to the nearest
    hundredth, the even one of two equally near. *)
Definition nearest_hundredths (m : positive) (e : Z) (c : Z) : Prop :=
  let num := Z.pos m * 100 * 2 ^ Z.max 0 e in
  let den := 2 ^ Z.max 0 (- e) in
  2 * Z.abs (num - c * den) <= den
  /\ (2 * Z.abs (num - c * den) = den -> Z.even c = true).

(** The text shows the amount: a finite amount on two decimals, rounded
    to the nearest hundredth; an infinite one and a [nan] by name. *)
Definition shows_amount (x : float) (a : string) : Prop :=
  match Prim2SF x with
  | S754_zero s => read_amount a = Some (s, 0)
  | S754_finite s m e => exists c, read_amount a = Some (s, c) /\ nearest_hundredths m e c
  | S754_infinity s => a = if s then "-inf" else "inf"
  | S754_nan => a = "nan"
  end.

(** The one-line description of a transaction, in the layout of the
    specification, the page count and the amount being read back. *)
Definition description (t : Transaction.t) (line : string) : Prop :=
  exists pages amount : string,
    line = service_name (Transaction.service_type t) +:+ " - " +:+ pages +:+ " pages - "
           +:+ (if Transaction.is_colored t then "Colored" else "Monochrome")
           +:+ (if Transaction.has_images t then " (with images)" else "")
           +:+ ": ₱" +:+ amount
    /\ read_int (list_ascii_of_string pages) = Some (Transaction.pages t)
    /\ shows_amount (Transaction.subtotal t) amount.

(** The date line [Date: MM/DD/YYYY] read back as month, day and year. *)
Definition parse_date_line (s : string) : option (Z * Z * Z) :=
  l ← expect (list_ascii_of_string "Date: ") (list_ascii_of_string s);
  '(mo, l) ← take_digits 2 0 l;
  l ← expect ["/"%char] l;
  '(d, l) ← take_digits 2 0 l;
  l ← expect ["/"%char] l;
  '(y, l) ← take_digits 4 0 l;
  match l with
  | [] => Some (mo, d, y)
  | _ :: _ => None
  end.

(** The time line [Time: HH:MM:SS AM] or [... PM] read back as the hour
    on the dial, minute, second, and whether it is past noon. *)
Definition parse_time_line (s : string) : option (Z * Z * Z * bool) :=
  l ← expect (list_ascii_of_string "Time: ") (list_ascii_of_string s);
  '(h, l) ← take_digits 2 0 l;
  l ← expect [":"%char] l;
  '(mi, l) ← take_digits 2 0 l;
  l ← expect [":"%char] l;
  '(sec, l) ← take_digits 2 0 l;
  l ← expect [" "%char] l;
  if String.eqb (string_of_list_ascii l) "AM" then Some (h, mi, sec, false)
  else if String.eqb (string_of_list_ascii l) "PM" then Some (h, mi, sec, true)
  else None.

(** The hour of the day that a 12-hour dial shows as [h], before or
    past noon. *)
Definition hour_of_day (h : Z) (past_noon : bool) : Z :=
  h mod 12 + (if past_noon then 12 else 0).

(** The lines of a receipt, around the date, the time, the items and the
    total. *)
Definition layout (date time : string) (items : list string) (total : string)
  : list string :=
  [ banner; "           PRINTING BUSINESS POS"; banner; "";
    date; time; "";
    separator; "TRANSACTION DETAILS:"; separator ]
  ++ items
  ++ [ ""; separator; "TOTAL: ₱" +:+ total; separator; "";
       "Thank you for your business!"; banner ].

(** A table in which printing costs 1e308 a page, and the controller
    after ten monochrome pages have been added under it. *)
Definition costly_controller : POSController.t :=
  snd (POSController.add_transaction
         (snd (fst (POSController.update_pricing fresh_controller empty_world Written
                      "print" 1e308 1e308 1e308)))
         PRINT 10 false false noon).

(** The three rates of a category, by name. *)
Inductive rate : Type := Monochrome | Colored | Surcharge.

Definition option_name (f : rate) : string :=
  match f with
  | Monochrome => "monochrome_price"
  | Colored => "colored_price"
  | Surcharge => "image_surcharge"
  end.

Definition lookup_rate (cfg : PriceConfig.t) (C : ServiceType) (f : rate) : result float :=
  match f with
  | Monochrome => monochrome_rate cfg C
  | Colored => colored_rate cfg C
  | Surcharge => image_surcharge cfg C
  end.

(** The section a category is looked up in: its name lower-cased by the
    transaction and upper-cased again by the price table. *)
Definition section_name (C : ServiceType) : string := Py.upper (Py.lower (value C)).

(** The text the table holds for an option of a section. *)
Definition raw_value (cp : ConfigParser.t) (section key : string) : option string :=
  ConfigParser.sections cp !! section ≫= (.!! key).

(** The built-in text for a rate. *)
Definition default_raw (C : ServiceType) (f : rate) : string :=
  default "" (raw_value (PriceConfig.config default_table) (section_name C) (option_name f)).

(** The text a configuration file gives for an option of a section, if
    any; a later occurrence overrides an earlier one. *)
Fixpoint last_value (kvs : list (string * string)) (key : string) : option string :=
  match kvs with
  | [] => None
  | (k, v) :: r =>
      match last_value r key with
      | Some v' => Some v'
      | None => if String.eqb (ConfigParser.optionxform k) key then Some v else None
      end
  end.

Fixpoint persisted (secs : list (string * list (string * string)))
    (section key : string) : option string :=
  match secs with
  | [] => None
  | (name, kvs) :: rest =>
      match persisted rest section key with
      | Some v => Some v
      | None => if String.eqb name section then last_value kvs key else None
      end
  end.

Definition no_percent (s : string) : Prop :=
  ConfigParser.has_percent (list_ascii_of_string s) = false.

(** A file in ASCII text: the names of its sections, the names of its
    options and their values. *)
Definition ascii_file (secs : list (string * list (string * string))) : Prop :=
  Forall (fun s =>
            Py.isascii (fst s) = true
            /\ Forall (fun kv => Py.isascii (fst kv) = true /\ Py.isascii (snd kv) = true)
                 (snd s)) secs.

(** The section headers of a file, [DEFAULT] apart, and its options,
    each with the section it stands in and under its lower-cased name. *)
Definition file_sections (secs : list (string * list (string * string))) : list string :=
  filter (fun name => name <> ConfigParser.default_section) (map fst secs).

Definition file_options (secs : list (string * list (string * string)))
  : list (string * string) :=
  flat_map (fun s => map (fun kv => (fst s, Py.lower (fst kv))) (snd s)) secs.

(** A file that repeats no section and no option. *)
Definition strict_file (secs : list (string * list (string * string))) : Prop :=
  NoDup (file_sections secs) /\ NoDup (file_options secs).

(** What a world's [config.ini] holds: nothing when the file is absent. *)
Definition config_ini (w : World) : option ini_file := ini_files w !! "config.ini".

(** A file whose monochrome price for printing is not a number. *)
Definition malformed_world : World :=
  {| ini_files := {["config.ini" := IniSections [("PRINT", [("monochrome_price", "abc")])]]};
     text_files := ∅; directories := ∅ |}.

(** A file the reader rejects. *)
Definition rejected_world : World :=
  {| ini_files := {["config.ini" := IniRejected]}; text_files := ∅; directories := ∅ |}.

(** The built-in rates, as numbers. *)
Definition default_rate (C : ServiceType) (f : rate) : float :=
  match C, f with
  | PRINT, Monochrome => 5
  | PRINT, Colored => 8
  | PHOTOCOPY, Monochrome => 3
  | PHOTOCOPY, Colored => 5
  | SCAN, Monochrome => 2
  | SCAN, Colored => 4
  | _, Surcharge => 2
  end.

(** The shape of a decimal numeral: integer digits, an optional point
    with fraction digits, an optional exponent with its sign. *)
Definition numeral (ip fp : list ascii) (point : bool)
    (ex : option (ascii * list ascii)) : list ascii :=
  ip ++ (if point then "."%char :: fp else [])
     ++ match ex with
        | Some (sg, ed) => "e"%char :: sg :: ed
        | None => []
        end.

Definition all_digits (l : list ascii) : Prop := forallb Py.is_digit l = true.

Definition is_sign (c : ascii) : bool := (Py.code c =? 43) || (Py.code c =? 45).

Definition well_formed_numeral (ip fp : list ascii) (ex : option (ascii * list ascii)) : Prop :=
  all_digits ip /\ ip <> [] /\ all_digits fp /\
  match ex with
  | Some (sg, ed) => is_sign sg = true /\ all_digits ed /\ ed <> []
  | None => True
  end.

(** The characters [str] of a float is made of. *)
Definition numeral_char (c : ascii) : bool :=
  Py.is_digit c || is_sign c || (Py.code c =? 46) || (Py.code c =? 101).

(** ** The states a controller can be in

    One step is one call of a method, whatever its arguments, whatever
    the environment does and whether it returns or raises; the state
    after the call is the controller as the call left it. *)
Inductive step : POSController.t -> POSController.t -> Prop :=
| step_add self C pages is_colored has_images now :
    step self (snd (POSController.add_transaction self C pages is_colored has_images now))
| step_remove self index :
    step self (snd (POSController.remove_transaction self index))
| step_clear self now :
    step self (POSController.clear_current_receipt self now)
| step_total self :
    step self (snd (POSController.get_current_total self))
| step_generate self w makedirs_ok io now :
    step self (snd (fst (POSController.generate_receipt self w makedirs_ok io now)))
| step_update self w io service mono colored surcharge :
    step self (snd (fst (POSController.update_pricing self w io service
                           mono colored surcharge)))
| step_recalculate self :
    step self (snd (POSController.recalculate_current_transactions self)).

Inductive reachable : POSController.t -> Prop :=
| reachable_init w now self :
    POSController.init w now = Ok self -> reachable self
| reachable_step self self' :
    reachable self -> step self self' -> reachable self'.

(** Every category's section holds a text for each of its three rates. *)
Definition seeded (cp : ConfigParser.t) : Prop :=
  forall (C : ServiceType) (f : rate),
    is_Some (raw_value cp (section_name C) (option_name f)).

(** The subtotal of the transaction can be computed from the table. *)
Definition priceable (cfg : PriceConfig.t) (t : Transaction.t) : Prop :=
  is_ok (spec_subtotal cfg (Transaction.service_type t) (Transaction.pages t)
           (Transaction.is_colored t) (Transaction.has_images t)) = true.

(** What holds of every reachable controller. *)
Definition controller_invariant (self : POSController.t) : Prop :=
  total_is_sum (POSController.current_receipt self)
  /\ seeded (PriceConfig.config (POSController.config self))
  /\ Forall (priceable (POSController.config self))
       (Receipt.transactions (POSController.current_receipt self)).

(** A section that holds a text for each of the three rates. *)
Definition has_rates (d : gmap string string) : Prop :=
  forall f : rate, is_Some (d !! option_name f).

(** The fallback each getter passes for a missing section or option. *)
Definition fallback (f : rate) : float :=
  match f with
  | Monochrome => 0.10
  | Colored => 0.25
  | Surcharge => 0.05
  end%float.

(** ** Further vocabulary *)

(** A receipt as the history should hold it: at least one transaction,
    the total being the sum of the subtotals. *)
Definition archived (r : Receipt.t) : Prop :=
  Receipt.transactions r <> [] /\ total_is_sum r.

(** [t'] is [t] with its subtotal computed anew from the table. *)
Definition repriced (cfg : PriceConfig.t) (t t' : Transaction.t) : Prop :=
  spec_subtotal cfg (Transaction.service_type t) (Transaction.pages t)
    (Transaction.is_colored t) (Transaction.has_images t)
  = Ok (Transaction.subtotal t')
  /\ t' = Transaction.with_subtotal t (Transaction.subtotal t').

(** The entry of a service's price dictionary for a rate. *)
Definition rate_of (p : PriceConfig.prices) (f : rate) : float :=
  match f with
  | Monochrome => PriceConfig.monochrome p
  | Colored => PriceConfig.colored p
  | Surcharge => PriceConfig.image_surcharge p
  end.

(** The order of [sorted(..., reverse=True)]: from the largest string
    down. *)
Definition descending (l : list string) : Prop :=
  StronglySorted (fun a b => String.leb b a = true) l.

(** [a] stands before [b] in the list. *)
Definition listed_before (a b : string) (l : list string) : Prop :=
  exists l1 l2 l3, l = l1 ++ a :: l2 ++ b :: l3.

(** The file a receipt is exported to. *)
Definition export_path (r : Receipt.t) : string :=
  POSController.receipt_path (Receipt.get_receipt_filename r).

(** The options of a category's section and the sections of the three
    categories. *)
Definition rate_options : gset string :=
  {[ option_name Monochrome; option_name Colored; option_name Surcharge ]}.

Definition category_sections : gset string :=
  {[ section_name PRINT; section_name PHOTOCOPY; section_name SCAN ]}.

(** The text of a price: one of the built-in table or the [str] of a
    float. *)
Definition price_text (v : string) : Prop :=
  (exists C f, v = default_raw C f) \/ (exists x, v = Py.str_float x).

(** The table as the shop's own use leaves it: kept in [config.ini], no
    [DEFAULT] options, the sections of the three categories and no
    other, each with the three rates and nothing else. *)
Definition standard (cfg : PriceConfig.t) : Prop :=
  PriceConfig.config_file cfg = "config.ini"
  /\ ConfigParser.defaults (PriceConfig.config cfg) = ∅
  /\ dom (ConfigParser.sections (PriceConfig.config cfg)) = category_sections
  /\ forall S d, ConfigParser.sections (PriceConfig.config cfg) !! S = Some d ->
       dom d = rate_options /\ map_Forall (fun _ v => price_text v) d.

(** The service is one of the three categories, in any letter case. *)
Definition category_service (service : string) : Prop :=
  Py.upper service ∈ category_sections.

(** * Properties *)

(** ** Pricing one transaction *)

Lemma calculate_subtotal_result (t : Transaction.t) (cfg : PriceConfig.t) :
  fst (Transaction.calculate_subtotal t cfg)
  = spec_subtotal cfg (Transaction.service_type t) (Transaction.pages t)
      (Transaction.is_colored t) (Transaction.has_images t).
Proof.
  unfold Transaction.calculate_subtotal, spec_subtotal,
    colored_rate, monochrome_rate, image_surcharge.
  destruct (Transaction.is_colored t);
    [ destruct (PriceConfig.get_colored_price _ _) as [b|e]
    | destruct (PriceConfig.get_monochrome_price _ _) as [b|e] ];
    cbn [bind]; try reflexivity;
    (destruct (Py.mul_int b _) as [x|e]; cbn [bind fst]; [|reflexivity]);
    (destruct (Transaction.has_images t); [|reflexivity]);
    (destruct (PriceConfig.get_image_surcharge _ _) as [s|e]; cbn [bind fst];
       [|reflexivity]);
    (destruct (Py.mul_int s _) as [y|e]; reflexivity).
Qed.

Lemma calculate_subtotal_stores (t t' : Transaction.t) (cfg : PriceConfig.t) (x : float) :
  Transaction.calculate_subtotal t cfg = (Ok x, t') ->
  t' = Transaction.with_subtotal t x.
Proof.
  unfold Transaction.calculate_subtotal.
  destruct (bind _ _) as [b|e]; [|discriminate].
  destruct (Transaction.has_images t).
  - destruct (bind _ _) as [y|e]; [|discriminate].
    intros [= <- <-]. reflexivity.
  - intros [= <- <-]. reflexivity.
Qed.



(** ** Removing a transaction *)

Lemma with_receipt_current (self : POSController.t) :
  POSController.with_receipt self (POSController.current_receipt self) = self.
Proof. destruct self; reflexivity. Qed.

Lemma pop_in_range {A : Type} (l : list A) (i : Z) :
  0 <= i < Z.of_nat (List.length l) ->
  exists x, l !! Z.to_nat i = Some x /\ Py.pop l i = Ok (x, delete (Z.to_nat i) l).
Proof.
  intros Hi. unfold Py.pop.
  destruct (lookup_lt_is_Some_2 l (Z.to_nat i)) as [x Hx]; [lia|].
  exists x. split; [exact Hx|].
  replace (i <? 0) with false by lia.
  replace ((0 <=? i) && (i <? Z.of_nat (List.length l))) with true by lia.
  rewrite Hx. reflexivity.
Qed.

Lemma receipt_remove_out_of_range (r : Receipt.t) (i : Z) :
  ~ (0 <= i < Z.of_nat (List.length (Receipt.transactions r))) ->
  Receipt.remove_transaction r i = (Ok tt, r).
Proof.
  intros Hi. unfold Receipt.remove_transaction.
  replace ((0 <=? i) && (i <? _)) with false by lia. reflexivity.
Qed.

Lemma receipt_remove_in_range (r : Receipt.t) (i : Z) :
  0 <= i < Z.of_nat (List.length (Receipt.transactions r)) ->
  Receipt.remove_transaction r i
  = (Ok tt,
     {| Receipt.transactions := delete (Z.to_nat i) (Receipt.transactions r);
        Receipt.timestamp := Receipt.timestamp r;
        Receipt.total :=
          Py.sum (map Transaction.subtotal
                    (delete (Z.to_nat i) (Receipt.transactions r))) |}).
Proof.
  intros Hi. unfold Receipt.remove_transaction.
  replace ((0 <=? i) && (i <? _)) with true by lia.
  destruct (pop_in_range _ _ Hi) as (x & _ & ->). reflexivity.
Qed.

(** The receipt method never raises, so the controller's handler for
    [IndexError] is never entered. *)
Lemma receipt_remove_never_raises (r : Receipt.t) (i : Z) :
  fst (Receipt.remove_transaction r i) = Ok tt.
Proof.
  destruct (decide (0 <= i < Z.of_nat (List.length (Receipt.transactions r)))).
  - rewrite receipt_remove_in_range by assumption. reflexivity.
  - rewrite receipt_remove_out_of_range by assumption. reflexivity.
Qed.

Lemma controller_remove_in_range (self : POSController.t) (i : Z) :
  let l := Receipt.transactions (POSController.current_receipt self) in
  0 <= i < Z.of_nat (List.length l) ->
  exists self',
    POSController.remove_transaction self i = (Ok true, self') /\
    Receipt.transactions (POSController.current_receipt self') = delete (Z.to_nat i) l /\
    total_is_sum (POSController.current_receipt self').
Proof.
  intros l Hi. unfold POSController.remove_transaction.
  rewrite receipt_remove_in_range by exact Hi.
  eexists. split; [reflexivity|]. split; reflexivity.
Qed.

(** C2: for an index outside [0, len) the controller leaves the receipt
    as it was, but it answers [True]: the receipt method ignores such an
    index without raising, so the [except IndexError] branch that would
    answer [False] is never taken. *)
Theorem remove_transaction_out_of_range (self : POSController.t) (index : Z) :
  ~ (0 <= index
     < Z.of_nat (List.length (Receipt.transactions (POSController.current_receipt self)))) ->
  POSController.remove_transaction self index = (Ok true, self).
Proof.
  intros Hi. unfold POSController.remove_transaction.
  rewrite receipt_remove_out_of_range by exact Hi.
  rewrite with_receipt_current. reflexivity.
Qed.

Lemma remove_transaction_out_of_range_witness :
  POSController.remove_transaction fresh_controller 0 = (Ok true, fresh_controller).
Proof.
  apply (remove_transaction_out_of_range fresh_controller 0).
  vm_compute. intros [_ H]. discriminate H.
Defined.

(** ** Generating a receipt *)

(** C3: with no transaction in the current receipt, [generate_receipt]
    raises the empty-receipt [ValueError] whatever the environment would
    do, writes nothing and leaves the controller as it was. *)
Theorem generate_receipt_empty (self : POSController.t) (w : World)
    (makedirs_ok : bool) (io : write_outcome string) (now : Py.datetime) :
  Receipt.transactions (POSController.current_receipt self) = [] ->
  POSController.generate_receipt self w makedirs_ok io now
  = (Raise EmptyReceipt, self, w).
Proof.
  intros H. unfold POSController.generate_receipt. rewrite H. reflexivity.
Qed.

Lemma generate_receipt_empty_witness :
  POSController.generate_receipt fresh_controller empty_world true Written noon
  = (Raise EmptyReceipt, fresh_controller, empty_world).
Proof.
  apply (generate_receipt_empty fresh_controller empty_world true Written noon).
  reflexivity.
Defined.

(** What a successful call does: the text goes to the file named after
    the receipt, the receipt joins the history and a fresh one takes its
    place. *)
Lemma generate_receipt_written (self : POSController.t) (w : World) (now : Py.datetime) :
  Receipt.transactions (POSController.current_receipt self) <> [] ->
  exists w',
    POSController.generate_receipt self w true Written now
    = (Ok (POSController.receipt_path
             (Receipt.get_receipt_filename (POSController.current_receipt self))),
       {| POSController.config := POSController.config self;
          POSController.current_receipt := Receipt.init now;
          POSController.receipt_history :=
            POSController.receipt_history self ++ [POSController.current_receipt self] |},
       w') /\
    text_files w' !! POSController.receipt_path
                       (Receipt.get_receipt_filename (POSController.current_receipt self))
    = Some (Receipt.generate_receipt_text (POSController.current_receipt self)).
Proof.
  intros H. unfold POSController.generate_receipt.
  destruct (Receipt.transactions _); [congruence|].
  eexists. split; [reflexivity|]. cbn. apply lookup_insert_eq.
Qed.

(** C5: with a non-empty receipt, when the directory cannot be made or
    the file cannot be opened or written, the call raises and the
    controller is exactly as before: nothing was appended to the history
    and the current receipt is still in place.  Conversely the controller
    changes only when the call returns a path, which takes a successful
    write. *)
Theorem generate_receipt_failed_write (self : POSController.t) (w : World)
    (makedirs_ok : bool) (io : write_outcome string) (now : Py.datetime) :
  Receipt.transactions (POSController.current_receipt self) <> [] ->
  (makedirs_ok = false \/ io <> Written ->
   exists w', POSController.generate_receipt self w makedirs_ok io now
              = (Raise OSError, self, w'))
  /\ (forall res self' w',
        POSController.generate_receipt self w makedirs_ok io now = (res, self', w') ->
        self' <> self -> makedirs_ok = true /\ io = Written /\ is_ok res = true).
Proof.
  intros H. unfold POSController.generate_receipt.
  destruct (Receipt.transactions _); [congruence|].
  destruct makedirs_ok, io; cbn [negb]; split;
    try (intros [?|?]; try congruence; eexists; reflexivity);
    intros res self' w' [= <- <- <-] Hne; try congruence; auto.
Qed.

Lemma generate_receipt_failed_write_witness :
  let self := POSController.with_receipt fresh_controller
                (Receipt.add_transaction (Receipt.init noon) print_job) in
  exists w', POSController.generate_receipt self empty_world true (WriteFails "===") noon
             = (Raise OSError, self, w').
Proof.
  intros self.
  refine (proj1 (generate_receipt_failed_write self empty_world true (WriteFails "===") noon _) _).
  - discriminate.
  - right. discriminate.
Defined.

(** ** The worked example *)

(** C7: with the default price table, adding a coloured five-page print
    job with images gives subtotal 50.00 and receipt total 50.00; after
    [update_pricing] of Print to 6, 9 and 3 and a recalculation the same
    transaction has subtotal 60.00 and the receipt total is 60.00.  The
    service is named in either letter case. *)
Theorem default_prices_end_to_end :
  forall service, In service ["print"; "Print"; "PRINT"] ->
  match POSController.init empty_world noon with
  | Ok c0 =>
      match POSController.add_transaction c0 PRINT 5 true true noon with
      | (Ok t, c1) =>
          Transaction.subtotal t = 50%float /\
          Receipt.transactions (POSController.current_receipt c1) = [t] /\
          Receipt.total (POSController.current_receipt c1) = 50%float /\
          match POSController.update_pricing c1 empty_world Written service 6 9 3 with
          | (Ok _, c2, _) =>
              match POSController.recalculate_current_transactions c2 with
              | (Ok _, c3) =>
                  Receipt.transactions (POSController.current_receipt c3)
                    = [Transaction.with_subtotal t 60%float] /\
                  Receipt.total (POSController.current_receipt c3) = 60%float
              | (Raise _, _) => False
              end
          | (Raise _, _, _) => False
          end
      | (Raise _, _) => False
      end
  | Raise _ => False
  end.
Proof.
  intros service [<-|[<-|[<-|[]]]]; vm_compute; repeat split.
Qed.

Lemma default_prices_end_to_end_witness :
  match POSController.init empty_world noon with
  | Ok c0 =>
      match POSController.add_transaction c0 PRINT 5 true true noon with
      | (Ok t, c1) =>
          match POSController.update_pricing c1 empty_world Written "print" 6 9 3 with
          | (Ok _, c2, _) =>
              match POSController.recalculate_current_transactions c2 with
              | (Ok _, c3) =>
                  Receipt.total (POSController.current_receipt c3) = 60%float
              | (Raise _, _) => False
              end
          | (Raise _, _, _) => False
          end
      | (Raise _, _) => False
      end
  | Raise _ => False
  end.
Proof.
  pose proof (default_prices_end_to_end "print" (or_introl eq_refl)) as H.
  vm_compute in H |- *. tauto.
Defined.

(** ** Decimal digits *)

Lemma code_chr (n : Z) : 0 <= n < 256 -> Py.code (Py.chr n) = n.
Proof.
  intros H. unfold Py.code, Py.chr.
  rewrite N_ascii_embedding by lia. lia.
Qed.

Lemma is_digit_digit_char (d : Z) : 0 <= d <= 9 -> Py.is_digit (Py.digit_char d) = true.
Proof.
  intros H. unfold Py.is_digit, Py.digit_char. rewrite code_chr by lia. lia.
Qed.

Lemma digit_val_digit_char (d : Z) : 0 <= d <= 9 -> Py.digit_val (Py.digit_char d) = d.
Proof.
  intros H. unfold Py.digit_val, Py.digit_char. rewrite code_chr by lia. lia.
Qed.

Lemma is_digit_mod10 (n : Z) : Py.is_digit (Py.digit_char (n mod 10)) = true.
Proof. apply is_digit_digit_char. pose proof (Z.mod_pos_bound n 10). lia. Qed.

Lemma pad_digits_acc (w : nat) : forall (n : Z) (acc : list ascii),
  Py.pad_digits w n acc = Py.pad_digits w n [] ++ acc.
Proof.
  induction w as [|w IH]; intros n acc; [reflexivity|].
  cbn [Py.pad_digits]. rewrite IH, (IH _ [_]), <- app_assoc. reflexivity.
Qed.

Lemma take_digits_app (a b : nat) : forall (acc : Z) (l : list ascii),
  take_digits (a + b) acc l
  = match take_digits a acc l with
    | Some (v, r) => take_digits b v r
    | None => None
    end.
Proof.
  induction a as [|a IH]; intros acc l; [reflexivity|].
  cbn [Nat.add take_digits]. destruct l as [|c r]; [reflexivity|].
  destruct (Py.is_digit c); [apply IH|reflexivity].
Qed.

(** Reading [w] digits off a [w]-digit field gives the number back. *)
Lemma take_digits_pad (w : nat) : forall (n acc : Z) (rest : list ascii),
  0 <= n < 10 ^ Z.of_nat w ->
  take_digits w acc (Py.pad_digits w n [] ++ rest)
  = Some (acc * 10 ^ Z.of_nat w + n, rest).
Proof.
  induction w as [|w IH]; intros n acc rest Hn.
  - cbn. f_equal. f_equal. change (10 ^ Z.of_nat 0) with 1 in Hn. lia.
  - rewrite Nat2Z.inj_succ, Z.pow_succ_r in * by lia.
    replace (S w) with (w + 1)%nat at 1 by lia.
    rewrite take_digits_app.
    cbn [Py.pad_digits]. rewrite pad_digits_acc, <- app_assoc.
    rewrite IH by (split; [apply Z.div_pos; lia | apply Z.div_lt_upper_bound; lia]).
    cbn [app take_digits]. rewrite is_digit_mod10.
    rewrite digit_val_digit_char by (pose proof (Z.mod_pos_bound n 10); lia).
    f_equal. f_equal. pose proof (Z.div_mod n 10). lia.
Qed.

(** ** The export file name *)

Lemma receipt_filename_chars (r : Receipt.t) :
  let d := Receipt.timestamp r in
  list_ascii_of_string (Receipt.get_receipt_filename r)
  = list_ascii_of_string "Receipt_"
      ++ Py.pad_digits 2 (Py.month d) [] ++ ["-"%char]
      ++ Py.pad_digits 2 (Py.day d) [] ++ ["-"%char]
      ++ Py.pad_digits 4 (Py.year d) [] ++ ["_"%char]
      ++ Py.pad_digits 2 (Py.hour d) [] ++ ["-"%char]
      ++ Py.pad_digits 2 (Py.minute d) [] ++ ["-"%char]
      ++ Py.pad_digits 2 (Py.second d) [] ++ list_ascii_of_string ".txt".
Proof. reflexivity. Qed.

Lemma parse_receipt_filename_inverse (r : Receipt.t) :
  clock_reading (Receipt.timestamp r) ->
  parse_receipt_filename (Receipt.get_receipt_filename r) = Some (Receipt.timestamp r).
Proof.
  intros ((Hy & Hmo & Hd & Hh & Hmi & Hs) & _).
  unfold parse_receipt_filename. rewrite receipt_filename_chars.
  cbn zeta. cbn [list_ascii_of_string expect app Ascii.eqb Bool.eqb mbind option_bind].
  rewrite take_digits_pad by (change (10 ^ Z.of_nat 2) with 100; lia).
  cbn [mbind option_bind expect app Ascii.eqb Bool.eqb].
  rewrite take_digits_pad by (change (10 ^ Z.of_nat 2) with 100; lia).
  cbn [mbind option_bind expect app Ascii.eqb Bool.eqb].
  rewrite take_digits_pad by (change (10 ^ Z.of_nat 4) with 10000; lia).
  cbn [mbind option_bind expect app Ascii.eqb Bool.eqb].
  rewrite take_digits_pad by (change (10 ^ Z.of_nat 2) with 100; lia).
  cbn [mbind option_bind expect app Ascii.eqb Bool.eqb].
  rewrite take_digits_pad by (change (10 ^ Z.of_nat 2) with 100; lia).
  cbn [mbind option_bind expect app Ascii.eqb Bool.eqb].
  rewrite take_digits_pad by (change (10 ^ Z.of_nat 2) with 100; lia).
  cbn [mbind option_bind expect app Ascii.eqb Bool.eqb].
  destruct (Receipt.timestamp r); reflexivity.
Qed.

Lemma add_transaction_timestamp (r : Receipt.t) (t : Transaction.t) :
  Receipt.timestamp (Receipt.add_transaction r t) = Receipt.timestamp r.
Proof. reflexivity. Qed.

Lemma remove_transaction_timestamp (r : Receipt.t) (i : Z) :
  Receipt.timestamp (snd (Receipt.remove_transaction r i)) = Receipt.timestamp r.
Proof.
  unfold Receipt.remove_transaction.
  destruct (_ && _); [|reflexivity].
  destruct (Py.pop _ _) as [[x rest]|e]; reflexivity.
Qed.

Lemma recalculate_timestamp (self : POSController.t) :
  Receipt.timestamp (POSController.current_receipt
                       (snd (POSController.recalculate_current_transactions self)))
  = Receipt.timestamp (POSController.current_receipt self).
Proof.
  unfold POSController.recalculate_current_transactions.
  destruct (POSController.recalculate_each _ _) as [[u|e] l]; reflexivity.
Qed.

(** C9: the export name is [Receipt_MM-DD-YYYY_HH-MM-SS.txt] over the
    fields of the timestamp the receipt took when it was created: the
    name has 31 characters and reads back, field by field, as that
    timestamp; adding and removing transactions keep the timestamp; and
    at whatever later time the receipt is generated the file is written
    under that name. *)
Theorem receipt_filename_from_creation (created : Py.datetime) (r : Receipt.t) :
  clock_reading created ->
  Receipt.timestamp r = created ->
  Receipt.timestamp (Receipt.init created) = created
  /\ (forall t, Receipt.timestamp (Receipt.add_transaction r t) = created)
  /\ (forall i, Receipt.timestamp (snd (Receipt.remove_transaction r i)) = created)
  /\ parse_receipt_filename (Receipt.get_receipt_filename r) = Some created
  /\ String.length (Receipt.get_receipt_filename r) = 31%nat
  /\ forall (self : POSController.t) (w : World) (export_time : Py.datetime),
       POSController.current_receipt self = r ->
       Receipt.transactions r <> [] ->
       fst (fst (POSController.generate_receipt self w true Written export_time))
       = Ok ("receipts/" +:+ Receipt.get_receipt_filename r).
Proof.
  intros Hv Hr. subst created.
  split; [reflexivity|].
  split; [intros t; apply add_transaction_timestamp|].
  split; [intros i; apply remove_transaction_timestamp|].
  split; [apply parse_receipt_filename_inverse, Hv|].
  split; [reflexivity|].
  intros self w export_time Hc Hne. subst r.
  destruct (generate_receipt_written self w export_time Hne) as (w' & -> & _).
  reflexivity.
Qed.

Lemma receipt_filename_from_creation_witness :
  let r := Receipt.add_transaction (Receipt.init noon) print_job in
  parse_receipt_filename (Receipt.get_receipt_filename r) = Some noon
  /\ Receipt.get_receipt_filename r = "Receipt_07-04-2025_12-00-00.txt".
Proof.
  intros r. split; [|reflexivity].
  refine (proj1 (proj2 (proj2 (proj2
            (receipt_filename_from_creation noon r _ _))))).
  - unfold clock_reading, Py.valid_datetime; cbn; lia.
  - reflexivity.
Defined.

(** ** The receipt text *)

Lemma list_ascii_of_string_app (a b : string) :
  list_ascii_of_string (a +:+ b) = list_ascii_of_string a ++ list_ascii_of_string b.
Proof.
  induction a as [|c a IH]; [reflexivity|].
  change (String c a +:+ b) with (String c (a +:+ b)).
  cbn [list_ascii_of_string app]. f_equal. exact IH.
Qed.

Lemma digits_aux_all_digits (fuel : nat) : forall (n : Z) (acc : list ascii),
  forallb Py.is_digit acc = true ->
  forallb Py.is_digit (Py.digits_aux fuel n acc) = true.
Proof.
  induction fuel as [|f IH]; intros n acc Hacc; [exact Hacc|].
  cbn [Py.digits_aux].
  assert (H : forallb Py.is_digit (Py.digit_char (n mod 10) :: acc) = true)
    by (cbn [forallb]; rewrite is_digit_mod10, Hacc; reflexivity).
  destruct (n <? 10); [exact H | apply IH, H].
Qed.

Lemma digits_aux_nonempty (fuel : nat) : forall (n : Z) (acc : list ascii),
  acc <> [] -> Py.digits_aux fuel n acc <> [].
Proof.
  induction fuel as [|f IH]; intros n acc Hacc; [exact Hacc|].
  cbn [Py.digits_aux]. destruct (n <? 10); [discriminate | apply IH; discriminate].
Qed.

Lemma digits_all_digits (n : Z) : forallb Py.is_digit (Py.digits n) = true.
Proof. apply digits_aux_all_digits. reflexivity. Qed.

Lemma digits_nonempty (n : Z) : Py.digits n <> [].
Proof.
  unfold Py.digits. cbn [Py.digits_aux].
  destruct (n <? 10); [discriminate | apply digits_aux_nonempty; discriminate].
Qed.

Lemma span_digits_app (ds rest : list ascii) :
  forallb Py.is_digit ds = true ->
  match rest with c :: _ => Py.is_digit c = false | [] => True end ->
  Py.span_digits (ds ++ rest) = (ds, rest).
Proof.
  intros Hds Hrest. induction ds as [|c ds IH].
  - destruct rest as [|c r]; [reflexivity|]. cbn. rewrite Hrest. reflexivity.
  - cbn in Hds |- *. apply andb_true_iff in Hds as [-> Hds].
    rewrite (IH Hds). reflexivity.
Qed.

Lemma fixed2_two_decimals (sign : bool) (c : Z) :
  two_decimals (Py.sign_str sign +:+ Py.fixed2 c) = true.
Proof.
  unfold two_decimals, Py.fixed2, Py.zfill.
  rewrite !list_ascii_of_string_app, !list_ascii_of_string_of_list_ascii.
  pose proof (digits_all_digits (c / 100)) as Hd.
  pose proof (digits_nonempty (c / 100)) as Hne.
  set (ds := Py.digits (c / 100)) in *.
  set (L := list_ascii_of_string (Py.sign_str sign)
            ++ ds ++ list_ascii_of_string "." ++ Py.pad_digits 2 (c mod 100) []).
  assert (Hbody :
    match L with
    | ch :: r => if Py.code ch =? 45 then r else L
    | [] => []
    end = ds ++ "."%char :: Py.pad_digits 2 (c mod 100) []).
  { subst L. destruct sign; [reflexivity|]. cbn [Py.sign_str list_ascii_of_string app].
    destruct ds as [|ch ds']; [congruence|]. cbn [app].
    cbn [forallb] in Hd. apply andb_true_iff in Hd as [Hch _].
    unfold Py.is_digit in Hch.
    replace (Py.code ch =? 45) with false by lia. reflexivity. }
  rewrite Hbody, span_digits_app; [|exact Hd|reflexivity].
  destruct ds as [|ch ds']; [congruence|].
  cbn [Py.pad_digits]. rewrite !is_digit_mod10. reflexivity.
Qed.

(** Any finite amount is printed on exactly two decimals. *)
Lemma format_2f_two_decimals (x : float) :
  is_finite x = true -> two_decimals (Py.format_2f x) = true.
Proof.
  unfold is_finite, Py.format_2f.
  destruct (Prim2SF x) as [s|s| |s m e]; try discriminate; intros _.
  - destruct s; reflexivity.
  - apply fixed2_two_decimals.
Qed.

Lemma numbered_lines_length (l : list Transaction.t) : forall k,
  List.length (Receipt.numbered_lines k l) = List.length l.
Proof. induction l as [|t l IH]; intros k; cbn; [|rewrite IH]; reflexivity. Qed.

(** *** Lines *)

Lemma one_line_app (a b : string) : one_line a -> one_line b -> one_line (a +:+ b).
Proof.
  unfold one_line. intros Ha Hb. rewrite list_ascii_of_string_app, forallb_app, Ha, Hb.
  reflexivity.
Qed.

Lemma one_line_chars (l : list ascii) :
  forallb (fun c => negb (Ascii.eqb c newline)) l = true ->
  one_line (string_of_list_ascii l).
Proof. unfold one_line. rewrite list_ascii_of_string_of_list_ascii. exact (fun H => H). Qed.

Lemma digits_no_newline (l : list ascii) :
  forallb Py.is_digit l = true ->
  forallb (fun c => negb (Ascii.eqb c newline)) l = true.
Proof.
  intros H. apply forallb_forall. intros c Hc.
  rewrite forallb_forall in H. specialize (H c Hc).
  destruct (Ascii.eqb_spec c newline) as [->|]; [discriminate H|reflexivity].
Qed.

Lemma pad_digits_all_digits (w : nat) : forall (n : Z) (acc : list ascii),
  forallb Py.is_digit acc = true -> forallb Py.is_digit (Py.pad_digits w n acc) = true.
Proof.
  induction w as [|w IH]; intros n acc Hacc; [exact Hacc|].
  cbn [Py.pad_digits]. apply IH. cbn [forallb]. rewrite is_digit_mod10, Hacc. reflexivity.
Qed.

Lemma zfill_one_line (w : nat) (n : Z) : one_line (Py.zfill w n).
Proof. apply one_line_chars, digits_no_newline, pad_digits_all_digits. reflexivity. Qed.

Lemma str_int_one_line (n : Z) : one_line (Py.str_int n).
Proof.
  unfold Py.str_int. destruct (n <? 0).
  - apply (one_line_app "-"); [reflexivity|].
    apply one_line_chars, digits_no_newline, digits_all_digits.
  - apply one_line_chars, digits_no_newline, digits_all_digits.
Qed.

Lemma format_2f_one_line (x : float) : one_line (Py.format_2f x).
Proof.
  unfold Py.format_2f. destruct (Prim2SF x) as [s|s| |s m e].
  - destruct s; reflexivity.
  - destruct s; reflexivity.
  - reflexivity.
  - apply one_line_app; [destruct s; reflexivity|].
    unfold Py.fixed2. apply one_line_app.
    + apply one_line_chars, digits_no_newline, digits_all_digits.
    + apply (one_line_app "."); [reflexivity|apply zfill_one_line].
Qed.

Lemma to_string_one_line (t : Transaction.t) : one_line (Transaction.to_string t).
Proof.
  unfold Transaction.to_string. cbv zeta.
  apply one_line_app; [destruct (Transaction.service_type t); reflexivity|].
  apply (one_line_app " - "); [reflexivity|].
  apply one_line_app; [apply str_int_one_line|].
  apply (one_line_app " pages - "); [reflexivity|].
  apply one_line_app; [destruct (Transaction.is_colored t); reflexivity|].
  apply one_line_app; [destruct (Transaction.has_images t); reflexivity|].
  apply (one_line_app ": ₱"); [reflexivity|apply format_2f_one_line].
Qed.

Lemma numbered_lines_one_line (l : list Transaction.t) : forall k,
  Forall one_line (Receipt.numbered_lines k l).
Proof.
  induction l as [|t l IH]; intros k; cbn [Receipt.numbered_lines]; constructor.
  - apply one_line_app; [apply str_int_one_line|].
    apply (one_line_app ". "); [reflexivity|apply to_string_one_line].
  - apply IH.
Qed.

Lemma strftime_date (d : Py.datetime) :
  Py.strftime "%m/%d/%Y" d
  = Py.zfill 2 (Py.month d) +:+ "/" +:+ Py.zfill 2 (Py.day d)
    +:+ "/" +:+ Py.zfill 4 (Py.year d) +:+ "".
Proof. reflexivity. Qed.

Lemma strftime_time (d : Py.datetime) :
  Py.strftime "%I:%M:%S %p" d
  = Py.zfill 2 (Py.hour12 (Py.hour d)) +:+ ":" +:+ Py.zfill 2 (Py.minute d)
    +:+ ":" +:+ Py.zfill 2 (Py.second d) +:+ " "
    +:+ (if Py.hour d <? 12 then "AM" else "PM") +:+ "".
Proof. reflexivity. Qed.

Lemma receipt_lines_one_line (r : Receipt.t) : Forall one_line (Receipt.receipt_lines r).
Proof.
  unfold Receipt.receipt_lines. rewrite strftime_date, strftime_time.
  apply Forall_app. split; [|apply Forall_app; split].
  - repeat constructor.
    + apply (one_line_app "Date: "); [reflexivity|].
      apply one_line_app; [apply zfill_one_line|].
      apply (one_line_app "/"); [reflexivity|].
      apply one_line_app; [apply zfill_one_line|].
      apply (one_line_app "/"); [reflexivity|].
      apply one_line_app; [apply zfill_one_line|reflexivity].
    + apply (one_line_app "Time: "); [reflexivity|].
      apply one_line_app; [apply zfill_one_line|].
      apply (one_line_app ":"); [reflexivity|].
      apply one_line_app; [apply zfill_one_line|].
      apply (one_line_app ":"); [reflexivity|].
      apply one_line_app; [apply zfill_one_line|].
      apply (one_line_app " "); [reflexivity|].
      apply one_line_app; [destruct (Py.hour _ <? 12); reflexivity|reflexivity].
  - apply numbered_lines_one_line.
  - repeat constructor.
    apply (one_line_app "TOTAL: ₱"); [reflexivity|apply format_2f_one_line].
Qed.

Lemma lines_of_one_line (s : string) : one_line s -> lines_of s = [s].
Proof.
  unfold one_line. induction s as [|c s IH]; [reflexivity|].
  cbn [list_ascii_of_string forallb lines_of]. intros [Hc Hs]%andb_true_iff.
  apply negb_true_iff in Hc. rewrite Hc, (IH Hs). reflexivity.
Qed.

Lemma lines_of_app (s t : string) :
  one_line s -> lines_of (s +:+ String newline t) = s :: lines_of t.
Proof.
  unfold one_line. induction s as [|c s IH].
  - intros _. change ("" +:+ String newline t) with (String newline t).
    cbn [lines_of]. rewrite Ascii.eqb_refl. reflexivity.
  - cbn [list_ascii_of_string forallb]. intros [Hc Hs]%andb_true_iff.
    apply negb_true_iff in Hc.
    change (String c s +:+ String newline t) with (String c (s +:+ String newline t)).
    cbn [lines_of]. rewrite Hc, (IH Hs). reflexivity.
Qed.

(** Splitting at the newlines undoes the joining of lines that hold
    none. *)
Lemma lines_of_join (l : list string) :
  l <> [] -> Forall one_line l ->
  lines_of (Py.join (String newline "") l) = l.
Proof.
  induction l as [|x l IH]; [congruence|]. intros _ Hall.
  apply Forall_cons in Hall as [Hx Hl].
  destruct l as [|y l]; [apply lines_of_one_line, Hx|].
  change (Py.join (String newline "") (x :: y :: l))
    with (x +:+ String newline "" +:+ Py.join (String newline "") (y :: l)).
  change (String newline "" +:+ Py.join (String newline "") (y :: l))
    with (String newline (Py.join (String newline "") (y :: l))).
  rewrite (lines_of_app _ _ Hx), IH by (congruence || exact Hl). reflexivity.
Qed.

(** *** Numbers read back *)

Lemma read_digits_snoc (l : list ascii) : forall (a v : Z) (c : ascii),
  read_digits l a = Some v -> Py.is_digit c = true ->
  read_digits (l ++ [c]) a = Some (10 * v + Py.digit_val c).
Proof.
  induction l as [|x l IH]; intros a v c Hl Hc; cbn [read_digits app] in *.
  - injection Hl as <-. rewrite Hc. reflexivity.
  - destruct (Py.is_digit x); [|discriminate]. apply IH; assumption.
Qed.

(** The digits of a number: what they are read back as, and how they
    begin. *)
Lemma digits_aux_read (fuel : nat) : forall (n : Z) (acc : list ascii),
  0 <= n < 2 ^ Z.of_nat fuel -> (0 < fuel)%nat ->
  exists (c : ascii) (ds : list ascii),
    Py.digits_aux fuel n acc = (c :: ds) ++ acc
    /\ read_digits (c :: ds) 0 = Some n
    /\ Py.is_digit c = true
    /\ (1 <= n -> Py.code c <> 48)
    /\ (n = 0 -> ds = []).
Proof.
  induction fuel as [|f IH]; intros n acc Hn Hf; [lia|].
  - cbn [Py.digits_aux]. destruct (Z.ltb_spec n 10) as [Hlt|Hge].
    + exists (Py.digit_char (n mod 10)), []. rewrite Z.mod_small by lia.
      split; [reflexivity|]. split.
      { cbn [read_digits]. rewrite is_digit_digit_char, digit_val_digit_char by lia.
        f_equal; lia. }
      split; [apply is_digit_digit_char; lia|].
      split; [|reflexivity].
      intros H1. unfold Py.digit_char. rewrite code_chr by lia. lia.
    + rewrite Nat2Z.inj_succ, Z.pow_succ_r in Hn by lia.
      destruct (IH (n / 10) (Py.digit_char (n mod 10) :: acc))
        as (c & ds & Heq & Hread & Hc & Hlead & _).
      { split; [apply Z.div_pos; lia|].
        apply Z.div_lt_upper_bound; lia. }
      { destruct f; [change (2 ^ Z.of_nat 0) with 1 in Hn; lia|lia]. }
      exists c, (ds ++ [Py.digit_char (n mod 10)]).
      split; [rewrite Heq; cbn [app]; rewrite <- app_assoc; reflexivity|]. split.
      { change (c :: ds ++ [Py.digit_char (n mod 10)])
          with ((c :: ds) ++ [Py.digit_char (n mod 10)]).
        rewrite (read_digits_snoc _ _ _ _ Hread (is_digit_mod10 n)).
        rewrite digit_val_digit_char by (pose proof (Z.mod_pos_bound n 10); lia).
        f_equal. pose proof (Z.div_mod n 10). lia. }
      split; [exact Hc|]. split; [|lia].
      intros _. apply Hlead. apply (Z.div_le_lower_bound n 10 1); lia.
Qed.

Lemma digits_read (n : Z) : 0 <= n -> read_nat (Py.digits n) = Some n.
Proof.
  intros Hn. unfold Py.digits.
  destruct (digits_aux_read (S (Z.to_nat (Z.log2 n))) n [])
    as (c & ds & Heq & Hread & Hc & Hlead & Hzero).
  { split; [exact Hn|]. rewrite Nat2Z.inj_succ, Z2Nat.id by apply Z.log2_nonneg.
    destruct (Z.eq_dec n 0) as [->|Hne]; [reflexivity|].
    apply Z.log2_spec. lia. }
  { lia. }
  rewrite Heq, app_nil_r. unfold read_nat.
  destruct ds as [|d ds]; [exact Hread|].
  destruct (Z.eqb_spec (Py.code c) 48) as [E|E]; [|exact Hread].
  exfalso. apply Hlead; [|exact E].
  destruct (Z.eq_dec n 0) as [->|]; [discriminate (Hzero eq_refl)|lia].
Qed.

Lemma digits_head (n : Z) :
  0 <= n -> exists c ds, Py.digits n = c :: ds /\ Py.is_digit c = true.
Proof.
  intros Hn. unfold Py.digits.
  destruct (digits_aux_read (S (Z.to_nat (Z.log2 n))) n [])
    as (c & ds & Heq & _ & Hc & _).
  { split; [exact Hn|]. rewrite Nat2Z.inj_succ, Z2Nat.id by apply Z.log2_nonneg.
    destruct (Z.eq_dec n 0) as [->|Hne]; [reflexivity|].
    apply Z.log2_spec. lia. }
  { lia. }
  exists c, ds. rewrite Heq, app_nil_r. split; [reflexivity|exact Hc].
Qed.

(** [str(n)] reads back as [n]. *)
Lemma str_int_read (n : Z) : read_int (list_ascii_of_string (Py.str_int n)) = Some n.
Proof.
  unfold Py.str_int. destruct (Z.ltb_spec n 0) as [Hneg|Hpos].
  - cbn [list_ascii_of_string]. rewrite list_ascii_of_string_of_list_ascii.
    unfold read_int. change (Py.code "-" =? 45) with true. cbv iota.
    rewrite digits_read by lia.
    destruct (Z.ltb_spec 0 (- n)); [|lia]. f_equal. lia.
  - rewrite list_ascii_of_string_of_list_ascii.
    destruct (digits_head n Hpos) as (c & ds & Heq & Hc).
    pose proof (digits_read n Hpos) as Hread. rewrite Heq in Hread |- *.
    unfold read_int. unfold Py.is_digit in Hc.
    replace (Py.code c =? 45) with false by lia. exact Hread.
Qed.

(** *** Amounts read back *)

Lemma fixed2_read (s : bool) (c : Z) :
  0 <= c -> read_amount (Py.sign_str s +:+ Py.fixed2 c) = Some (s, c).
Proof.
  intros Hc. unfold read_amount, Py.fixed2, Py.zfill.
  rewrite !list_ascii_of_string_app, !list_ascii_of_string_of_list_ascii.
  assert (Hq : 0 <= c / 100) by (apply Z.div_pos; lia).
  destruct (digits_head _ Hq) as (h & ds & Heq & Hh).
  pose proof (digits_read _ Hq) as Hread.
  set (D := Py.digits (c / 100)) in *.
  assert (Hbody :
    match list_ascii_of_string (Py.sign_str s)
          ++ D ++ list_ascii_of_string "." ++ Py.pad_digits 2 (c mod 100) [] with
    | ch :: r =>
        if Py.code ch =? 45 then (true, r)
        else (false, list_ascii_of_string (Py.sign_str s)
                     ++ D ++ list_ascii_of_string "." ++ Py.pad_digits 2 (c mod 100) [])
    | [] => (false, list_ascii_of_string (Py.sign_str s)
                    ++ D ++ list_ascii_of_string "." ++ Py.pad_digits 2 (c mod 100) [])
    end = (s, D ++ list_ascii_of_string "." ++ Py.pad_digits 2 (c mod 100) [])).
  { destruct s; [reflexivity|]. cbn [Py.sign_str list_ascii_of_string app].
    rewrite Heq. cbn [app]. unfold Py.is_digit in Hh.
    replace (Py.code h =? 45) with false by lia. reflexivity. }
  rewrite Hbody. cbn [Py.pad_digits list_ascii_of_string].
  rewrite rev_app_distr. cbn [rev app].
  change (Py.code "." =? 46) with true. rewrite !is_digit_mod10. cbn [andb].
  rewrite rev_involutive, Hread.
  rewrite !digit_val_digit_char
    by (pose proof (Z.mod_pos_bound (c mod 100 / 10) 10);
        pose proof (Z.mod_pos_bound (c mod 100) 10); lia).
  f_equal. f_equal.
  pose proof (Z.div_mod c 100). pose proof (Z.div_mod (c mod 100) 10).
  pose proof (Z.mod_pos_bound c 100).
  assert (H10 : c mod 100 / 10 mod 10 = c mod 100 / 10).
  { apply Z.mod_small. split; [apply Z.div_pos; lia|apply Z.div_lt_upper_bound; lia]. }
  rewrite H10. lia.
Qed.

Lemma round_half_even_nearest (num den : Z) :
  0 < den ->
  let c := Py.round_half_even num den in
  2 * Z.abs (num - c * den) <= den
  /\ (2 * Z.abs (num - c * den) = den -> Z.even c = true).
Proof.
  intros Hden. unfold Py.round_half_even. cbv zeta.
  pose proof (Z.div_mod num den ltac:(lia)) as Hdm.
  pose proof (Z.mod_pos_bound num den Hden) as Hr.
  set (q := num / den) in *. set (r := num mod den) in *.
  assert (Hq : num - q * den = r) by lia.
  assert (Hq1 : num - (q + 1) * den = r - den) by lia.
  destruct (Z.ltb_spec (2 * r) den) as [H1|H1].
  - rewrite Hq. split; [lia|lia].
  - destruct (Z.ltb_spec den (2 * r)) as [H2|H2].
    + rewrite Hq1. split; lia.
    + destruct (Z.even q) eqn:Eq.
      * rewrite Hq. split; [lia|intros _; exact Eq].
      * rewrite Hq1. split; [lia|]. intros _.
        rewrite Z.add_1_r, Z.even_succ, <- Z.negb_even, Eq. reflexivity.
Qed.

Lemma round_half_even_nonneg (num den : Z) :
  0 <= num -> 0 < den -> 0 <= Py.round_half_even num den.
Proof.
  intros Hn Hd. unfold Py.round_half_even. cbv zeta.
  assert (0 <= num / den) by (apply Z.div_pos; lia).
  destruct (_ <? _); [lia|]. destruct (_ <? _); [lia|]. destruct (Z.even _); lia.
Qed.

(** What [.2f] prints shows the amount. *)
Lemma format_2f_shows (x : float) : shows_amount x (Py.format_2f x).
Proof.
  unfold shows_amount, Py.format_2f. destruct (Prim2SF x) as [s|s| |s m e].
  - destruct s; reflexivity.
  - destruct s; reflexivity.
  - reflexivity.
  - unfold nearest_hundredths. destruct (Z.leb_spec 0 e) as [He|He].
    + exists (Z.pos m * 2 ^ e * 100). split.
      * apply fixed2_read. pose proof (Z.pow_nonneg 2 e). nia.
      * rewrite Z.max_r, Z.max_l by lia. change (2 ^ 0) with 1.
        replace (Z.pos m * 100 * 2 ^ e - Z.pos m * 2 ^ e * 100 * 1) with 0 by lia.
        cbn. split; [lia|discriminate].
    + assert (Hden : 0 < 2 ^ (- e)) by (apply Z.pow_pos_nonneg; lia).
      exists (Py.round_half_even (Z.pos m * 100) (2 ^ (- e))). split.
      * apply fixed2_read, round_half_even_nonneg; lia.
      * rewrite Z.max_l, Z.max_r by lia. change (2 ^ 0) with 1. rewrite Z.mul_1_r.
        apply round_half_even_nearest, Hden.
Qed.

Lemma to_string_description (t : Transaction.t) :
  description t (Transaction.to_string t).
Proof.
  exists (Py.str_int (Transaction.pages t)), (Py.format_2f (Transaction.subtotal t)).
  split; [|split; [apply str_int_read|apply format_2f_shows]].
  unfold Transaction.to_string. destruct (Transaction.service_type t); reflexivity.
Qed.

Lemma numbered_lines_items (l : list Transaction.t) : forall (k : Z) (i : nat) (t : Transaction.t),
  0 <= k ->
  l !! i = Some t ->
  exists num line,
    Receipt.numbered_lines k l !! i = Some (num +:+ ". " +:+ line)
    /\ read_nat (list_ascii_of_string num) = Some (k + Z.of_nat i)
    /\ description t line.
Proof.
  induction l as [|t0 l IH]; intros k i t Hk Hi; [discriminate|].
  destruct i as [|i].
  - cbn in Hi. injection Hi as ->.
    exists (Py.str_int k), (Transaction.to_string t).
    split; [reflexivity|]. split; [|apply to_string_description].
    unfold Py.str_int. destruct (Z.ltb_spec k 0); [lia|].
    rewrite list_ascii_of_string_of_list_ascii, Z.add_0_r. apply digits_read, Hk.
  - cbn [Receipt.numbered_lines].
    change ((?x :: Receipt.numbered_lines (k + 1) l) !! S i)
      with (Receipt.numbered_lines (k + 1) l !! i).
    destruct (IH (k + 1) i t ltac:(lia) Hi) as (num & line & H1 & H2 & H3).
    exists num, line. split; [exact H1|]. split; [|exact H3].
    rewrite H2. f_equal. lia.
Qed.

(** *** Date and time read back *)

Lemma date_line_read (d : Py.datetime) :
  clock_reading d ->
  parse_date_line ("Date: " +:+ Py.strftime "%m/%d/%Y" d)
  = Some (Py.month d, Py.day d, Py.year d).
Proof.
  intros ((Hy & Hmo & Hd & _) & _).
  unfold parse_date_line. rewrite strftime_date.
  rewrite !list_ascii_of_string_app. unfold Py.zfill.
  rewrite !list_ascii_of_string_of_list_ascii.
  cbn [list_ascii_of_string expect app Ascii.eqb Bool.eqb mbind option_bind].
  rewrite take_digits_pad by (change (10 ^ Z.of_nat 2) with 100; lia).
  cbn [mbind option_bind expect app Ascii.eqb Bool.eqb].
  rewrite take_digits_pad by (change (10 ^ Z.of_nat 2) with 100; lia).
  cbn [mbind option_bind expect app Ascii.eqb Bool.eqb].
  rewrite take_digits_pad by (change (10 ^ Z.of_nat 4) with 10000; lia).
  reflexivity.
Qed.

Lemma hour_on_dial (h : Z) :
  0 <= h <= 23 ->
  1 <= Py.hour12 h <= 12 /\ hour_of_day (Py.hour12 h) (negb (h <? 12)) = h.
Proof.
  intros Hh. unfold Py.hour12, hour_of_day.
  assert (C : h = 0 \/ h = 1 \/ h = 2 \/ h = 3 \/ h = 4 \/ h = 5 \/ h = 6 \/ h = 7
              \/ h = 8 \/ h = 9 \/ h = 10 \/ h = 11 \/ h = 12 \/ h = 13 \/ h = 14
              \/ h = 15 \/ h = 16 \/ h = 17 \/ h = 18 \/ h = 19 \/ h = 20 \/ h = 21
              \/ h = 22 \/ h = 23) by lia.
  repeat (destruct C as [->|C]); try subst h;
    (split; [vm_compute; split; discriminate|reflexivity]).
Qed.

Lemma time_line_read (d : Py.datetime) :
  clock_reading d ->
  parse_time_line ("Time: " +:+ Py.strftime "%I:%M:%S %p" d)
  = Some (Py.hour12 (Py.hour d), Py.minute d, Py.second d, negb (Py.hour d <? 12)).
Proof.
  intros ((_ & _ & _ & Hh & Hmi & Hs) & _).
  pose proof (proj1 (hour_on_dial _ Hh)) as H12.
  unfold parse_time_line. rewrite strftime_time.
  rewrite !list_ascii_of_string_app. unfold Py.zfill.
  rewrite !list_ascii_of_string_of_list_ascii.
  cbn [list_ascii_of_string expect app Ascii.eqb Bool.eqb mbind option_bind].
  rewrite take_digits_pad by (change (10 ^ Z.of_nat 2) with 100; lia).
  cbn [mbind option_bind expect app Ascii.eqb Bool.eqb].
  rewrite take_digits_pad by (change (10 ^ Z.of_nat 2) with 100; lia).
  cbn [mbind option_bind expect app Ascii.eqb Bool.eqb].
  rewrite take_digits_pad by (change (10 ^ Z.of_nat 2) with 100; lia).
  cbn [mbind option_bind expect app Ascii.eqb Bool.eqb].
  destruct (Py.hour d <? 12); reflexivity.
Qed.

Lemma receipt_lines_layout (r : Receipt.t) :
  Receipt.receipt_lines r
  = layout ("Date: " +:+ Py.strftime "%m/%d/%Y" (Receipt.timestamp r))
      ("Time: " +:+ Py.strftime "%I:%M:%S %p" (Receipt.timestamp r))
      (Receipt.numbered_lines 1 (Receipt.transactions r))
      (Py.format_2f (Receipt.total r)).
Proof. reflexivity. Qed.

Lemma receipt_text_lines (r : Receipt.t) :
  lines_of (Receipt.generate_receipt_text r) = Receipt.receipt_lines r.
Proof.
  unfold Receipt.generate_receipt_text.
  apply (lines_of_join (Receipt.receipt_lines r)); [|apply receipt_lines_one_line].
  rewrite receipt_lines_layout. discriminate.
Qed.

(** C8, as the code has it.  Split at its newlines, the receipt text
    is: a banner of 50 [=], the title, the banner, a header with the
    date as MM/DD/YYYY and the time on a 12-hour dial (for a timestamp
    read off the clock), the transactions in insertion order, the
    [i]-th on the line numbered [i + 1] as ["N. "] followed by its
    description, a separator of 50 [-], the total line and a closing
    banner.  Page counts and amounts are checked by reading them back:
    a finite amount stands on exactly two decimals, rounded to the
    nearest hundredth; an infinite amount or a [nan] is printed as
    [inf], [-inf] or [nan].  For the receipt made by adding two
    transactions the lines ["1. ..."] and ["2. ..."] follow in that
    order and the total line shows the sum of the two subtotals. *)
Theorem receipt_text_layout (r : Receipt.t) :
  (exists (date time : string) (items : list string) (total : string),
     lines_of (Receipt.generate_receipt_text r) = layout date time items total
     /\ banner = string_of_list_ascii (repeat "="%char 50)
     /\ separator = string_of_list_ascii (repeat "-"%char 50)
     /\ (clock_reading (Receipt.timestamp r) ->
         parse_date_line date
         = Some (Py.month (Receipt.timestamp r), Py.day (Receipt.timestamp r),
                 Py.year (Receipt.timestamp r))
         /\ exists (h : Z) (past_noon : bool),
              parse_time_line time
              = Some (h, Py.minute (Receipt.timestamp r),
                      Py.second (Receipt.timestamp r), past_noon)
              /\ 1 <= h <= 12
              /\ hour_of_day h past_noon = Py.hour (Receipt.timestamp r))
     /\ List.length items = List.length (Receipt.transactions r)
     /\ (forall (i : nat) (t : Transaction.t),
           Receipt.transactions r !! i = Some t ->
           exists num line : string,
             items !! i = Some (num +:+ ". " +:+ line)
             /\ read_nat (list_ascii_of_string num) = Some (Z.of_nat i + 1)
             /\ description t line)
     /\ shows_amount (Receipt.total r) total
     /\ (is_finite (Receipt.total r) = true -> two_decimals total = true))
  /\ (forall (now : Py.datetime) (t1 t2 : Transaction.t),
        let r2 := Receipt.add_transaction
                    (Receipt.add_transaction (Receipt.init now) t1) t2 in
        exists line1 line2 total : string,
          lines_of (Receipt.generate_receipt_text r2) !! 10%nat = Some ("1. " +:+ line1)
          /\ description t1 line1
          /\ lines_of (Receipt.generate_receipt_text r2) !! 11%nat
             = Some ("2. " +:+ line2)
          /\ description t2 line2
          /\ lines_of (Receipt.generate_receipt_text r2) !! 14%nat
             = Some ("TOTAL: ₱" +:+ total)
          /\ shows_amount (0 + Transaction.subtotal t1 + Transaction.subtotal t2)%float
               total).
Proof.
  split.
  - exists ("Date: " +:+ Py.strftime "%m/%d/%Y" (Receipt.timestamp r)),
      ("Time: " +:+ Py.strftime "%I:%M:%S %p" (Receipt.timestamp r)),
      (Receipt.numbered_lines 1 (Receipt.transactions r)),
      (Py.format_2f (Receipt.total r)).
    split; [rewrite receipt_text_lines; apply receipt_lines_layout|].
    split; [reflexivity|]. split; [reflexivity|]. split.
    { intros Hclock. split; [apply date_line_read, Hclock|].
      exists (Py.hour12 (Py.hour (Receipt.timestamp r))),
        (negb (Py.hour (Receipt.timestamp r) <? 12)).
      split; [apply time_line_read, Hclock|].
      apply hour_on_dial. destruct Hclock as ((_ & _ & _ & Hh & _) & _). exact Hh. }
    split; [apply numbered_lines_length|]. split.
    { intros i t Hi.
      destruct (numbered_lines_items _ 1 i t ltac:(lia) Hi) as (num & line & H1 & H2 & H3).
      exists num, line. split; [exact H1|]. split; [|exact H3].
      rewrite H2. f_equal. lia. }
    split; [apply format_2f_shows|apply format_2f_two_decimals].
  - intros now t1 t2 r2.
    exists (Transaction.to_string t1), (Transaction.to_string t2),
      (Py.format_2f (0 + Transaction.subtotal t1 + Transaction.subtotal t2)%float).
    rewrite receipt_text_lines.
    split; [reflexivity|]. split; [apply to_string_description|].
    split; [reflexivity|]. split; [apply to_string_description|].
    split; [reflexivity|apply format_2f_shows].
Qed.

Lemma receipt_text_layout_witness :
  let r := Receipt.add_transaction (Receipt.init noon)
             (Transaction.with_subtotal print_job 50) in
  exists (date time : string) (items : list string) (total : string),
    lines_of (Receipt.generate_receipt_text r) = layout date time items total
    /\ parse_date_line date = Some (7, 4, 2025)
    /\ two_decimals total = true.
Proof.
  intros r.
  destruct (proj1 (receipt_text_layout r))
    as (date & time & items & total & Hlines & _ & _ & Hclock & _ & _ & _ & Hfin).
  exists date, time, items, total. split; [exact Hlines|]. split.
  - refine (proj1 (Hclock _)). unfold clock_reading, Py.valid_datetime; cbn; lia.
  - apply Hfin. vm_compute. reflexivity.
Defined.

(** C8 as stated fails: ten pages at a price of 1e308 give a receipt
    a controller can reach whose total line reads [TOTAL: ₱inf], which
    is no amount on two decimals. *)
Lemma receipt_prints_inf :
  reachable costly_controller
  /\ lines_of (Receipt.generate_receipt_text (POSController.current_receipt costly_controller))
     !! 13%nat = Some "TOTAL: ₱inf"
  /\ read_amount "inf" = None
  /\ two_decimals "inf" = false.
Proof.
  split.
  - unfold costly_controller.
    eapply reachable_step; [|apply step_add].
    eapply reachable_step; [|apply step_update].
    apply (reachable_init empty_world noon). vm_compute. reflexivity.
  - vm_compute. repeat split.
Qed.

(** ** Adding a transaction *)

Lemma sum_snoc (l : list float) (x : float) : Py.sum (l ++ [x]) = (Py.sum l + x)%float.
Proof. unfold Py.sum. rewrite fold_left_app. reflexivity. Qed.

Lemma add_transaction_total (r : Receipt.t) (t : Transaction.t) :
  total_is_sum (Receipt.add_transaction r t).
Proof. reflexivity. Qed.

(** C10: when the new transaction can be priced, [add_transaction]
    returns it, the transaction list is the old one followed by it, every
    transaction already present is still at its index, unchanged, the
    total grows by exactly its subtotal, and the table, the history and
    the receipt's timestamp are untouched. *)
Theorem add_transaction_appends (self : POSController.t) (C : ServiceType)
    (pages : Z) (is_colored has_images : bool) (now : Py.datetime)
    (x : float) (t : Transaction.t) :
  Transaction.calculate_subtotal
    (Transaction.init C pages is_colored has_images now) (POSController.config self)
  = (Ok x, t) ->
  total_is_sum (POSController.current_receipt self) ->
  exists self',
    POSController.add_transaction self C pages is_colored has_images now = (Ok t, self')
    /\ Transaction.subtotal t = x
    /\ Receipt.transactions (POSController.current_receipt self')
       = Receipt.transactions (POSController.current_receipt self) ++ [t]
    /\ (forall (i : nat) (t0 : Transaction.t),
          Receipt.transactions (POSController.current_receipt self) !! i = Some t0 ->
          Receipt.transactions (POSController.current_receipt self') !! i = Some t0)
    /\ Receipt.total (POSController.current_receipt self')
       = (Receipt.total (POSController.current_receipt self) + Transaction.subtotal t)%float
    /\ Receipt.timestamp (POSController.current_receipt self')
       = Receipt.timestamp (POSController.current_receipt self)
    /\ POSController.config self' = POSController.config self
    /\ POSController.receipt_history self' = POSController.receipt_history self.
Proof.
  intros Hcalc Hinv. unfold POSController.add_transaction. rewrite Hcalc.
  eexists. split; [reflexivity|].
  split; [rewrite (calculate_subtotal_stores _ _ _ _ Hcalc); reflexivity|].
  split; [reflexivity|].
  split; [intros i t0 Hi; cbn; apply lookup_app_l_Some, Hi|].
  split; [|repeat split].
  cbn [POSController.current_receipt POSController.with_receipt
       Receipt.add_transaction Receipt.calculate_total snd
       Receipt.total Receipt.transactions].
  rewrite map_app. cbn [map]. rewrite sum_snoc, <- Hinv. reflexivity.
Qed.

Lemma add_transaction_appends_witness :
  exists self',
    POSController.add_transaction fresh_controller PRINT 5 true true noon
    = (Ok (Transaction.with_subtotal print_job 50), self')
    /\ Receipt.total (POSController.current_receipt self') = (0 + 50)%float.
Proof.
  destruct (add_transaction_appends fresh_controller PRINT 5 true true noon
              50%float (Transaction.with_subtotal print_job 50))
    as (self' & H1 & _ & _ & _ & H5 & _).
  - vm_compute. reflexivity.
  - reflexivity.
  - exists self'. split; [exact H1 | exact H5].
Defined.

(** ** Looking a rate up *)

Lemma optionxform_option_name (f : rate) :
  ConfigParser.optionxform (option_name f) = option_name f.
Proof. destruct f; reflexivity. Qed.

Lemma section_name_not_default (C : ServiceType) :
  String.eqb (section_name C) ConfigParser.default_section = false.
Proof. destruct C; reflexivity. Qed.

(** A value without a percent sign is read as it stands. *)
Lemma interpolate_some_plain (f : nat) (map : gmap string string) (l : list ascii) :
  ConfigParser.has_percent l = false ->
  ConfigParser.interpolate_some (S f) map l = Ok l.
Proof.
  induction l as [|c r IH]; intros H; [reflexivity|].
  cbn [ConfigParser.has_percent existsb] in H.
  apply orb_false_iff in H as [Hc Hr].
  specialize (IH Hr). unfold ConfigParser.interpolate_some in IH |- *.
  cbn beta iota delta [bind]. rewrite Hc.
  cbn beta iota delta [bind] in IH.
  rewrite IH. reflexivity.
Qed.

Lemma before_get_plain (map : gmap string string) (v : string) :
  no_percent v -> ConfigParser.before_get map v = Ok v.
Proof.
  intros H. unfold ConfigParser.before_get, ConfigParser.MAX_INTERPOLATION_DEPTH.
  rewrite interpolate_some_plain by exact H.
  cbn [bind]. rewrite string_of_list_ascii_of_string. reflexivity.
Qed.

(** The look-up of a rate goes by the text the named section holds. *)
Lemma getfloat_raw (cp : ConfigParser.t) (section : string) (f : rate)
    (fallback : float) (v : string) :
  raw_value cp section (option_name f) = Some v ->
  no_percent v ->
  ConfigParser.getfloat cp section (option_name f) fallback = Py.float_of_str v.
Proof.
  unfold raw_value, ConfigParser.getfloat, ConfigParser.unify_values.
  intros Hraw Hv.
  destruct (ConfigParser.sections cp !! section) as [d|]; [|discriminate].
  cbn in Hraw. rewrite optionxform_option_name.
  rewrite (lookup_union_Some_l _ _ _ _ Hraw).
  rewrite before_get_plain by exact Hv. reflexivity.
Qed.

Lemma lookup_rate_raw (cfg : PriceConfig.t) (C : ServiceType) (f : rate) (v : string) :
  raw_value (PriceConfig.config cfg) (section_name C) (option_name f) = Some v ->
  no_percent v ->
  lookup_rate cfg C f = Py.float_of_str v.
Proof.
  intros Hraw Hv.
  destruct f; apply (getfloat_raw _ _ _ _ _ Hraw Hv).
Qed.

(** ** Loading the configuration file *)

Lemma fold_insert_lookup (kvs : list (string * string)) : forall (d : gmap string string) (k : string),
  fold_left (fun acc kv => <[ConfigParser.optionxform (fst kv) := snd kv]> acc) kvs d !! k
  = match last_value kvs k with
    | Some v => Some v
    | None => d !! k
    end.
Proof.
  induction kvs as [|[k0 v0] r IH]; intros d k; [reflexivity|].
  cbn [fold_left last_value fst snd]. rewrite IH.
  destruct (last_value r k); [reflexivity|].
  destruct (String.eqb_spec (ConfigParser.optionxform k0) k) as [->|Hne].
  - apply lookup_insert_eq.
  - apply lookup_insert_ne, Hne.
Qed.

Lemma read_section_raw (cp : ConfigParser.t) (name : string)
    (kvs : list (string * string)) (section k : string) :
  String.eqb section ConfigParser.default_section = false ->
  is_Some (ConfigParser.sections cp !! section) ->
  raw_value (PriceConfig.read_section cp name kvs) section k
  = match (if String.eqb name section then last_value kvs k else None) with
    | Some v => Some v
    | None => raw_value cp section k
    end.
Proof.
  intros Hd [d Hsec]. unfold PriceConfig.read_section, raw_value.
  destruct (String.eqb_spec name section) as [->|Hne].
  - rewrite Hd. cbn [ConfigParser.sections]. rewrite lookup_insert_eq, Hsec.
    cbn. apply fold_insert_lookup.
  - destruct (String.eqb name ConfigParser.default_section); cbn [ConfigParser.sections];
      [reflexivity|].
    rewrite lookup_insert_ne by exact Hne. reflexivity.
Qed.

Lemma read_section_keeps (cp : ConfigParser.t) (name : string)
    (kvs : list (string * string)) (section : string) :
  is_Some (ConfigParser.sections cp !! section) ->
  is_Some (ConfigParser.sections (PriceConfig.read_section cp name kvs) !! section).
Proof.
  intros H. unfold PriceConfig.read_section.
  destruct (String.eqb name ConfigParser.default_section); cbn [ConfigParser.sections];
    [exact H|].
  destruct (decide (name = section)) as [->|Hne].
  - rewrite lookup_insert_eq. eauto.
  - rewrite lookup_insert_ne by exact Hne. exact H.
Qed.

(** The file overrides exactly the options it names. *)
Lemma read_sections_raw (secs : list (string * list (string * string))) :
  forall (cp : ConfigParser.t) (section k : string),
  String.eqb section ConfigParser.default_section = false ->
  is_Some (ConfigParser.sections cp !! section) ->
  raw_value (PriceConfig.read_sections cp secs) section k
  = match persisted secs section k with
    | Some v => Some v
    | None => raw_value cp section k
    end.
Proof.
  unfold PriceConfig.read_sections.
  induction secs as [|[name kvs] rest IH]; intros cp section k Hd Hsec; [reflexivity|].
  cbn [fold_left persisted fst snd].
  rewrite IH by (try exact Hd; apply read_section_keeps, Hsec).
  destruct (persisted rest section k); [reflexivity|].
  apply read_section_raw; assumption.
Qed.

Lemma raw_value_section (cp : ConfigParser.t) (section k v : string) :
  raw_value cp section k = Some v -> is_Some (ConfigParser.sections cp !! section).
Proof.
  unfold raw_value. destruct (ConfigParser.sections cp !! section); [eauto|discriminate].
Qed.

Lemma default_table_raw (C : ServiceType) (f : rate) :
  raw_value (PriceConfig.config default_table) (section_name C) (option_name f)
  = Some (default_raw C f).
Proof. destruct C, f; vm_compute; reflexivity. Qed.

Lemma default_table_sections (C : ServiceType) :
  is_Some (ConfigParser.sections (PriceConfig.config default_table) !! section_name C).
Proof. exact (raw_value_section _ _ _ _ (default_table_raw C Monochrome)). Qed.

Lemma default_raw_plain (C : ServiceType) (f : rate) : no_percent (default_raw C f).
Proof. destruct C, f; vm_compute; reflexivity. Qed.

(** The built-in table is set up first, whatever the file; the file is
    then read over it. *)
Lemma init_over_defaults (path : string) (w : World) :
  PriceConfig.init path w
  = PriceConfig.load_config
      {| PriceConfig.config_file := path;
         PriceConfig.config := PriceConfig.config default_table |} w.
Proof. reflexivity. Qed.

Lemma default_raw_rate (C : ServiceType) (f : rate) :
  Py.float_of_str (default_raw C f) = Ok (default_rate C f).
Proof. destruct C, f; vm_compute; reflexivity. Qed.

Lemma float_of_str_raises (v : string) :
  (forall x, Py.float_of_str v <> Ok x) ->
  Py.float_of_str v
  = Raise (ValueError ("could not convert string to float: " +:+ Py.repr_str v)).
Proof.
  unfold Py.float_of_str. destruct (Py.parse_float _); [|reflexivity].
  intros H. exfalso. eapply H. reflexivity.
Qed.

(** The strict reader's check against the file's sections and options. *)
Lemma check_options_spec (name : string) (kvs : list (string * string)) :
  forall added : gset (string * string),
    let ks := map (fun kv => (name, Py.lower (fst kv))) kvs in
    match PriceConfig.check_options name kvs added with
    | Ok added' =>
        NoDup ks /\ (forall k, k ∈ ks -> k ∉ added) /\ added' = list_to_set ks ∪ added
    | Raise e =>
        e = DuplicateOptionError /\ ~ (NoDup ks /\ forall k, k ∈ ks -> k ∉ added)
    end.
Proof.
  induction kvs as [|kv kvs IH]; intros added; cbn [PriceConfig.check_options map].
  - split; [constructor|]. split; [intros k Hk; inversion Hk|].
    cbn. rewrite (left_id_L ∅ (∪)). reflexivity.
  - unfold ConfigParser.optionxform. set (key := (name, Py.lower (fst kv))).
    destruct (bool_decide_reflect (key ∈ added)) as [Hin|Hin].
    + split; [reflexivity|]. intros [_ H]. apply (H key); [left|exact Hin].
    + specialize (IH ({[key]} ∪ added)). cbv zeta in IH.
      destruct (PriceConfig.check_options name kvs ({[key]} ∪ added)) as [added'|e].
      * destruct IH as (Hnd & Hdis & ->). split.
        { apply NoDup_cons. split; [|exact Hnd].
          intros Hk. apply (Hdis key Hk). apply elem_of_union_l, elem_of_singleton.
          reflexivity. }
        split.
        { intros k Hk. apply elem_of_cons in Hk as [->|Hk]; [exact Hin|].
          intros Hka. apply (Hdis k Hk). apply elem_of_union_r, Hka. }
        cbn [list_to_set foldr]. 
        apply set_eq. intros k. rewrite !elem_of_union, elem_of_singleton. tauto.
      * destruct IH as (-> & Hnot). split; [reflexivity|].
        intros [Hnd Hdis]. apply Hnot. apply NoDup_cons in Hnd as [Hk Hnd].
        split; [exact Hnd|]. intros k Hkin Hka.
        apply elem_of_union in Hka as [Hka|Hka].
        -- apply elem_of_singleton in Hka. subst k. exact (Hk Hkin).
        -- apply (Hdis k); [right; exact Hkin|exact Hka].
Qed.

Lemma file_sections_cons (s : string * list (string * string))
    (secs : list (string * list (string * string))) :
  file_sections (s :: secs)
  = if String.eqb (fst s) ConfigParser.default_section then file_sections secs
    else fst s :: file_sections secs.
Proof.
  unfold file_sections. cbn [map]. rewrite filter_cons.
  destruct (String.eqb_spec (fst s) ConfigParser.default_section) as [E|E].
  - rewrite decide_False by (intros H; exact (H E)). reflexivity.
  - rewrite decide_True by exact E. reflexivity.
Qed.

Lemma check_sections_spec (secs : list (string * list (string * string))) :
  forall (S : gset string) (O : gset (string * string)),
    let good :=
      NoDup (file_sections secs) /\ (forall n, n ∈ file_sections secs -> n ∉ S)
      /\ NoDup (file_options secs) /\ (forall k, k ∈ file_options secs -> k ∉ O) in
    match PriceConfig.check_sections secs S O with
    | Ok _ => good
    | Raise e => (e = DuplicateSectionError \/ e = DuplicateOptionError) /\ ~ good
    end.
Proof.
  induction secs as [|s secs IH]; intros S O; cbn [PriceConfig.check_sections].
  - repeat split; try constructor; intros ? H; inversion H.
  - cbv zeta. rewrite file_sections_cons.
    change (file_options (s :: secs))
      with (map (fun kv => (fst s, Py.lower (fst kv))) (snd s) ++ file_options secs).
    set (ks := map (fun kv => (fst s, Py.lower (fst kv))) (snd s)).
    destruct (String.eqb (fst s) ConfigParser.default_section) eqn:Edef; cbn [negb andb].
    + pose proof (check_options_spec (fst s) (snd s) O) as Hopt. cbv zeta in Hopt.
      fold ks in Hopt.
      destruct (PriceConfig.check_options (fst s) (snd s) O) as [O'|e]; cbn [bind].
      * destruct Hopt as (Hnd & Hdis & ->).
        specialize (IH ({[fst s]} ∪ S) (list_to_set ks ∪ O)). cbv zeta in IH.
        destruct (PriceConfig.check_sections secs _ _) as [u|e].
        -- destruct IH as (H1 & H2 & H3 & H4). split; [exact H1|]. split.
           { intros n Hn HS. apply (H2 n Hn). apply elem_of_union_r, HS. }
           split.
           { apply NoDup_app. split; [exact Hnd|]. split; [|exact H3].
             intros k Hk Hk'. apply (H4 k Hk'). apply elem_of_union_l, elem_of_list_to_set, Hk. }
           intros k Hk. apply elem_of_app in Hk as [Hk|Hk]; [apply Hdis, Hk|].
           intros HO. apply (H4 k Hk). apply elem_of_union_r, HO.
        -- destruct IH as [He Hnot]. split; [exact He|].
           intros (H1 & H2 & H3 & H4). apply Hnot.
           apply NoDup_app in H3 as (H3a & H3b & H3c).
           split; [exact H1|]. split.
           { intros n Hn HS. apply elem_of_union in HS as [HS|HS].
             - apply elem_of_singleton in HS. subst n.
               unfold file_sections in Hn. apply list_elem_of_filter in Hn as [Hn _].
               apply Hn. apply String.eqb_eq, Edef.
             - exact (H2 n Hn HS). }
           split; [exact H3c|].
           intros k Hk HO. apply elem_of_union in HO as [HO|HO].
           ++ apply elem_of_list_to_set in HO. exact (H3b k HO Hk).
           ++ apply (H4 k); [apply elem_of_app; right; exact Hk|exact HO].
      * destruct Hopt as (-> & Hnot). split; [right; reflexivity|].
        intros (H1 & H2 & H3 & H4). apply Hnot.
        apply NoDup_app in H3 as (H3a & H3b & H3c). split; [exact H3a|].
        intros k Hk. apply H4, elem_of_app. left. exact Hk.
    + destruct (bool_decide_reflect (fst s ∈ S)) as [HinS|HinS].
      * split; [left; reflexivity|]. intros (_ & H2 & _). apply (H2 (fst s)); [left|exact HinS].
      * pose proof (check_options_spec (fst s) (snd s) O) as Hopt. cbv zeta in Hopt.
        fold ks in Hopt.
        destruct (PriceConfig.check_options (fst s) (snd s) O) as [O'|e]; cbn [bind].
        -- destruct Hopt as (Hnd & Hdis & ->).
           specialize (IH ({[fst s]} ∪ S) (list_to_set ks ∪ O)). cbv zeta in IH.
           destruct (PriceConfig.check_sections secs _ _) as [u|e].
           ++ destruct IH as (H1 & H2 & H3 & H4). split.
              { apply NoDup_cons. split; [|exact H1].
                intros Hn. apply (H2 _ Hn). apply elem_of_union_l, elem_of_singleton.
                reflexivity. }
              split.
              { intros n Hn HS. apply elem_of_cons in Hn as [->|Hn]; [exact (HinS HS)|].
                apply (H2 n Hn). apply elem_of_union_r, HS. }
              split.
              { apply NoDup_app. split; [exact Hnd|]. split; [|exact H3].
                intros k Hk Hk'. apply (H4 k Hk').
                apply elem_of_union_l, elem_of_list_to_set, Hk. }
              intros k Hk. apply elem_of_app in Hk as [Hk|Hk]; [apply Hdis, Hk|].
              intros HO. apply (H4 k Hk). apply elem_of_union_r, HO.
           ++ destruct IH as [He Hnot]. split; [exact He|].
              intros (H1 & H2 & H3 & H4). apply Hnot.
              apply NoDup_cons in H1 as [H1a H1b].
              apply NoDup_app in H3 as (H3a & H3b & H3c).
              split; [exact H1b|]. split.
              { intros n Hn HS. apply elem_of_union in HS as [HS|HS].
                - apply elem_of_singleton in HS. subst n. exact (H1a Hn).
                - apply (H2 n); [right; exact Hn|exact HS]. }
              split; [exact H3c|].
              intros k Hk HO. apply elem_of_union in HO as [HO|HO].
              ** apply elem_of_list_to_set in HO. exact (H3b k HO Hk).
              ** apply (H4 k); [apply elem_of_app; right; exact Hk|exact HO].
        -- destruct Hopt as (-> & Hnot). split; [right; reflexivity|].
           intros (H1 & H2 & H3 & H4). apply Hnot.
           apply NoDup_app in H3 as (H3a & H3b & H3c). split; [exact H3a|].
           intros k Hk. apply H4, elem_of_app. left. exact Hk.
Qed.

Lemma check_sections_strict (secs : list (string * list (string * string))) :
  match PriceConfig.check_sections secs ∅ ∅ with
  | Ok _ => strict_file secs
  | Raise e => (e = DuplicateSectionError \/ e = DuplicateOptionError) /\ ~ strict_file secs
  end.
Proof.
  pose proof (check_sections_spec secs ∅ ∅) as H. cbv zeta in H. unfold strict_file.
  destruct (PriceConfig.check_sections secs ∅ ∅) as [u|e].
  - destruct H as (H1 & _ & H3 & _). split; assumption.
  - destruct H as [He Hnot]. split; [exact He|]. intros [H1 H3]. apply Hnot.
    repeat split; try assumption; intros ? _; apply not_elem_of_empty.
Qed.

(** C6, as the code has it.  For a configuration file in ASCII text
    (or no file): when the file repeats no section and no option it
    loads; an option the file does not give keeps its built-in value and
    the rate is the built-in one; an option the file gives, free of
    percent signs, is looked up from the file's text, so a text that is
    no number makes the look-up of that one rate raise [ValueError],
    with no default standing in for it.  A file that repeats a section
    or an option aborts the load. *)
Theorem load_config_overlay (w : World) (secs : list (string * list (string * string))) :
  (config_ini w = None /\ secs = []) \/ config_ini w = Some (IniSections secs) ->
  ascii_file secs ->
  (strict_file secs ->
   exists cfg,
     PriceConfig.init "config.ini" w = Ok cfg /\
     forall (C : ServiceType) (f : rate),
       (persisted secs (section_name C) (option_name f) = None ->
        lookup_rate cfg C f = Ok (default_rate C f))
       /\ (forall v,
             persisted secs (section_name C) (option_name f) = Some v ->
             no_percent v ->
             lookup_rate cfg C f = Py.float_of_str v
             /\ ((forall x, Py.float_of_str v <> Ok x) ->
                 lookup_rate cfg C f
                 = Raise (ValueError ("could not convert string to float: "
                                      +:+ Py.repr_str v)))))
  /\ (~ strict_file secs ->
      PriceConfig.init "config.ini" w = Raise DuplicateSectionError
      \/ PriceConfig.init "config.ini" w = Raise DuplicateOptionError).
Proof.
  intros Hw _. rewrite init_over_defaults. unfold PriceConfig.load_config, config_ini in *.
  cbn [PriceConfig.config_file].
  pose proof (check_sections_strict secs) as Hchk.
  split.
  - intros Hstrict.
    assert (Hcfg : exists cfg,
      match ini_files w !! "config.ini" with
      | Some (IniSections secs0) =>
          _ <- PriceConfig.check_sections secs0 ∅ ∅ ;;
          Ok (PriceConfig.with_config
                {| PriceConfig.config_file := "config.ini";
                   PriceConfig.config := PriceConfig.config default_table |}
                (PriceConfig.read_sections (PriceConfig.config default_table) secs0))
      | Some IniRejected => Raise ParsingError
      | None => Ok {| PriceConfig.config_file := "config.ini";
                      PriceConfig.config := PriceConfig.config default_table |}
      end = Ok cfg /\
      PriceConfig.config cfg
      = PriceConfig.read_sections (PriceConfig.config default_table) secs).
    { destruct Hw as [[-> ->]| ->]; [eexists; split; reflexivity|].
      destruct (PriceConfig.check_sections secs ∅ ∅) as [u|e];
        [|exfalso; exact (proj2 Hchk Hstrict)].
      eexists; split; reflexivity. }
    destruct Hcfg as (cfg & Hinit & Hcp). exists cfg. split; [exact Hinit|].
    intros C f.
    pose proof (read_sections_raw secs (PriceConfig.config default_table)
                  (section_name C) (option_name f)
                  (section_name_not_default C) (default_table_sections C)) as Hraw.
    rewrite <- Hcp, default_table_raw in Hraw.
    split.
    + intros Hnone. rewrite Hnone in Hraw.
      rewrite (lookup_rate_raw _ _ _ _ Hraw (default_raw_plain C f)).
      apply default_raw_rate.
    + intros v Hsome Hv. rewrite Hsome in Hraw.
      rewrite (lookup_rate_raw _ _ _ _ Hraw Hv).
      split; [reflexivity | apply float_of_str_raises].
  - intros Hnot. destruct Hw as [[_ ->]| ->].
    + exfalso. apply Hnot. split; constructor.
    + destruct (PriceConfig.check_sections secs ∅ ∅) as [u|e];
        [exfalso; exact (Hnot Hchk)|].
      destruct Hchk as [[->| ->] _]; [left|right]; reflexivity.
Qed.

Lemma load_config_overlay_witness :
  exists cfg,
    PriceConfig.init "config.ini" malformed_world = Ok cfg /\
    lookup_rate cfg PRINT Colored = Ok 8%float /\
    lookup_rate cfg PRINT Monochrome
    = Raise (ValueError "could not convert string to float: 'abc'").
Proof.
  destruct (load_config_overlay malformed_world
              [("PRINT", [("monochrome_price", "abc")])]) as [H _].
  - right. reflexivity.
  - repeat constructor.
  - destruct H as (cfg & Hinit & H).
    + split; repeat constructor; intros Hin; inversion Hin.
    + exists cfg. split; [exact Hinit|]. split.
      * apply (proj1 (H PRINT Colored)). reflexivity.
      * apply (proj2 (H PRINT Monochrome) "abc"); [reflexivity|reflexivity|].
        intros x. vm_compute. discriminate.
Defined.

(** C6 as stated fails: the malformed monochrome price of
    printing is not replaced by the default 5.00, the look-up raises; and
    a file the reader rejects aborts the load. *)
Lemma malformed_price_lookup_raises :
  match PriceConfig.init "config.ini" malformed_world with
  | Ok cfg =>
      PriceConfig.get_monochrome_price cfg "print"
      = Raise (ValueError "could not convert string to float: 'abc'")
      /\ PriceConfig.get_monochrome_price cfg "print" <> Ok 5%float
  | Raise _ => False
  end
  /\ PriceConfig.init "config.ini" rejected_world = Raise ParsingError.
Proof. vm_compute. repeat split. discriminate. Qed.

(** ** The text of a float reads back as a float *)

Lemma forallb_app_true {A : Type} (p : A -> bool) (l1 l2 : list A) :
  forallb p l1 = true -> forallb p l2 = true -> forallb p (l1 ++ l2) = true.
Proof. intros H1 H2. rewrite forallb_app, H1, H2. reflexivity. Qed.

Lemma digit_is_numeral_char (l : list ascii) :
  all_digits l -> forallb numeral_char l = true.
Proof.
  unfold all_digits. induction l as [|c l IH]; [reflexivity|].
  cbn [forallb]. intros [Hc Hl]%andb_true_iff.
  unfold numeral_char at 1. rewrite Hc, (IH Hl). reflexivity.
Qed.

Lemma numeral_chars (ip fp : list ascii) (point : bool) (ex : option (ascii * list ascii)) :
  well_formed_numeral ip fp ex ->
  forallb numeral_char (numeral ip fp point ex) = true.
Proof.
  intros (Hip & _ & Hfp & Hex). unfold numeral.
  apply forallb_app_true; [apply digit_is_numeral_char, Hip|].
  apply forallb_app_true.
  - destruct point; [|reflexivity]. cbn [forallb].
    rewrite (digit_is_numeral_char _ Hfp). reflexivity.
  - destruct ex as [[sg ed]|]; [|reflexivity].
    destruct Hex as (Hsg & Hed & _). cbn [forallb].
    rewrite (digit_is_numeral_char _ Hed).
    unfold numeral_char at 2. rewrite Hsg, orb_true_r. reflexivity.
Qed.

Lemma numeral_char_classes (c : ascii) :
  numeral_char c = true ->
  Py.is_underscore c = false /\ Py.is_space c = false /\ ConfigParser.is_percent c = false.
Proof.
  unfold numeral_char, Py.is_digit, is_sign, Py.is_underscore, Py.is_space,
    ConfigParser.is_percent.
  intros H. repeat split; lia.
Qed.

Lemma drop_underscores_plain (l : list ascii) : forall prev : ascii,
  Py.is_underscore prev = false ->
  forallb numeral_char l = true ->
  Py.drop_underscores prev l = Some l.
Proof.
  induction l as [|c l IH]; intros prev Hp Hl; cbn [Py.drop_underscores].
  - rewrite Hp. reflexivity.
  - cbn [forallb] in Hl. apply andb_true_iff in Hl as [Hc Hl].
    destruct (numeral_char_classes c Hc) as (Hu & _ & _).
    rewrite Hu, Hp. cbn [andb]. rewrite (IH c Hu Hl). reflexivity.
Qed.

Lemma lstrip_plain (l : list ascii) :
  forallb numeral_char l = true -> Py.lstrip l = l.
Proof.
  destruct l as [|c l]; [reflexivity|]. cbn [forallb Py.lstrip].
  intros [Hc _]%andb_true_iff.
  destruct (numeral_char_classes c Hc) as (_ & -> & _). reflexivity.
Qed.

Lemma forallb_rev {A : Type} (p : A -> bool) (l : list A) :
  forallb p l = true -> forallb p (rev l) = true.
Proof.
  rewrite !forallb_forall. intros H x Hx. apply H, in_rev, Hx.
Qed.

Lemma strip_plain (l : list ascii) :
  forallb numeral_char l = true -> Py.strip l = l.
Proof.
  intros H. unfold Py.strip. rewrite (lstrip_plain l H).
  rewrite (lstrip_plain _ (forallb_rev _ _ H)). apply rev_involutive.
Qed.

Lemma has_percent_plain (l : list ascii) :
  forallb numeral_char l = true -> ConfigParser.has_percent l = false.
Proof.
  induction l as [|c l IH]; [reflexivity|]. cbn [forallb].
  intros [Hc Hl]%andb_true_iff. unfold ConfigParser.has_percent. cbn [existsb].
  destruct (numeral_char_classes c Hc) as (_ & _ & ->). exact (IH Hl).
Qed.

Lemma span_digits_all (l : list ascii) :
  all_digits l -> Py.span_digits l = (l, []).
Proof.
  intros H. rewrite <- (app_nil_r l) at 1. apply span_digits_app; [exact H|exact I].
Qed.

Lemma parse_exponent_numeral (ex : option (ascii * list ascii)) :
  match ex with
  | Some (sg, ed) => is_sign sg = true /\ all_digits ed /\ ed <> []
  | None => True
  end ->
  exists z, Py.parse_exponent
              match ex with
              | Some (sg, ed) => "e"%char :: sg :: ed
              | None => []
              end = (z, []).
Proof.
  destruct ex as [[sg ed]|]; [|intros _; exists 0; reflexivity].
  intros (Hsg & Hed & Hne). cbn [Py.parse_exponent].
  change (Py.is_exp_mark "e") with true. cbn iota.
  assert (Hsplit : exists neg, Py.split_sign (sg :: ed) = (neg, ed)).
  { unfold Py.split_sign, is_sign in *.
    destruct (Py.code sg =? 45); [eauto|].
    destruct (Py.code sg =? 43); [eauto|discriminate]. }
  destruct Hsplit as [neg ->]. rewrite (span_digits_all _ Hed).
  destruct ed as [|c ed]; [congruence|]. eauto.
Qed.

(** A well-formed numeral is accepted by the reader of decimals. *)
Lemma parse_decimal_numeral (neg : bool) (ip fp : list ascii) (point : bool)
    (ex : option (ascii * list ascii)) :
  well_formed_numeral ip fp ex ->
  exists sf, Py.parse_decimal neg (numeral ip fp point ex) = Some sf.
Proof.
  intros (Hip & Hne & Hfp & Hex).
  destruct (parse_exponent_numeral ex Hex) as [z Hz].
  set (tail := match ex with
               | Some (sg, ed) => "e"%char :: sg :: ed
               | None => []
               end) in *.
  assert (Htail : match tail with c :: _ => Py.is_digit c = false | [] => True end).
  { subst tail. destruct ex as [[sg ed]|]; [reflexivity|exact I]. }
  unfold Py.parse_decimal, numeral. fold tail.
  destruct point.
  - rewrite span_digits_app; [|exact Hip|reflexivity].
    cbn [app]. change (Py.code "." =? 46) with true. cbn iota.
    rewrite (span_digits_app fp tail Hfp Htail).
    destruct ip as [|c ip]; [congruence|]. cbn [app]. rewrite Hz. eauto.
  - cbn [app]. rewrite (span_digits_app ip tail Hip Htail).
    assert (Hfrac : match tail with
                    | c :: r => if Py.code c =? 46 then Py.span_digits r else ([], tail)
                    | [] => ([], [])
                    end = ([], tail)).
    { subst tail. destruct ex as [[sg ed]|]; reflexivity. }
    rewrite Hfrac. rewrite app_nil_r.
    destruct ip as [|c ip]; [congruence|]. rewrite Hz. eauto.
Qed.

Lemma digit_not_letter (c : ascii) (r : list ascii) (w : string) :
  Py.is_digit c = true ->
  match w with String a _ => Py.is_digit a = false | EmptyString => True end ->
  String.eqb (string_of_list_ascii (Py.lower_list (c :: r))) w = false.
Proof.
  intros Hc Hw. destruct w as [|a w]; [reflexivity|].
  cbn [Py.lower_list map string_of_list_ascii String.eqb].
  assert (Hlow : Py.lower_char c = c).
  { unfold Py.lower_char, Py.is_digit in *.
    replace ((65 <=? Py.code c) && (Py.code c <=? 90)) with false by lia. reflexivity. }
  rewrite Hlow. destruct (Ascii.eqb_spec c a) as [->|]; [congruence|reflexivity].
Qed.

(** A well-formed numeral, with or without a minus sign, is accepted by
    [float]. *)
Lemma float_of_str_numeral (sign : bool) (ip fp : list ascii) (point : bool)
    (ex : option (ascii * list ascii)) :
  well_formed_numeral ip fp ex ->
  exists x,
    Py.float_of_str (Py.sign_str sign
                     +:+ string_of_list_ascii (numeral ip fp point ex)) = Ok x.
Proof.
  intros Hwf. pose proof (numeral_chars ip fp point ex Hwf) as Hchars.
  destruct (parse_decimal_numeral sign ip fp point ex Hwf) as [sf Hsf].
  set (body := numeral ip fp point ex) in *.
  assert (Hhead : exists c r, body = c :: r /\ Py.is_digit c = true).
  { subst body. unfold numeral. destruct Hwf as (Hip & Hne & _).
    destruct ip as [|c ip]; [congruence|].
    exists c. eexists. split; [reflexivity|].
    cbn [forallb] in Hip. unfold all_digits in Hip. cbn [forallb] in Hip.
    apply andb_true_iff in Hip as [Hc _]. exact Hc. }
  destruct Hhead as (c & r & Hbody & Hc).
  set (l := (if sign then ["-"%char] else []) ++ body).
  assert (Hl : list_ascii_of_string
                 (Py.sign_str sign +:+ string_of_list_ascii body) = l).
  { rewrite list_ascii_of_string_app, list_ascii_of_string_of_list_ascii.
    destruct sign; reflexivity. }
  assert (Hlc : forallb numeral_char l = true).
  { subst l. apply forallb_app_true; [destruct sign; reflexivity|exact Hchars]. }
  assert (Hsplit : Py.split_sign l = (sign, body)).
  { subst l. destruct sign; [reflexivity|]. cbn [app]. rewrite Hbody.
    unfold Py.split_sign, Py.is_digit in *.
    replace (Py.code c =? 45) with false by lia.
    replace (Py.code c =? 43) with false by lia. reflexivity. }
  unfold Py.float_of_str, Py.parse_float. rewrite Hl.
  rewrite drop_underscores_plain by (reflexivity || exact Hlc).
  rewrite (strip_plain l Hlc), Hsplit.
  assert (Hw : forall w : string,
             match w with String a _ => Py.is_digit a = false | EmptyString => True end ->
             String.eqb (string_of_list_ascii (Py.lower_list body)) w = false).
  { intros w Hw0. rewrite Hbody. apply digit_not_letter; assumption. }
  rewrite !Hw by reflexivity.
  cbn [orb]. rewrite Hsf. eauto.
Qed.

Lemma all_digits_app (l1 l2 : list ascii) :
  all_digits l1 -> all_digits l2 -> all_digits (l1 ++ l2).
Proof. apply forallb_app_true. Qed.

Lemma all_digits_zeros (n : Z) : all_digits (Py.zeros n).
Proof.
  unfold all_digits, Py.zeros. induction (Z.to_nat n) as [|k IH]; [reflexivity|exact IH].
Qed.

Lemma all_digits_split (n : nat) (l : list ascii) :
  all_digits l -> all_digits (firstn n l) /\ all_digits (skipn n l).
Proof.
  unfold all_digits. intros H.
  rewrite <- (firstn_skipn n l), forallb_app in H.
  apply andb_true_iff in H. exact H.
Qed.

Lemma all_digits_strip_zeros (l : list ascii) :
  all_digits l -> all_digits (Py.strip_zeros_rev l).
Proof.
  unfold all_digits. induction l as [|c l IH]; [reflexivity|].
  cbn [Py.strip_zeros_rev forallb]. intros [Hc Hl]%andb_true_iff.
  destruct (Py.code c =? 48); [exact (IH Hl)|].
  cbn [forallb]. rewrite Hc, Hl. reflexivity.
Qed.

(** Whatever the digits and the position of the point, the layout is a
    well-formed numeral. *)
Lemma layout_repr_numeral (ds : list ascii) (decpt : Z) :
  all_digits ds ->
  exists ip fp point ex,
    Py.layout_repr ds decpt = numeral ip fp point ex /\ well_formed_numeral ip fp ex.
Proof.
  intros Hds. unfold Py.layout_repr.
  destruct ((-4 <? decpt) && (decpt <=? 16)).
  - destruct (Z.leb_spec decpt 0) as [H0|H0].
    + exists ["0"%char], (Py.zeros (- decpt) ++ ds), true, None.
      split; [unfold numeral; cbn [app]; rewrite app_nil_r; reflexivity|].
      repeat split; [discriminate|].
      apply all_digits_app; [apply all_digits_zeros|exact Hds].
    + destruct (Z.leb_spec (Z.of_nat (List.length ds)) decpt) as [Hk|Hk].
      * exists (ds ++ Py.zeros (decpt - Z.of_nat (List.length ds))), ["0"%char], true, None.
        split; [unfold numeral; rewrite app_nil_r, <- app_assoc; reflexivity|].
        repeat split.
        -- apply all_digits_app; [exact Hds|apply all_digits_zeros].
        -- destruct ds as [|c ds]; [|discriminate]. cbn [List.length app].
           unfold Py.zeros.
           destruct (Z.to_nat (decpt - Z.of_nat 0)) eqn:E; [lia|discriminate].
      * exists (firstn (Z.to_nat decpt) ds), (skipn (Z.to_nat decpt) ds), true, None.
        split; [unfold numeral; rewrite app_nil_r; reflexivity|].
        repeat split.
        -- apply (all_digits_split _ _ Hds).
        -- destruct ds as [|c ds]; [cbn in Hk; lia|].
           destruct (Z.to_nat decpt) eqn:E; [lia|discriminate].
        -- apply (all_digits_split _ _ Hds).
  - set (e := decpt - 1).
    set (ed := if Z.abs e <? 10 then "0"%char :: Py.digits (Z.abs e)
               else Py.digits (Z.abs e)).
    set (sg := if e <? 0 then "-"%char else "+"%char).
    assert (Hed : all_digits ed /\ ed <> []).
    { subst ed. pose proof (digits_all_digits (Z.abs e)) as Hd.
      pose proof (digits_nonempty (Z.abs e)) as Hn.
      destruct (Z.abs e <? 10); [|split; assumption].
      split; [exact Hd|discriminate]. }
    assert (Hsg : is_sign sg = true) by (subst sg; destruct (e <? 0); reflexivity).
    destruct ds as [|c [|c2 r]].
    + exists ["0"%char], [], false, (Some (sg, ed)).
      split; [reflexivity|]. repeat split; try discriminate; tauto.
    + exists [c], [], false, (Some (sg, ed)).
      split; [reflexivity|]. repeat split; try discriminate; tauto.
    + exists [c], (c2 :: r), true, (Some (sg, ed)).
      split; [reflexivity|].
      unfold all_digits in Hds. cbn [forallb] in Hds.
      apply andb_true_iff in Hds as [Hc Hr].
      repeat split; try discriminate; try tauto.
      unfold all_digits. cbn [forallb]. rewrite Hc. reflexivity.
Qed.

Lemma repr_finite_numeral (x : float) (m : positive) (e : Z) :
  exists ip fp point ex,
    Py.repr_finite x m e = numeral ip fp point ex /\ well_formed_numeral ip fp ex.
Proof.
  unfold Py.repr_finite.
  destruct (Py.shortest_digits _ _ _ _ _ _) as [d n].
  apply layout_repr_numeral, forallb_rev, all_digits_strip_zeros, forallb_rev.
  apply digits_all_digits.
Qed.

(** [str] of any float is free of percent signs and reads back as a
    float. *)
Lemma str_float_plain (x : float) : no_percent (Py.str_float x).
Proof.
  unfold no_percent, Py.str_float.
  destruct (Prim2SF x) as [s|s| |s m e].
  - destruct s; reflexivity.
  - destruct s; reflexivity.
  - reflexivity.
  - destruct (repr_finite_numeral x m e) as (ip & fp & point & ex & -> & Hwf).
    rewrite list_ascii_of_string_app, list_ascii_of_string_of_list_ascii.
    apply has_percent_plain, forallb_app_true; [destruct s; reflexivity|].
    apply numeral_chars, Hwf.
Qed.

Lemma str_float_reads_back (x : float) :
  exists y, Py.float_of_str (Py.str_float x) = Ok y.
Proof.
  unfold Py.str_float.
  destruct (Prim2SF x) as [s|s| |s m e].
  - destruct s; eexists; vm_compute; reflexivity.
  - destruct s; eexists; vm_compute; reflexivity.
  - eexists; vm_compute; reflexivity.
  - destruct (repr_finite_numeral x m e) as (ip & fp & point & ex & -> & Hwf).
    apply float_of_str_numeral, Hwf.
Qed.

(** ** Changing a price *)

Lemma drop_escaped_plain (l : list ascii) :
  ConfigParser.has_percent l = false -> ConfigParser.drop_escaped l = l.
Proof.
  induction l as [|a r IH]; [reflexivity|].
  unfold ConfigParser.has_percent. cbn [existsb].
  intros [Ha Hr]%orb_false_iff. cbn [ConfigParser.drop_escaped].
  destruct r as [|b r']; [reflexivity|].
  rewrite Ha. cbn [andb]. rewrite (IH Hr). reflexivity.
Qed.

Lemma drop_references_plain (fuel : nat) : forall l : list ascii,
  ConfigParser.has_percent l = false -> ConfigParser.drop_references fuel l = l.
Proof.
  induction fuel as [|f IH]; intros l H; [reflexivity|].
  destruct l as [|c r]; [reflexivity|].
  unfold ConfigParser.has_percent in H. cbn [existsb] in H.
  apply orb_false_iff in H as [Hc Hr].
  cbn [ConfigParser.drop_references].
  assert (Href : ConfigParser.reference (c :: r) = None).
  { unfold ConfigParser.reference. destruct r; [reflexivity|]. rewrite Hc. reflexivity. }
  rewrite Href, (IH r Hr). reflexivity.
Qed.

Lemma before_set_plain (v : string) : no_percent v -> ConfigParser.before_set v = Ok v.
Proof.
  intros H. unfold ConfigParser.before_set.
  rewrite (drop_escaped_plain _ H), (drop_references_plain _ _ H), H. reflexivity.
Qed.

Lemma union_insert_shadowed (d m : gmap string string) (k v : string) :
  is_Some (d !! k) -> d ∪ <[k := v]> m = d ∪ m.
Proof.
  intros [x Hx]. apply map_eq. intros j.
  rewrite !lookup_union.
  destruct (decide (k = j)) as [<-|Hne].
  - rewrite Hx. destruct (<[k:=v]> m !! k), (m !! k); reflexivity.
  - rewrite lookup_insert_ne by exact Hne. reflexivity.
Qed.

(** One setter on the section of a category: it always returns; when
    it addresses the section the option takes the new text, otherwise the
    section and what look-ups in it see stay the same. *)
Lemma set_price_section (f : rate) (cfg : PriceConfig.t) (service : string)
    (p : float) (S : string) (d : gmap string string) :
  ConfigParser.sections (PriceConfig.config cfg) !! S = Some d ->
  is_Some (d !! option_name f) ->
  String.eqb S "" = false ->
  String.eqb S ConfigParser.default_section = false ->
  exists cfg',
    PriceConfig.set_price (option_name f) cfg service p = Ok cfg' /\
    if String.eqb (Py.upper service) S
    then ConfigParser.sections (PriceConfig.config cfg') !! S
         = Some (<[option_name f := Py.str_float p]> d)
    else ConfigParser.sections (PriceConfig.config cfg') !! S = Some d
         /\ ConfigParser.unify_values (PriceConfig.config cfg') S
            = ConfigParser.unify_values (PriceConfig.config cfg) S.
Proof.
  intros Hd Hk HS1 HS2. unfold PriceConfig.set_price.
  set (X := Py.upper service). set (cp := PriceConfig.config cfg) in *.
  set (v := Py.str_float p).
  assert (Hcp1 : exists cp1,
    (if ConfigParser.contains cp X then Ok cp else ConfigParser.setitem cp X []) = Ok cp1
    /\ ConfigParser.sections cp1 !! S = Some d
    /\ ConfigParser.defaults cp1 = ConfigParser.defaults cp
    /\ (String.eqb X ConfigParser.default_section = false ->
        is_Some (ConfigParser.sections cp1 !! X))).
  { unfold ConfigParser.contains.
    destruct (String.eqb X ConfigParser.default_section) eqn:EX; cbn [orb].
    - exists cp. repeat split; [exact Hd|discriminate].
    - destruct (bool_decide (is_Some (ConfigParser.sections cp !! X))) eqn:EB.
      + apply bool_decide_eq_true in EB. exists cp. repeat split; [exact Hd|auto].
      + apply bool_decide_eq_false in EB.
        unfold ConfigParser.setitem. rewrite EX. cbn [ConfigParser.set_all].
        eexists. split; [reflexivity|]. cbn [ConfigParser.sections ConfigParser.defaults].
        assert (X <> S) by (intros ->; apply EB; rewrite Hd; eauto).
        rewrite lookup_insert_ne by assumption.
        repeat split; [exact Hd|]. intros _. rewrite lookup_insert_eq. eauto. }
  destruct Hcp1 as (cp1 & -> & Hd1 & Hdef1 & HX1). cbn [bind].
  unfold ConfigParser.set.
  assert (Hbs : (if String.eqb v "" then Ok v else ConfigParser.before_set v) = Ok v).
  { destruct (String.eqb v ""); [reflexivity|]. apply before_set_plain, str_float_plain. }
  rewrite Hbs. cbn [bind]. rewrite optionxform_option_name.
  assert (Hview : ConfigParser.unify_values cp S = Some (d ∪ ConfigParser.defaults cp)).
  { unfold ConfigParser.unify_values. rewrite Hd. reflexivity. }
  destruct (String.eqb X "" || String.eqb X ConfigParser.default_section) eqn:EX.
  - (* the option goes to the defaults *)
    assert (HXS : String.eqb X S = false).
    { apply String.eqb_neq. intros ->. rewrite HS1, HS2 in EX. discriminate. }
    rewrite HXS. eexists. split; [reflexivity|].
    cbn [PriceConfig.config PriceConfig.with_config ConfigParser.sections].
    split; [exact Hd1|].
    unfold ConfigParser.unify_values at 1.
    cbn [ConfigParser.sections ConfigParser.defaults].
    rewrite Hd1, Hdef1, Hview, (union_insert_shadowed _ _ _ _ Hk). reflexivity.
  - apply orb_false_iff in EX as [_ EX].
    destruct (HX1 EX) as [dx Hdx]. rewrite Hdx. cbn [bind].
    eexists. split; [reflexivity|].
    cbn [PriceConfig.config PriceConfig.with_config ConfigParser.sections].
    destruct (String.eqb_spec X S) as [->|Hne].
    + rewrite lookup_insert_eq. rewrite Hd1 in Hdx. injection Hdx as <-. reflexivity.
    + rewrite lookup_insert_ne by exact Hne. split; [exact Hd1|].
      unfold ConfigParser.unify_values at 1.
      cbn [ConfigParser.sections ConfigParser.defaults].
      rewrite lookup_insert_ne by exact Hne. rewrite Hd1, Hdef1, Hview. reflexivity.
Qed.

Lemma lookup_rate_getfloat (cfg : PriceConfig.t) (C : ServiceType) (f : rate) :
  lookup_rate cfg C f
  = ConfigParser.getfloat (PriceConfig.config cfg) (section_name C) (option_name f)
      (fallback f).
Proof. destruct f; reflexivity. Qed.

Lemma getfloat_view (cp cp' : ConfigParser.t) (S k : string) (fb : float) :
  ConfigParser.unify_values cp' S = ConfigParser.unify_values cp S ->
  ConfigParser.getfloat cp' S k fb = ConfigParser.getfloat cp S k fb.
Proof. intros H. unfold ConfigParser.getfloat. rewrite H. reflexivity. Qed.

Lemma seeded_sections (cp : ConfigParser.t) :
  seeded cp <->
  forall C, exists d,
    ConfigParser.sections cp !! section_name C = Some d /\ has_rates d.
Proof.
  unfold seeded, raw_value, has_rates. split.
  - intros H C. destruct (H C Monochrome) as [v Hv].
    destruct (ConfigParser.sections cp !! section_name C) as [d|] eqn:E; [|discriminate].
    exists d. split; [reflexivity|]. intros f.
    specialize (H C f). rewrite E in H. exact H.
  - intros H C f. destruct (H C) as (d & -> & Hd). exact (Hd f).
Qed.

Lemma section_name_not_empty (C : ServiceType) : String.eqb (section_name C) "" = false.
Proof. destruct C; reflexivity. Qed.

Lemma has_rates_insert (d : gmap string string) (k v : string) :
  has_rates d -> has_rates (<[k := v]> d).
Proof.
  intros H f. destruct (decide (k = option_name f)) as [->|Hne].
  - rewrite lookup_insert_eq. eauto.
  - rewrite lookup_insert_ne by exact Hne. apply H.
Qed.

(** One setter, seen from the section of a category. *)
Lemma set_price_category (f : rate) (cfg : PriceConfig.t) (service : string)
    (p : float) (C : ServiceType) (d : gmap string string) :
  ConfigParser.sections (PriceConfig.config cfg) !! section_name C = Some d ->
  has_rates d ->
  exists cfg' d',
    PriceConfig.set_price (option_name f) cfg service p = Ok cfg' /\
    ConfigParser.sections (PriceConfig.config cfg') !! section_name C = Some d' /\
    has_rates d' /\
    if String.eqb (Py.upper service) (section_name C)
    then d' = <[option_name f := Py.str_float p]> d
    else d' = d /\
         ConfigParser.unify_values (PriceConfig.config cfg') (section_name C)
         = ConfigParser.unify_values (PriceConfig.config cfg) (section_name C).
Proof.
  intros Hd Hr.
  destruct (set_price_section f cfg service p (section_name C) d Hd (Hr f)
              (section_name_not_empty C) (section_name_not_default C))
    as (cfg' & Hset & H).
  exists cfg'. destruct (String.eqb (Py.upper service) (section_name C)).
  - eexists. split; [exact Hset|]. split; [exact H|].
    split; [apply has_rates_insert, Hr|reflexivity].
  - destruct H as [H1 H2]. exists d. repeat split; assumption.
Qed.

(** The three setters of [update_pricing] all return; the table still
    holds every rate of every category, and a rate that could be looked
    up before can be looked up after. *)
Lemma three_setters (cfg : PriceConfig.t) (service : string) (m c s : float) :
  seeded (PriceConfig.config cfg) ->
  exists c1 c2 c3,
    PriceConfig.set_monochrome_price cfg service m = Ok c1 /\
    PriceConfig.set_colored_price c1 service c = Ok c2 /\
    PriceConfig.set_image_surcharge c2 service s = Ok c3 /\
    seeded (PriceConfig.config c3) /\
    forall C f, is_ok (lookup_rate cfg C f) = true -> is_ok (lookup_rate c3 C f) = true.
Proof.
  intros Hseed0. pose proof (proj1 (seeded_sections _) Hseed0) as Hseed.
  assert (Hall : forall C, exists d, 
    ConfigParser.sections (PriceConfig.config cfg) !! section_name C = Some d /\
    has_rates d /\
    exists c1 c2 c3 d3,
      PriceConfig.set_price (option_name Monochrome) cfg service m = Ok c1 /\
      PriceConfig.set_price (option_name Colored) c1 service c = Ok c2 /\
      PriceConfig.set_price (option_name Surcharge) c2 service s = Ok c3 /\
      ConfigParser.sections (PriceConfig.config c3) !! section_name C = Some d3 /\
      has_rates d3 /\
      if String.eqb (Py.upper service) (section_name C)
      then d3 = <[option_name Surcharge := Py.str_float s]>
                  (<[option_name Colored := Py.str_float c]>
                     (<[option_name Monochrome := Py.str_float m]> d))
      else ConfigParser.unify_values (PriceConfig.config c3) (section_name C)
           = ConfigParser.unify_values (PriceConfig.config cfg) (section_name C)).
  { intros C. destruct (Hseed C) as (d & Hd & Hr). exists d. split; [exact Hd|].
    split; [exact Hr|].
    destruct (set_price_category Monochrome cfg service m C d Hd Hr)
      as (c1 & d1 & Hs1 & Hd1 & Hr1 & H1).
    destruct (set_price_category Colored c1 service c C d1 Hd1 Hr1)
      as (c2 & d2 & Hs2 & Hd2 & Hr2 & H2).
    destruct (set_price_category Surcharge c2 service s C d2 Hd2 Hr2)
      as (c3 & d3 & Hs3 & Hd3 & Hr3 & H3).
    exists c1, c2, c3, d3. repeat (split; [assumption|]).
    destruct (String.eqb (Py.upper service) (section_name C)).
    - subst. reflexivity.
    - destruct H1 as [_ H1], H2 as [_ H2], H3 as [_ H3]. congruence. }
  destruct (Hall PRINT) as (_ & _ & _ & c1 & c2 & c3 & _ & Hs1 & Hs2 & Hs3 & _).
  exists c1, c2, c3. repeat (split; [assumption|]). split.
  - refine (proj2 (seeded_sections _) _). intros C.
    destruct (Hall C) as (_ & _ & _ & c1' & c2' & c3' & d3
                            & Hs1' & Hs2' & Hs3' & Hd3 & Hr3 & _).
    assert (c1' = c1) by congruence. subst c1'.
    assert (c2' = c2) by congruence. subst c2'.
    assert (c3' = c3) by congruence. subst c3'.
    eauto.
  - intros C f Hok.
    destruct (Hall C) as (d & Hd & Hr & c1' & c2' & c3' & d3
                            & Hs1' & Hs2' & Hs3' & Hd3 & Hr3 & H).
    assert (c1' = c1) by congruence. subst c1'.
    assert (c2' = c2) by congruence. subst c2'.
    assert (c3' = c3) by congruence. subst c3'.
    destruct (String.eqb (Py.upper service) (section_name C)).
    + assert (Hraw : exists p : float,
                raw_value (PriceConfig.config c3) (section_name C) (option_name f)
                = Some (Py.str_float p)).
      { unfold raw_value. rewrite Hd3. subst d3. cbn.
        destruct f; eexists; simplify_map_eq; reflexivity. }
      destruct Hraw as [p Hraw].
      rewrite (lookup_rate_raw _ _ _ _ Hraw (str_float_plain p)).
      destruct (str_float_reads_back p) as [y ->]. reflexivity.
    + rewrite lookup_rate_getfloat in Hok |- *.
      rewrite (getfloat_view _ _ _ _ _ H). exact Hok.
Qed.

(** ** The total is the sum of the subtotals *)

Lemma mul_int_is_ok (b b' : float) (n : Z) :
  is_ok (Py.mul_int b n) = is_ok (Py.mul_int b' n).
Proof. unfold Py.mul_int. destruct (Py.float_of_int n); reflexivity. Qed.

Lemma bind_is_ok {A B : Type} (r : result A) (k : A -> result B) :
  is_ok (bind r k) = true -> exists a, r = Ok a /\ is_ok (k a) = true.
Proof. destruct r as [a|e]; [eauto|discriminate]. Qed.

(** A transaction that can be priced stays so when every rate that
    could be looked up still can. *)
Lemma priceable_preserved (cfg cfg' : PriceConfig.t) (t : Transaction.t) :
  (forall C f, is_ok (lookup_rate cfg C f) = true -> is_ok (lookup_rate cfg' C f) = true) ->
  priceable cfg t -> priceable cfg' t.
Proof.
  intros Hrates. unfold priceable, spec_subtotal.
  set (C := Transaction.service_type t). set (n := Transaction.pages t).
  intros H.
  assert (Hbase : forall f,
    is_ok (b <- lookup_rate cfg C f ;; Py.mul_int b n) = true ->
    exists b b' x x',
      lookup_rate cfg C f = Ok b /\ lookup_rate cfg' C f = Ok b' /\
      Py.mul_int b n = Ok x /\ Py.mul_int b' n = Ok x').
  { intros f Hf. apply bind_is_ok in Hf as (b & Hb & Hx).
    pose proof (Hrates C f) as Hr. rewrite Hb in Hr. specialize (Hr eq_refl).
    destruct (lookup_rate cfg' C f) as [b'|] eqn:Eb'; [|discriminate].
    rewrite (mul_int_is_ok b b') in Hx.
    destruct (Py.mul_int b n) as [x|] eqn:Ex;
      [|rewrite (mul_int_is_ok b' b), Ex in Hx; discriminate].
    destruct (Py.mul_int b' n) as [x'|] eqn:Ex'; [|discriminate].
    exists b, b', x, x'. repeat split; assumption. }
  assert (Hsur : Transaction.has_images t = true ->
    is_ok (s <- image_surcharge cfg C ;; y <- Py.mul_int s n ;; Ok y) = true ->
    exists s' y', image_surcharge cfg' C = Ok s' /\ Py.mul_int s' n = Ok y').
  { intros _ Hs.
    destruct (Hbase Surcharge) as (s0 & s' & y & y' & _ & Hs' & _ & Hy').
    - cbn [lookup_rate]. destruct (image_surcharge cfg C); [|discriminate].
      cbn [bind] in Hs |- *. destruct (Py.mul_int _ n); [reflexivity|discriminate].
    - eauto. }
  destruct (Transaction.is_colored t).
  - destruct (Hbase Colored) as (b & b' & x & x' & Hb & Hb' & Hx & Hx').
    { cbn [lookup_rate]. destruct (colored_rate cfg C); [|discriminate].
      cbn [bind] in H |- *. destruct (Py.mul_int _ n); [reflexivity|discriminate]. }
    cbn [lookup_rate] in Hb, Hb'. rewrite Hb in H. rewrite Hb'. cbn [bind] in H |- *.
    rewrite Hx in H. rewrite Hx'. cbn [bind] in H |- *.
    destruct (Transaction.has_images t); [|reflexivity].
    destruct Hsur as (s' & y' & -> & Hy'); [reflexivity| |].
    + destruct (image_surcharge cfg C); [|discriminate]. cbn [bind] in H |- *.
      destruct (Py.mul_int _ n); [reflexivity|discriminate].
    + cbn [bind]. rewrite Hy'. reflexivity.
  - destruct (Hbase Monochrome) as (b & b' & x & x' & Hb & Hb' & Hx & Hx').
    { cbn [lookup_rate]. destruct (monochrome_rate cfg C); [|discriminate].
      cbn [bind] in H |- *. destruct (Py.mul_int _ n); [reflexivity|discriminate]. }
    cbn [lookup_rate] in Hb, Hb'. rewrite Hb in H. rewrite Hb'. cbn [bind] in H |- *.
    rewrite Hx in H. rewrite Hx'. cbn [bind] in H |- *.
    destruct (Transaction.has_images t); [|reflexivity].
    destruct Hsur as (s' & y' & -> & Hy'); [reflexivity| |].
    + destruct (image_surcharge cfg C); [|discriminate]. cbn [bind] in H |- *.
      destruct (Py.mul_int _ n); [reflexivity|discriminate].
    + cbn [bind]. rewrite Hy'. reflexivity.
Qed.

Lemma priceable_calculate (cfg : PriceConfig.t) (t : Transaction.t) :
  priceable cfg t <-> is_ok (fst (Transaction.calculate_subtotal t cfg)) = true.
Proof. unfold priceable. rewrite calculate_subtotal_result. reflexivity. Qed.

Lemma priceable_with_subtotal (cfg : PriceConfig.t) (t : Transaction.t) (x : float) :
  priceable cfg t -> priceable cfg (Transaction.with_subtotal t x).
Proof. exact (fun H => H). Qed.

(** With every transaction priceable the recalculation loop runs to its
    end. *)
Lemma recalculate_each_ok (cfg : PriceConfig.t) (l : list Transaction.t) :
  Forall (priceable cfg) l ->
  exists l', POSController.recalculate_each cfg l = (Ok tt, l')
             /\ Forall (priceable cfg) l'.
Proof.
  induction 1 as [|t l Ht Hl (l' & IH & Hl')]; [exists []; split; [reflexivity|constructor]|].
  cbn [POSController.recalculate_each].
  pose proof (proj1 (priceable_calculate cfg t) Ht) as Hok.
  destruct (Transaction.calculate_subtotal t cfg) as [[x|e] t'] eqn:E; [|discriminate].
  rewrite IH. eexists. split; [reflexivity|].
  constructor; [|exact Hl'].
  rewrite (calculate_subtotal_stores _ _ _ _ E). exact Ht.
Qed.

Lemma init_seeded (path : string) (w : World) (cfg : PriceConfig.t) :
  PriceConfig.init path w = Ok cfg -> seeded (PriceConfig.config cfg).
Proof.
  rewrite init_over_defaults. unfold PriceConfig.load_config. cbn [PriceConfig.config_file].
  destruct (ini_files w !! path) as [[secs|]|]; intros H.
  - destruct (PriceConfig.check_sections secs ∅ ∅); [|discriminate H].
    cbn [bind] in H. injection H as <-. intros C f.
    unfold PriceConfig.with_config. cbn [PriceConfig.config].
    rewrite (read_sections_raw secs _ _ _ (section_name_not_default C)
               (default_table_sections C)).
    destruct (persisted secs _ _); [eauto|].
    rewrite default_table_raw. eauto.
  - discriminate H.
  - injection H as <-. intros C f. cbn [PriceConfig.config].
    rewrite default_table_raw. eauto.
Qed.

Lemma init_invariant (w : World) (now : Py.datetime) (self : POSController.t) :
  POSController.init w now = Ok self -> controller_invariant self.
Proof.
  unfold POSController.init.
  destruct (PriceConfig.init "config.ini" w) as [cfg|e] eqn:E; [|discriminate].
  cbn [bind]. intros [= <-].
  split; [reflexivity|]. split; [|constructor].
  exact (init_seeded _ _ _ E).
Qed.

Lemma step_invariant (self self' : POSController.t) :
  step self self' -> controller_invariant self -> controller_invariant self'.
Proof.
  intros Hstep Hinv. pose proof Hinv as (Htot & Hseed & Hall). destruct Hstep.
  - (* add_transaction *)
    unfold POSController.add_transaction.
    destruct (Transaction.calculate_subtotal _ _) as [[x|e] t'] eqn:E; cbn [snd];
      [|exact Hinv].
    split; [reflexivity|]. split; [exact Hseed|].
    cbn [POSController.current_receipt POSController.with_receipt POSController.config
         Receipt.add_transaction Receipt.calculate_total snd Receipt.transactions].
    apply Forall_app. split; [exact Hall|]. constructor; [|constructor].
    rewrite (calculate_subtotal_stores _ _ _ _ E).
    apply priceable_with_subtotal, priceable_calculate. rewrite E. reflexivity.
  - (* remove_transaction *)
    unfold POSController.remove_transaction.
    destruct (decide (0 <= index
      < Z.of_nat (List.length (Receipt.transactions (POSController.current_receipt self)))))
      as [Hi|Hi].
    + rewrite (receipt_remove_in_range _ _ Hi). cbn [snd].
      split; [reflexivity|]. split; [exact Hseed|].
      apply Forall_delete, Hall.
    + rewrite (receipt_remove_out_of_range _ _ Hi). cbn [snd].
      rewrite with_receipt_current. exact Hinv.
  - (* clear_current_receipt *)
    split; [reflexivity|]. split; [exact Hseed|constructor].
  - (* get_current_total *)
    split; [reflexivity|]. split; [exact Hseed|exact Hall].
  - (* generate_receipt *)
    unfold POSController.generate_receipt.
    destruct (Receipt.transactions (POSController.current_receipt self)) eqn:E;
      [exact Hinv|].
    destruct makedirs_ok; cbn [negb]; [|exact Hinv].
    destruct io; cbn [snd fst]; try exact Hinv.
    split; [reflexivity|]. split; [exact Hseed|constructor].
  - (* update_pricing *)
    destruct (three_setters (POSController.config self) service
                mono colored surcharge Hseed)
      as (c1 & c2 & c3 & H1 & H2 & H3 & Hseed3 & Hrates).
    unfold POSController.update_pricing. rewrite H1, H2, H3.
    destruct (PriceConfig.save_config c3 w io) as [r w']. cbn [snd fst].
    split; [exact Htot|]. split; [exact Hseed3|].
    cbn [POSController.current_receipt POSController.with_config POSController.config].
    eapply Forall_impl; [exact Hall|].
    intros t Ht. eapply priceable_preserved; eassumption.
  - (* recalculate_current_transactions *)
    unfold POSController.recalculate_current_transactions.
    destruct (recalculate_each_ok _ _ Hall) as (l' & -> & Hl').
    split; [reflexivity|]. split; [exact Hseed|exact Hl'].
Qed.

Lemma reachable_invariant (self : POSController.t) :
  reachable self -> controller_invariant self.
Proof.
  induction 1 as [w now self Hinit|self self' _ IH Hstep].
  - eapply init_invariant, Hinit.
  - eapply step_invariant; eassumption.
Qed.

Lemma recalculate_total (self : POSController.t) :
  fst (POSController.recalculate_current_transactions self) = Ok tt ->
  total_is_sum (POSController.current_receipt
                  (snd (POSController.recalculate_current_transactions self))).
Proof.
  unfold POSController.recalculate_current_transactions.
  destruct (POSController.recalculate_each _ _) as [[u|e] l]; [reflexivity|discriminate].
Qed.

Lemma remove_transaction_total (r : Receipt.t) (i : Z) :
  total_is_sum r -> total_is_sum (snd (Receipt.remove_transaction r i)).
Proof.
  intros H.
  destruct (decide (0 <= i < Z.of_nat (List.length (Receipt.transactions r)))) as [Hi|Hi].
  - rewrite (receipt_remove_in_range _ _ Hi). reflexivity.
  - rewrite (receipt_remove_out_of_range _ _ Hi). exact H.
Qed.

(** C4: the total is recomputed as the sum of the subtotals by every
    add and every successful remove, a remove that does nothing keeps
    the invariant, and so does a recalculation that returns.  Hence in
    every state a controller can reach by any sequence of its methods,
    in any environment and whether the calls return or raise, the
    receipt total is the sum of its transactions' subtotals; in such a
    state the recalculation always returns. *)
Theorem total_is_sum_of_subtotals :
  (forall r t, total_is_sum (Receipt.add_transaction r t))
  /\ (forall r i,
        0 <= i < Z.of_nat (List.length (Receipt.transactions r)) ->
        total_is_sum (snd (Receipt.remove_transaction r i)))
  /\ (forall r i, total_is_sum r -> total_is_sum (snd (Receipt.remove_transaction r i)))
  /\ (forall self,
        fst (POSController.recalculate_current_transactions self) = Ok tt ->
        total_is_sum (POSController.current_receipt
                        (snd (POSController.recalculate_current_transactions self))))
  /\ (forall self,
        reachable self ->
        total_is_sum (POSController.current_receipt self)
        /\ fst (POSController.recalculate_current_transactions self) = Ok tt).
Proof.
  split; [exact add_transaction_total|].
  split; [intros r i Hi; rewrite (receipt_remove_in_range _ _ Hi); reflexivity|].
  split; [exact remove_transaction_total|].
  split; [exact recalculate_total|].
  intros self Hreach.
  destruct (reachable_invariant self Hreach) as (Htot & _ & Hall).
  split; [exact Htot|].
  unfold POSController.recalculate_current_transactions.
  destruct (recalculate_each_ok _ _ Hall) as (l' & -> & _). reflexivity.
Qed.

Lemma total_is_sum_of_subtotals_witness :
  let self := snd (POSController.add_transaction fresh_controller PRINT 5 true true noon) in
  total_is_sum (POSController.current_receipt self)
  /\ fst (POSController.recalculate_current_transactions self) = Ok tt.
Proof.
  intros self.
  apply (proj2 (proj2 (proj2 (proj2 total_is_sum_of_subtotals)))).
  eapply reachable_step; [|apply step_add].
  apply (reachable_init empty_world noon). vm_compute. reflexivity.
Defined.

(** * Further properties of the controller *)

(** ** Removing and adding *)

(** X1: an index inside [0, len) makes [remove_transaction] answer
    [True]; exactly the transaction at that index goes, the ones before
    it keep their place and the ones after it move up by one; the total
    is recomputed, and table, history and timestamp are untouched. *)
Theorem remove_transaction_in_range (self : POSController.t) (index : Z) :
  let l := Receipt.transactions (POSController.current_receipt self) in
  0 <= index < Z.of_nat (List.length l) ->
  exists self',
    POSController.remove_transaction self index = (Ok true, self') /\
    let l' := Receipt.transactions (POSController.current_receipt self') in
    S (List.length l') = List.length l
    /\ (forall j : nat, (j < Z.to_nat index)%nat -> l' !! j = l !! j)
    /\ (forall j : nat, (Z.to_nat index <= j)%nat -> l' !! j = l !! S j)
    /\ total_is_sum (POSController.current_receipt self')
    /\ Receipt.timestamp (POSController.current_receipt self')
       = Receipt.timestamp (POSController.current_receipt self)
    /\ POSController.config self' = POSController.config self
    /\ POSController.receipt_history self' = POSController.receipt_history self.
Proof.
  intros l Hi. unfold POSController.remove_transaction.
  rewrite (receipt_remove_in_range _ _ Hi).
  eexists. split; [reflexivity|].
  cbn [POSController.current_receipt POSController.with_receipt Receipt.transactions].
  fold l.
  split; [rewrite length_delete by (apply lookup_lt_is_Some_2; lia); lia|].
  split; [intros j Hj; apply list_lookup_delete_lt, Hj|].
  split; [intros j Hj; apply list_lookup_delete_ge, Hj|].
  repeat split.
Qed.

Lemma remove_transaction_in_range_witness :
  let self := snd (POSController.add_transaction fresh_controller PRINT 5 true true noon) in
  exists self',
    POSController.remove_transaction self 0 = (Ok true, self')
    /\ Receipt.transactions (POSController.current_receipt self') = [].
Proof.
  intros self.
  destruct (remove_transaction_in_range self 0) as (self' & Hrm & Hlen & _).
  - vm_compute. split; [discriminate|reflexivity].
  - exists self'. split; [exact Hrm|].
    destruct (Receipt.transactions (POSController.current_receipt self')); [reflexivity|].
    vm_compute in Hlen. discriminate.
Defined.

Lemma delete_last {A : Type} (l : list A) (x : A) :
  delete (List.length l) (l ++ [x]) = l.
Proof. induction l as [|a l IH]; [reflexivity|]. cbn. f_equal. exact IH. Qed.

(** X2: adding a transaction and then removing the last index gives the
    controller back as it was, total included, when its total was the
    sum of its subtotals. *)
Theorem add_then_remove_last (self : POSController.t) (C : ServiceType) (pages : Z)
    (is_colored has_images : bool) (now : Py.datetime) (x : float) (t : Transaction.t) :
  Transaction.calculate_subtotal
    (Transaction.init C pages is_colored has_images now) (POSController.config self)
  = (Ok x, t) ->
  total_is_sum (POSController.current_receipt self) ->
  POSController.remove_transaction
    (snd (POSController.add_transaction self C pages is_colored has_images now))
    (Z.of_nat (List.length (Receipt.transactions (POSController.current_receipt self))))
  = (Ok true, self).
Proof.
  intros Hcalc Hinv. unfold POSController.add_transaction. rewrite Hcalc. cbn [snd].
  unfold POSController.remove_transaction.
  rewrite receipt_remove_in_range
    by (cbn; rewrite length_app; cbn [List.length]; lia).
  cbn [POSController.current_receipt POSController.with_receipt
       Receipt.add_transaction Receipt.calculate_total snd
       Receipt.transactions Receipt.timestamp].
  rewrite Nat2Z.id, delete_last, <- Hinv.
  destruct self as [cfg [l ts tot] h]. reflexivity.
Qed.

Lemma add_then_remove_last_witness :
  POSController.remove_transaction
    (snd (POSController.add_transaction fresh_controller PRINT 5 true true noon)) 0
  = (Ok true, fresh_controller).
Proof.
  apply (add_then_remove_last fresh_controller PRINT 5 true true noon 50%float
           (Transaction.with_subtotal print_job 50)).
  - vm_compute. reflexivity.
  - reflexivity.
Defined.

(** ** Generating receipts *)

(** X3: once a receipt has been generated, generating again straight
    away raises the empty-receipt error, whatever the environment, and
    writes nothing: the same receipt cannot be exported twice. *)
Theorem generate_receipt_twice (self : POSController.t) (w : World) (now : Py.datetime) :
  Receipt.transactions (POSController.current_receipt self) <> [] ->
  exists path self' w',
    POSController.generate_receipt self w true Written now = (Ok path, self', w') /\
    forall w2 makedirs_ok io now2,
      POSController.generate_receipt self' w2 makedirs_ok io now2
      = (Raise EmptyReceipt, self', w2).
Proof.
  intros Hne. destruct (generate_receipt_written self w now Hne) as (w' & Hgen & _).
  eexists _, _, w'. split; [exact Hgen|].
  intros w2 makedirs_ok io now2. reflexivity.
Qed.

Lemma generate_receipt_twice_witness :
  let self := snd (POSController.add_transaction fresh_controller PRINT 5 true true noon) in
  exists path self' w',
    POSController.generate_receipt self empty_world true Written noon = (Ok path, self', w') /\
    POSController.generate_receipt self' w' true Written noon
    = (Raise EmptyReceipt, self', w').
Proof.
  intros self.
  destruct (generate_receipt_twice self empty_world noon) as (path & self' & w' & H1 & H2).
  - vm_compute. discriminate.
  - exists path, self', w'. split; [exact H1 | apply H2].
Defined.

Lemma step_history (self self' : POSController.t) :
  step self self' ->
  POSController.receipt_history self' = POSController.receipt_history self
  \/ (POSController.receipt_history self'
      = POSController.receipt_history self ++ [POSController.current_receipt self]
      /\ Receipt.transactions (POSController.current_receipt self) <> []).
Proof.
  destruct 1.
  - unfold POSController.add_transaction.
    destruct (Transaction.calculate_subtotal _ _) as [[x|e] t']; left; reflexivity.
  - unfold POSController.remove_transaction.
    destruct (Receipt.remove_transaction _ _) as [[u|[]] r]; left; reflexivity.
  - left; reflexivity.
  - left; reflexivity.
  - unfold POSController.generate_receipt.
    destruct (Receipt.transactions (POSController.current_receipt self)) eqn:E;
      [left; reflexivity|].
    destruct makedirs_ok; cbn [negb]; [|left; reflexivity].
    destruct io; cbn [snd fst]; [right|left; reflexivity|left; reflexivity].
    split; [reflexivity|discriminate].
  - unfold POSController.update_pricing.
    destruct (PriceConfig.set_monochrome_price _ _ _) as [c1|]; [|left; reflexivity].
    destruct (PriceConfig.set_colored_price _ _ _) as [c2|]; [|left; reflexivity].
    destruct (PriceConfig.set_image_surcharge _ _ _) as [c3|]; [|left; reflexivity].
    destruct (PriceConfig.save_config _ _ _). left; reflexivity.
  - unfold POSController.recalculate_current_transactions.
    destruct (POSController.recalculate_each _ _) as [[u|e] l]; left; reflexivity.
Qed.

Lemma reachable_history (self : POSController.t) :
  reachable self -> Forall archived (POSController.receipt_history self).
Proof.
  induction 1 as [w now self Hinit|self self' Hreach IH Hstep].
  - unfold POSController.init in Hinit.
    destruct (PriceConfig.init _ _); [|discriminate].
    cbn [bind] in Hinit. injection Hinit as <-. constructor.
  - destruct (step_history _ _ Hstep) as [->|[-> Hne]]; [exact IH|].
    apply Forall_app. split; [exact IH|]. constructor; [|constructor].
    split; [exact Hne|]. apply reachable_invariant, Hreach.
Qed.

(** X4: no method ever drops or rewrites an archived receipt: one call
    leaves the history as it is or appends the current, non-empty
    receipt to it; and in every reachable state each archived receipt has
    at least one transaction and a total equal to the sum of its
    subtotals. *)
Theorem history_only_grows (self self' : POSController.t) :
  reachable self -> step self self' ->
  (POSController.receipt_history self' = POSController.receipt_history self
   \/ POSController.receipt_history self'
      = POSController.receipt_history self ++ [POSController.current_receipt self])
  /\ Forall archived (POSController.receipt_history self').
Proof.
  intros Hreach Hstep. split.
  - destruct (step_history _ _ Hstep) as [H|[H _]]; [left|right]; exact H.
  - apply reachable_history. eapply reachable_step; eassumption.
Qed.

Lemma history_only_grows_witness :
  let self := snd (POSController.add_transaction fresh_controller PRINT 5 true true noon) in
  let self' := snd (fst (POSController.generate_receipt self empty_world true Written noon)) in
  Forall archived (POSController.receipt_history self').
Proof.
  intros self self'.
  refine (proj2 (history_only_grows self self' _ _)).
  - eapply reachable_step; [|apply step_add].
    apply (reachable_init empty_world noon). vm_compute. reflexivity.
  - apply step_generate.
Defined.

(** ** Previewing a transaction *)

(** X5: the preview prices the transaction as [add_transaction] would:
    when the add returns a transaction the preview returns a breakdown
    whose subtotal is that transaction's, equal to the base total plus,
    with images, the image total; when the add raises, the preview raises
    the same exception. *)
Theorem preview_agrees_with_add (self : POSController.t) (C : ServiceType) (n : Z)
    (colored images : bool) (now : Py.datetime) :
  match fst (POSController.add_transaction self C n colored images now) with
  | Ok t =>
      exists p,
        POSController.get_transaction_preview self C n colored images now = Ok p
        /\ POSController.subtotal p = Transaction.subtotal t
        /\ POSController.pages p = n
        /\ POSController.is_colored p = colored
        /\ POSController.has_images p = images
        /\ (if colored then colored_rate else monochrome_rate) (POSController.config self) C
           = Ok (POSController.base_price p)
        /\ Py.mul_int (POSController.base_price p) n = Ok (POSController.base_total p)
        /\ if images
           then image_surcharge (POSController.config self) C
                = Ok (POSController.image_surcharge p)
                /\ Py.mul_int (POSController.image_surcharge p) n
                   = Ok (POSController.image_total p)
                /\ POSController.subtotal p
                   = (POSController.base_total p + POSController.image_total p)%float
           else POSController.image_surcharge p = 0%float
                /\ POSController.image_total p = 0%float
                /\ POSController.subtotal p = POSController.base_total p
  | Raise e =>
      POSController.get_transaction_preview self C n colored images now = Raise e
  end.
Proof.
  unfold POSController.add_transaction, POSController.get_transaction_preview.
  set (t0 := Transaction.init C n colored images now).
  pose proof (calculate_subtotal_result t0 (POSController.config self)) as Hres.
  destruct (Transaction.calculate_subtotal t0 (POSController.config self))
    as [[x|e] t'] eqn:E; cbn [fst bind] in *; [|reflexivity].
  rewrite (calculate_subtotal_stores _ _ _ _ E).
  cbn [Transaction.subtotal Transaction.with_subtotal].
  subst t0. cbn [Transaction.init Transaction.service_type Transaction.pages
                 Transaction.is_colored Transaction.has_images] in Hres.
  unfold spec_subtotal in Hres.
  unfold colored_rate, monochrome_rate, image_surcharge in *.
  destruct ((if colored
             then PriceConfig.get_colored_price (POSController.config self) (Py.lower (value C))
             else PriceConfig.get_monochrome_price (POSController.config self) (Py.lower (value C))))
    as [b|] eqn:Eb; [|cbn [bind] in Hres; discriminate].
  symmetry in Hres. rename Hres into Hres'.
  cbn [bind] in Hres' |- *.
  destruct (Py.mul_int b n) as [bt|] eqn:Ebt; cbn [bind] in Hres' |- *; [|discriminate].
  destruct images.
  - destruct (PriceConfig.get_image_surcharge _ _) as [s|] eqn:Es;
      cbn [bind] in Hres' |- *; [|discriminate].
    destruct (Py.mul_int s n) as [ex|] eqn:Eex; cbn [bind] in Hres' |- *; [|discriminate].
    injection Hres' as <-.
    eexists. split; [reflexivity|]. cbn.
    repeat split; try assumption; destruct colored; assumption.
  - injection Hres' as <-. eexists. split; [reflexivity|]. cbn.
    repeat split; try assumption; destruct colored; assumption.
Qed.

(** ** Changing prices *)

(** One setter on a section of its own (any name but the empty one and
    [DEFAULT]): the section is created if need be and the option takes
    the text of the price; nothing else changes. *)
Lemma set_price_effect (f : rate) (cfg : PriceConfig.t) (service : string) (p : float) :
  let X := Py.upper service in
  String.eqb X "" = false ->
  String.eqb X ConfigParser.default_section = false ->
  PriceConfig.set_price (option_name f) cfg service p
  = Ok {| PriceConfig.config_file := PriceConfig.config_file cfg;
          PriceConfig.config :=
            {| ConfigParser.defaults := ConfigParser.defaults (PriceConfig.config cfg);
               ConfigParser.sections :=
                 <[X := <[option_name f := Py.str_float p]>
                          (default ∅ (ConfigParser.sections (PriceConfig.config cfg) !! X))]>
                   (ConfigParser.sections (PriceConfig.config cfg)) |} |}.
Proof.
  intros X HX1 HX2. unfold PriceConfig.set_price. fold X.
  set (cp := PriceConfig.config cfg). set (v := Py.str_float p).
  assert (Hbs : (if String.eqb v "" then Ok v else ConfigParser.before_set v) = Ok v).
  { destruct (String.eqb v ""); [reflexivity|]. apply before_set_plain, str_float_plain. }
  unfold ConfigParser.contains. rewrite HX2. cbn [orb].
  destruct (ConfigParser.sections cp !! X) as [d|] eqn:Ed.
  - rewrite bool_decide_eq_true_2 by eauto. cbn [bind].
    unfold ConfigParser.set. rewrite Hbs, HX1, HX2, Ed, optionxform_option_name.
    reflexivity.
  - rewrite bool_decide_eq_false_2 by (intros [? ?]; discriminate).
    unfold ConfigParser.setitem. rewrite HX2. cbn [ConfigParser.set_all bind].
    unfold ConfigParser.set. rewrite Hbs, HX1, HX2, optionxform_option_name.
    cbn [bind orb ConfigParser.sections ConfigParser.defaults].
    rewrite lookup_insert_eq. cbn [default].
    unfold PriceConfig.with_config. cbn [PriceConfig.config_file].
    rewrite insert_insert_eq. reflexivity.
Qed.

Lemma update_pricing_sets (self : POSController.t) (w : World) (io : write_outcome ini_file)
    (service : string) (m c s : float) :
  let X := Py.upper service in
  let cp := PriceConfig.config (POSController.config self) in
  let cfg' :=
    {| PriceConfig.config_file := PriceConfig.config_file (POSController.config self);
       PriceConfig.config :=
         {| ConfigParser.defaults := ConfigParser.defaults cp;
            ConfigParser.sections :=
              <[X := <[option_name Surcharge := Py.str_float s]>
                       (<[option_name Colored := Py.str_float c]>
                          (<[option_name Monochrome := Py.str_float m]>
                             (default ∅ (ConfigParser.sections cp !! X))))]>
                (ConfigParser.sections cp) |} |} in
  String.eqb X "" = false ->
  String.eqb X ConfigParser.default_section = false ->
  POSController.update_pricing self w io service m c s
  = (fst (PriceConfig.save_config cfg' w io), POSController.with_config self cfg',
     snd (PriceConfig.save_config cfg' w io)).
Proof.
  intros X cp cfg' HX1 HX2. subst cfg' cp. unfold POSController.update_pricing.
  unfold PriceConfig.set_monochrome_price, PriceConfig.set_colored_price,
    PriceConfig.set_image_surcharge.
  change "monochrome_price"%string with (option_name Monochrome).
  change "colored_price"%string with (option_name Colored).
  change "image_surcharge"%string with (option_name Surcharge).
  rewrite (set_price_effect Monochrome _ service m HX1 HX2).
  rewrite (set_price_effect Colored _ service c HX1 HX2).
  rewrite (set_price_effect Surcharge _ service s HX1 HX2).
  fold X. cbn [PriceConfig.config PriceConfig.config_file
               ConfigParser.sections ConfigParser.defaults].
  rewrite !lookup_insert_eq. cbn [default]. rewrite !insert_insert_eq.
  destruct (PriceConfig.save_config _ w io); reflexivity.
Qed.

Lemma update_pricing_table (self : POSController.t) (w : World) (io : write_outcome ini_file)
    (service : string) (m c s : float) :
  let X := Py.upper service in
  String.eqb X "" = false ->
  String.eqb X ConfigParser.default_section = false ->
  exists cfg' d,
    snd (fst (POSController.update_pricing self w io service m c s))
    = POSController.with_config self cfg'
    /\ POSController.update_pricing self w io service m c s
       = (fst (PriceConfig.save_config cfg' w io), POSController.with_config self cfg',
          snd (PriceConfig.save_config cfg' w io))
    /\ PriceConfig.config_file cfg' = PriceConfig.config_file (POSController.config self)
    /\ ConfigParser.defaults (PriceConfig.config cfg')
       = ConfigParser.defaults (PriceConfig.config (POSController.config self))
    /\ ConfigParser.sections (PriceConfig.config cfg')
       = <[X := d]> (ConfigParser.sections (PriceConfig.config (POSController.config self)))
    /\ d !! option_name Monochrome = Some (Py.str_float m)
    /\ d !! option_name Colored = Some (Py.str_float c)
    /\ d !! option_name Surcharge = Some (Py.str_float s).
Proof.
  intros X HX1 HX2.
  pose proof (update_pricing_sets self w io service m c s HX1 HX2) as H.
  cbv zeta in H. eexists _, _. rewrite H.
  split; [reflexivity|]. split; [reflexivity|].
  cbn [PriceConfig.config PriceConfig.config_file
       ConfigParser.sections ConfigParser.defaults].
  split; [reflexivity|]. split; [reflexivity|]. split; [reflexivity|].
  repeat split; simplify_map_eq; reflexivity.
Qed.

Lemma getfloat_own_section (cp : ConfigParser.t) (X : string) (d : gmap string string)
    (f : rate) (p fb : float) :
  ConfigParser.sections cp !! X = Some d ->
  d !! option_name f = Some (Py.str_float p) ->
  ConfigParser.getfloat cp X (option_name f) fb = Py.float_of_str (Py.str_float p).
Proof.
  intros Hd Hk. apply getfloat_raw; [|apply str_float_plain].
  unfold raw_value. rewrite Hd. exact Hk.
Qed.

(** X6: after [update_pricing] for a service (any name whose upper-case
    form is neither empty nor [DEFAULT], known category or new), whether
    or not the save succeeds, [get_pricing_info] for that service returns
    the three prices as read back from their texts; it does not raise. *)
Theorem update_then_get_pricing_info (self : POSController.t) (w : World)
    (io : write_outcome ini_file) (service : string) (m c s : float) :
  String.eqb (Py.upper service) "" = false ->
  String.eqb (Py.upper service) ConfigParser.default_section = false ->
  exists m' c' s',
    Py.float_of_str (Py.str_float m) = Ok m'
    /\ Py.float_of_str (Py.str_float c) = Ok c'
    /\ Py.float_of_str (Py.str_float s) = Ok s'
    /\ POSController.get_pricing_info
         (snd (fst (POSController.update_pricing self w io service m c s))) service
       = Ok {| PriceConfig.monochrome := m'; PriceConfig.colored := c';
               PriceConfig.image_surcharge := s' |}.
Proof.
  intros HX1 HX2.
  destruct (update_pricing_table self w io service m c s HX1 HX2)
    as (cfg' & d & -> & _ & _ & _ & Hsec & Hm & Hc & Hs).
  destruct (str_float_reads_back m) as [m' Hm'].
  destruct (str_float_reads_back c) as [c' Hc'].
  destruct (str_float_reads_back s) as [s' Hs'].
  exists m', c', s'. repeat (split; [assumption|]).
  unfold POSController.get_pricing_info, PriceConfig.service_prices,
    PriceConfig.get_monochrome_price, PriceConfig.get_colored_price,
    PriceConfig.get_image_surcharge.
  cbn [POSController.config POSController.with_config].
  assert (Hd : ConfigParser.sections (PriceConfig.config cfg') !! Py.upper service = Some d)
    by (rewrite Hsec; apply lookup_insert_eq).
  rewrite (getfloat_own_section _ _ _ Monochrome _ _ Hd Hm), Hm'.
  rewrite (getfloat_own_section _ _ _ Colored _ _ Hd Hc), Hc'.
  rewrite (getfloat_own_section _ _ _ Surcharge _ _ Hd Hs), Hs'.
  reflexivity.
Qed.

Lemma update_then_get_pricing_info_witness :
  POSController.get_pricing_info
    (snd (fst (POSController.update_pricing fresh_controller empty_world OpenFails
                 "binding" 6 9 3))) "binding"
  = Ok {| PriceConfig.monochrome := 6; PriceConfig.colored := 9;
          PriceConfig.image_surcharge := 3 |}.
Proof.
  destruct (update_then_get_pricing_info fresh_controller empty_world OpenFails
              "binding" 6 9 3) as (m' & c' & s' & Hm & Hc & Hs & H).
  - reflexivity.
  - reflexivity.
  - rewrite H. vm_compute in Hm, Hc, Hs.
    injection Hm as <-. injection Hc as <-. injection Hs as <-. reflexivity.
Defined.

(** X7: for service names in ASCII text, [update_pricing] for a
    service whose upper-cased name is neither empty nor [DEFAULT]
    changes no rate that is looked up for a service with another
    upper-cased name: every getter answers for the other service exactly
    as before.  (Under the empty name or [DEFAULT] the prices go to the
    parser's defaults, which any section lacking the option falls back
    on.) *)
Theorem update_pricing_other_services (self : POSController.t) (w : World)
    (io : write_outcome ini_file) (service other : string) (m c s : float) :
  Py.isascii service = true ->
  Py.isascii other = true ->
  Py.upper service <> ""%string ->
  Py.upper service <> ConfigParser.default_section ->
  Py.upper other <> Py.upper service ->
  let self' := snd (fst (POSController.update_pricing self w io service m c s)) in
  PriceConfig.get_monochrome_price (POSController.config self') other
  = PriceConfig.get_monochrome_price (POSController.config self) other
  /\ PriceConfig.get_colored_price (POSController.config self') other
     = PriceConfig.get_colored_price (POSController.config self) other
  /\ PriceConfig.get_image_surcharge (POSController.config self') other
     = PriceConfig.get_image_surcharge (POSController.config self) other
  /\ POSController.get_pricing_info self' other = POSController.get_pricing_info self other.
Proof.
  intros _ _ HX1 HX2 Hne self'. subst self'.
  apply String.eqb_neq in HX1, HX2.
  destruct (update_pricing_table self w io service m c s HX1 HX2)
    as (cfg' & d & -> & _ & _ & Hdef & Hsec & _).
  cbn [POSController.config POSController.with_config].
  assert (Hview : ConfigParser.unify_values (PriceConfig.config cfg') (Py.upper other)
                  = ConfigParser.unify_values
                      (PriceConfig.config (POSController.config self)) (Py.upper other)).
  { unfold ConfigParser.unify_values.
    rewrite Hsec, Hdef, lookup_insert_ne by congruence. reflexivity. }
  unfold POSController.get_pricing_info, PriceConfig.service_prices,
    PriceConfig.get_monochrome_price, PriceConfig.get_colored_price,
    PriceConfig.get_image_surcharge.
  cbn [POSController.config POSController.with_config].
  rewrite !(getfloat_view _ _ _ _ _ Hview). repeat split.
Qed.

Lemma update_pricing_other_services_witness :
  let self' := snd (fst (POSController.update_pricing fresh_controller empty_world Written
                           "print" 6 9 3)) in
  PriceConfig.get_monochrome_price (POSController.config self') "scan"
  = PriceConfig.get_monochrome_price (POSController.config fresh_controller) "scan".
Proof.
  intros self'.
  refine (proj1 (update_pricing_other_services fresh_controller empty_world Written
                   "print" "scan" 6 9 3 _ _ _ _ _)).
  - reflexivity.
  - reflexivity.
  - vm_compute. discriminate.
  - vm_compute. discriminate.
  - vm_compute. discriminate.
Defined.

(** ** Recalculating the current transactions *)

Lemma recalculate_each_spec (cfg : PriceConfig.t) (l : list Transaction.t) :
  match POSController.recalculate_each cfg l with
  | (Ok _, l') => Forall2 (repriced cfg) l l'
  | (Raise e, l') =>
      exists done done' t rest,
        l = done ++ t :: rest
        /\ Forall2 (repriced cfg) done done'
        /\ fst (Transaction.calculate_subtotal t cfg) = Raise e
        /\ l' = done' ++ snd (Transaction.calculate_subtotal t cfg) :: rest
  end.
Proof.
  induction l as [|t l IH]; cbn [POSController.recalculate_each]; [constructor|].
  pose proof (calculate_subtotal_result t cfg) as Hres.
  destruct (Transaction.calculate_subtotal t cfg) as [[x|e] t'] eqn:E.
  - pose proof (calculate_subtotal_stores _ _ _ _ E) as ->.
    assert (Ht : repriced cfg t (Transaction.with_subtotal t x)).
    { split; [symmetry; exact Hres|reflexivity]. }
    destruct (POSController.recalculate_each cfg l) as [[u|e] l'].
    + constructor; assumption.
    + destruct IH as (done & done' & t1 & rest & -> & Hd & Hr & ->).
      exists (t :: done), (Transaction.with_subtotal t x :: done'), t1, rest.
      repeat split; [constructor; assumption|exact Hr].
  - exists [], [], t, l. rewrite E. repeat split. constructor.
Qed.

(** X8: what [recalculate_current_transactions] does.  When it returns,
    every transaction carries the subtotal the formula gives under the
    current table and the total is their sum.  When a look-up raises,
    the transactions before the failing one are already repriced, the
    ones after it keep their subtotals and the total is not recomputed.
    The table, the history and the receipt's creation time stay. *)
Theorem recalculate_reprices (self : POSController.t) :
  let r := POSController.current_receipt self in
  let self' := snd (POSController.recalculate_current_transactions self) in
  let r' := POSController.current_receipt self' in
  POSController.config self' = POSController.config self
  /\ POSController.receipt_history self' = POSController.receipt_history self
  /\ Receipt.timestamp r' = Receipt.timestamp r
  /\ match fst (POSController.recalculate_current_transactions self) with
     | Ok _ =>
         Forall2 (repriced (POSController.config self))
           (Receipt.transactions r) (Receipt.transactions r')
         /\ total_is_sum r'
     | Raise e =>
         Receipt.total r' = Receipt.total r
         /\ exists done done' t rest,
              Receipt.transactions r = done ++ t :: rest
              /\ Forall2 (repriced (POSController.config self)) done done'
              /\ fst (Transaction.calculate_subtotal t (POSController.config self))
                 = Raise e
              /\ Receipt.transactions r'
                 = done' ++ snd (Transaction.calculate_subtotal t
                                   (POSController.config self)) :: rest
     end.
Proof.
  cbv zeta. unfold POSController.recalculate_current_transactions.
  pose proof (recalculate_each_spec (POSController.config self)
                (Receipt.transactions (POSController.current_receipt self))) as H.
  destruct (POSController.recalculate_each _ _) as [[u|e] l'];
    cbn [fst snd POSController.config POSController.with_receipt
         POSController.receipt_history POSController.current_receipt
         Receipt.calculate_total Receipt.timestamp Receipt.transactions Receipt.total].
  - repeat split. exact H.
  - repeat split. exact H.
Qed.

Lemma calculate_subtotal_again (t t' : Transaction.t) (cfg : PriceConfig.t) (x : float) :
  Transaction.calculate_subtotal t cfg = (Ok x, t') ->
  Transaction.calculate_subtotal t' cfg = (Ok x, t').
Proof.
  intros E. pose proof (calculate_subtotal_stores _ _ _ _ E) as ->.
  pose proof (calculate_subtotal_result t cfg) as Hres. rewrite E in Hres. cbn [fst] in Hres.
  pose proof (calculate_subtotal_result (Transaction.with_subtotal t x) cfg) as Hres'.
  cbn [Transaction.with_subtotal Transaction.service_type Transaction.pages
       Transaction.is_colored Transaction.has_images] in Hres'.
  rewrite <- Hres in Hres'.
  destruct (Transaction.calculate_subtotal (Transaction.with_subtotal t x) cfg)
    as [r t''] eqn:E'.
  cbn [fst] in Hres'. subst r.
  rewrite (calculate_subtotal_stores _ _ _ _ E'). reflexivity.
Qed.

Lemma recalculate_each_again (cfg : PriceConfig.t) (l : list Transaction.t) :
  forall l', POSController.recalculate_each cfg l = (Ok tt, l') ->
             POSController.recalculate_each cfg l' = (Ok tt, l').
Proof.
  induction l as [|t l IH]; intros l'; cbn [POSController.recalculate_each].
  - intros [= <-]. reflexivity.
  - destruct (Transaction.calculate_subtotal t cfg) as [[x|e] t'] eqn:E; [|discriminate].
    destruct (POSController.recalculate_each cfg l) as [res l1]. intros [= -> <-].
    cbn [POSController.recalculate_each].
    rewrite (calculate_subtotal_again _ _ _ _ E), (IH l1 eq_refl). reflexivity.
Qed.

(** X9: recalculating twice is recalculating once: after a
    recalculation that returned, a second one returns and changes
    nothing. *)
Theorem recalculate_idempotent (self self' : POSController.t) :
  POSController.recalculate_current_transactions self = (Ok tt, self') ->
  POSController.recalculate_current_transactions self' = (Ok tt, self').
Proof.
  unfold POSController.recalculate_current_transactions.
  destruct (POSController.recalculate_each _ _) as [[[]|e] l] eqn:E; [|discriminate].
  intros [= <-].
  cbn [POSController.current_receipt POSController.with_receipt POSController.config
       Receipt.calculate_total Receipt.transactions Receipt.timestamp Receipt.total snd].
  rewrite (recalculate_each_again _ _ _ E). reflexivity.
Qed.

Lemma recalculate_idempotent_witness :
  let self := snd (POSController.add_transaction fresh_controller SCAN 4 false true noon) in
  POSController.recalculate_current_transactions self = (Ok tt, self).
Proof.
  intros self. apply (recalculate_idempotent self). vm_compute. reflexivity.
Defined.

(** ** The price table in the states a controller can reach *)

Lemma default_table_rates (path : string) (C : ServiceType) (f : rate) :
  lookup_rate {| PriceConfig.config_file := path;
                 PriceConfig.config := PriceConfig.config default_table |} C f
  = Ok (default_rate C f).
Proof.
  rewrite (lookup_rate_raw _ C f (default_raw C f)).
  - apply default_raw_rate.
  - apply default_table_raw.
  - apply default_raw_plain.
Qed.

Lemma set_price_config_file (key : string) (cfg cfg' : PriceConfig.t) (service : string)
    (p : float) :
  PriceConfig.set_price key cfg service p = Ok cfg' ->
  PriceConfig.config_file cfg' = PriceConfig.config_file cfg.
Proof.
  unfold PriceConfig.set_price.
  destruct (if ConfigParser.contains _ _ then _ else _) as [cp|]; cbn [bind]; [|discriminate].
  destruct (ConfigParser.set _ _ _ _) as [cp'|]; cbn [bind]; [|discriminate].
  intros [= <-]. reflexivity.
Qed.

(** What [update_pricing] does in a state the controller can reach. *)
Lemma update_pricing_reachable (self : POSController.t) (w : World)
    (io : write_outcome ini_file) (service : string) (m c s : float) :
  reachable self ->
  exists cfg',
    POSController.update_pricing self w io service m c s
    = (fst (PriceConfig.save_config cfg' w io), POSController.with_config self cfg',
       snd (PriceConfig.save_config cfg' w io))
    /\ PriceConfig.config_file cfg' = PriceConfig.config_file (POSController.config self)
    /\ forall C f, is_ok (lookup_rate (POSController.config self) C f) = true ->
                   is_ok (lookup_rate cfg' C f) = true.
Proof.
  intros Hreach. destruct (reachable_invariant self Hreach) as (_ & Hseed & _).
  destruct (three_setters (POSController.config self) service m c s Hseed)
    as (c1 & c2 & c3 & H1 & H2 & H3 & _ & Hrates).
  exists c3. unfold POSController.update_pricing. rewrite H1, H2, H3.
  destruct (PriceConfig.save_config c3 w io).
  split; [reflexivity|]. split; [|exact Hrates].
  rewrite (set_price_config_file _ _ _ _ _ H3), (set_price_config_file _ _ _ _ _ H2).
  exact (set_price_config_file _ _ _ _ _ H1).
Qed.

Lemma step_rates (self self' : POSController.t) :
  reachable self -> step self self' ->
  forall C f, is_ok (lookup_rate (POSController.config self) C f) = true ->
              is_ok (lookup_rate (POSController.config self') C f) = true.
Proof.
  intros Hreach Hstep. destruct Hstep.
  - unfold POSController.add_transaction.
    destruct (Transaction.calculate_subtotal _ _) as [[x|e] t']; intros K g H; exact H.
  - unfold POSController.remove_transaction.
    destruct (Receipt.remove_transaction _ _) as [[u|[]] r]; intros K g H; exact H.
  - intros K g H; exact H.
  - intros K g H; exact H.
  - unfold POSController.generate_receipt.
    destruct (Receipt.transactions (POSController.current_receipt self));
      [intros K g H; exact H|].
    destruct makedirs_ok; cbn [negb]; [|intros K g H; exact H].
    destruct io; intros K g H; exact H.
  - destruct (update_pricing_reachable self w io service mono colored surcharge Hreach)
      as (cfg' & -> & _ & Hrates). exact Hrates.
  - unfold POSController.recalculate_current_transactions.
    destruct (POSController.recalculate_each _ _) as [[u|e] l]; intros K g H; exact H.
Qed.

Lemma all_pricing_returns (cfg : PriceConfig.t) :
  (forall C f, is_ok (lookup_rate cfg C f) = true) ->
  exists l, PriceConfig.get_all_prices cfg = Ok l
            /\ map fst l = ["print"; "photocopy"; "scan"]%string.
Proof.
  intros H.
  pose proof (H PRINT Monochrome) as H1. pose proof (H PRINT Colored) as H2.
  pose proof (H PRINT Surcharge) as H3. pose proof (H PHOTOCOPY Monochrome) as H4.
  pose proof (H PHOTOCOPY Colored) as H5. pose proof (H PHOTOCOPY Surcharge) as H6.
  pose proof (H SCAN Monochrome) as H7. pose proof (H SCAN Colored) as H8.
  pose proof (H SCAN Surcharge) as H9.
  unfold PriceConfig.get_all_prices, PriceConfig.all_prices, PriceConfig.service_prices.
  change (PriceConfig.get_monochrome_price cfg "print")
    with (lookup_rate cfg PRINT Monochrome).
  change (PriceConfig.get_colored_price cfg "print") with (lookup_rate cfg PRINT Colored).
  change (PriceConfig.get_image_surcharge cfg "print")
    with (lookup_rate cfg PRINT Surcharge).
  change (PriceConfig.get_monochrome_price cfg "photocopy")
    with (lookup_rate cfg PHOTOCOPY Monochrome).
  change (PriceConfig.get_colored_price cfg "photocopy")
    with (lookup_rate cfg PHOTOCOPY Colored).
  change (PriceConfig.get_image_surcharge cfg "photocopy")
    with (lookup_rate cfg PHOTOCOPY Surcharge).
  change (PriceConfig.get_monochrome_price cfg "scan")
    with (lookup_rate cfg SCAN Monochrome).
  change (PriceConfig.get_colored_price cfg "scan") with (lookup_rate cfg SCAN Colored).
  change (PriceConfig.get_image_surcharge cfg "scan") with (lookup_rate cfg SCAN Surcharge).
  destruct (lookup_rate cfg PRINT Monochrome); [|discriminate].
  destruct (lookup_rate cfg PRINT Colored); [|discriminate].
  destruct (lookup_rate cfg PRINT Surcharge); [|discriminate].
  destruct (lookup_rate cfg PHOTOCOPY Monochrome); [|discriminate].
  destruct (lookup_rate cfg PHOTOCOPY Colored); [|discriminate].
  destruct (lookup_rate cfg PHOTOCOPY Surcharge); [|discriminate].
  destruct (lookup_rate cfg SCAN Monochrome); [|discriminate].
  destruct (lookup_rate cfg SCAN Colored); [|discriminate].
  destruct (lookup_rate cfg SCAN Surcharge); [|discriminate].
  eexists. split; reflexivity.
Qed.

(** X10: in a state the controller can reach, the three setters of
    [update_pricing] never raise, whatever the service name and the
    prices: the call returns when the file is written and raises
    [OSError] otherwise.  It touches neither the current receipt (whose
    transactions keep their subtotals) nor the history nor any file but
    the configuration file, leaves the files as they were when the
    configuration cannot be opened, and every rate that could be looked
    up before can be looked up after. *)
Theorem update_pricing_outcome (self : POSController.t) (w : World)
    (io : write_outcome ini_file) (service : string) (m c s : float) :
  reachable self ->
  let res := fst (fst (POSController.update_pricing self w io service m c s)) in
  let self' := snd (fst (POSController.update_pricing self w io service m c s)) in
  let w' := snd (POSController.update_pricing self w io service m c s) in
  res = match io with Written => Ok tt | _ => Raise OSError end
  /\ POSController.current_receipt self' = POSController.current_receipt self
  /\ POSController.receipt_history self' = POSController.receipt_history self
  /\ text_files w' = text_files w
  /\ directories w' = directories w
  /\ (forall path, path <> PriceConfig.config_file (POSController.config self) ->
        ini_files w' !! path = ini_files w !! path)
  /\ (io = OpenFails -> w' = w)
  /\ forall C f, is_ok (lookup_rate (POSController.config self) C f) = true ->
                 is_ok (lookup_rate (POSController.config self') C f) = true.
Proof.
  intros Hreach.
  destruct (update_pricing_reachable self w io service m c s Hreach)
    as (cfg' & -> & Hfile & Hrates).
  cbn [fst snd POSController.with_config POSController.current_receipt
       POSController.receipt_history POSController.config].
  unfold PriceConfig.save_config. rewrite Hfile.
  destruct io; cbn [fst snd text_files directories ini_files];
    repeat split; try exact Hrates; try discriminate;
    intros path Hne; try reflexivity; apply lookup_insert_ne; congruence.
Qed.

Lemma update_pricing_outcome_witness :
  fst (fst (POSController.update_pricing fresh_controller empty_world OpenFails
              "default" 1 2 3)) = Raise OSError.
Proof.
  refine (proj1 (update_pricing_outcome fresh_controller empty_world OpenFails
                   "default" 1 2 3 _)).
  apply (reachable_init empty_world noon). vm_compute. reflexivity.
Defined.

(** X11: the dictionary of [get_all_pricing] agrees with the rates the
    transactions are priced with: it has the three services in the
    order print, photocopy, scan, each entry being the rate looked up
    for the category; it raises exactly an exception one of these
    look-ups raises. *)
Theorem get_all_pricing_agrees (self : POSController.t) :
  match POSController.get_all_pricing self with
  | Ok l =>
      map fst l = ["print"; "photocopy"; "scan"]%string
      /\ forall C p, In (Py.lower (value C), p) l ->
           forall f, lookup_rate (POSController.config self) C f = Ok (rate_of p f)
  | Raise e => exists C f, lookup_rate (POSController.config self) C f = Raise e
  end.
Proof.
  unfold POSController.get_all_pricing, PriceConfig.get_all_prices,
    PriceConfig.all_prices, PriceConfig.service_prices.
  set (cfg := POSController.config self).
  destruct (PriceConfig.get_monochrome_price cfg "print") eqn:E1;
    [|exists PRINT, Monochrome; exact E1].
  destruct (PriceConfig.get_colored_price cfg "print") eqn:E2;
    [|exists PRINT, Colored; exact E2].
  destruct (PriceConfig.get_image_surcharge cfg "print") eqn:E3;
    [|exists PRINT, Surcharge; exact E3].
  destruct (PriceConfig.get_monochrome_price cfg "photocopy") eqn:E4;
    [|exists PHOTOCOPY, Monochrome; exact E4].
  destruct (PriceConfig.get_colored_price cfg "photocopy") eqn:E5;
    [|exists PHOTOCOPY, Colored; exact E5].
  destruct (PriceConfig.get_image_surcharge cfg "photocopy") eqn:E6;
    [|exists PHOTOCOPY, Surcharge; exact E6].
  destruct (PriceConfig.get_monochrome_price cfg "scan") eqn:E7;
    [|exists SCAN, Monochrome; exact E7].
  destruct (PriceConfig.get_colored_price cfg "scan") eqn:E8;
    [|exists SCAN, Colored; exact E8].
  destruct (PriceConfig.get_image_surcharge cfg "scan") eqn:E9;
    [|exists SCAN, Surcharge; exact E9].
  cbn [bind]. split; [reflexivity|].
  intros C p Hin f.
  destruct Hin as [H|[H|[H|[]]]]; destruct C; try discriminate H;
    injection H as <-; destruct f; assumption.
Qed.

(** X12: a controller started without a configuration file can always
    show its prices: in every state it reaches, by any calls in any
    environment, [get_all_pricing] returns the dictionary of the three
    services. *)
Theorem rates_always_available (w : World) (now : Py.datetime)
    (self0 self : POSController.t) :
  config_ini w = None ->
  POSController.init w now = Ok self0 ->
  rtc step self0 self ->
  exists l, POSController.get_all_pricing self = Ok l
            /\ map fst l = ["print"; "photocopy"; "scan"]%string.
Proof.
  intros Hfile Hinit Hsteps.
  apply all_pricing_returns.
  assert (H0 : forall C f, is_ok (lookup_rate (POSController.config self0) C f) = true).
  { intros C f. revert Hinit. unfold POSController.init.
    rewrite init_over_defaults. unfold PriceConfig.load_config.
    cbn [PriceConfig.config_file]. unfold config_ini in Hfile. rewrite Hfile.
    cbn [bind]. intros [= <-]. cbn [POSController.config].
    rewrite default_table_rates. reflexivity. }
  assert (Hreach0 : reachable self0) by (eapply reachable_init; exact Hinit).
  clear Hinit Hfile.
  enough (reachable self
          /\ forall C f, is_ok (lookup_rate (POSController.config self) C f) = true)
    as [_ H] by exact H.
  induction Hsteps as [self|self1 self2 self3 Hstep _ IH]; [split; assumption|].
  apply IH.
  - intros C f. eapply step_rates; [exact Hreach0|exact Hstep|apply H0].
  - eapply reachable_step; eassumption.
Qed.

Lemma rates_always_available_witness :
  exists l,
    POSController.get_all_pricing
      (snd (fst (POSController.update_pricing fresh_controller empty_world Written
                   "" 1 2 3))) = Ok l
    /\ map fst l = ["print"; "photocopy"; "scan"]%string.
Proof.
  apply (rates_always_available empty_world noon fresh_controller).
  - reflexivity.
  - vm_compute. reflexivity.
  - apply rtc_once, step_update.
Defined.

(** X13: in a state the controller can reach, no transaction is priced
    at a fallback rate: every category has its own section, which holds
    a text for each of the three rates, and the rate is that text,
    interpolated and read as a float. *)
Theorem category_rates_never_fall_back (self : POSController.t) (C : ServiceType)
    (f : rate) :
  reachable self ->
  let cp := PriceConfig.config (POSController.config self) in
  exists d v,
    ConfigParser.sections cp !! section_name C = Some d
    /\ d !! option_name f = Some v
    /\ lookup_rate (POSController.config self) C f
       = (s <- ConfigParser.before_get (d ∪ ConfigParser.defaults cp) v ;;
          Py.float_of_str s).
Proof.
  intros Hreach cp. subst cp.
  destruct (reachable_invariant self Hreach) as (_ & Hseed & _).
  destruct (proj1 (seeded_sections _) Hseed C) as (d & Hd & Hr).
  destruct (Hr f) as [v Hv]. exists d, v.
  split; [exact Hd|]. split; [exact Hv|].
  rewrite lookup_rate_getfloat.
  unfold ConfigParser.getfloat, ConfigParser.unify_values.
  rewrite Hd, optionxform_option_name.
  rewrite (lookup_union_Some_l _ _ _ _ Hv). reflexivity.
Qed.

Lemma category_rates_never_fall_back_witness :
  exists d v,
    ConfigParser.sections (PriceConfig.config (POSController.config fresh_controller))
      !! section_name SCAN = Some d
    /\ d !! option_name Colored = Some v
    /\ lookup_rate (POSController.config fresh_controller) SCAN Colored
       = (s <- ConfigParser.before_get
                 (d ∪ ConfigParser.defaults
                        (PriceConfig.config (POSController.config fresh_controller))) v ;;
          Py.float_of_str s).
Proof.
  apply (category_rates_never_fall_back fresh_controller SCAN Colored).
  apply (reachable_init empty_world noon). vm_compute. reflexivity.
Defined.

(** X14: a service named in ASCII text that the table has no section
    for (and whose upper-cased name is not [DEFAULT]) is priced at the
    fallback rates 0.10, 0.25 and 0.05. *)
Theorem unknown_service_fallback (self : POSController.t) (service : string) :
  Py.isascii service = true ->
  ConfigParser.sections (PriceConfig.config (POSController.config self))
    !! Py.upper service = None ->
  Py.upper service <> ConfigParser.default_section ->
  POSController.get_pricing_info self service
  = Ok {| PriceConfig.monochrome := 0.10; PriceConfig.colored := 0.25;
          PriceConfig.image_surcharge := 0.05 |}.
Proof.
  intros _ Hnone Hne.
  unfold POSController.get_pricing_info, PriceConfig.service_prices,
    PriceConfig.get_monochrome_price, PriceConfig.get_colored_price,
    PriceConfig.get_image_surcharge, ConfigParser.getfloat, ConfigParser.unify_values.
  rewrite Hnone. apply String.eqb_neq in Hne. rewrite Hne. reflexivity.
Qed.

Lemma unknown_service_fallback_witness :
  POSController.get_pricing_info fresh_controller "binding"
  = Ok {| PriceConfig.monochrome := 0.10; PriceConfig.colored := 0.25;
          PriceConfig.image_surcharge := 0.05 |}.
Proof.
  apply unknown_service_fallback.
  - reflexivity.
  - vm_compute. reflexivity.
  - discriminate.
Defined.

(** ** Page counts *)

(** X15: [add_transaction] checks nothing about the page count: with
    the rates of the category available it returns for every count
    that converts to a float (zero and negative counts too), appending
    a transaction with that count, and raises what the conversion
    raises otherwise, leaving the controller as it was. *)
Theorem add_transaction_page_count (self : POSController.t) (C : ServiceType) (n : Z)
    (colored images : bool) (now : Py.datetime) :
  (forall f, is_ok (lookup_rate (POSController.config self) C f) = true) ->
  match Py.float_of_int n with
  | Ok _ =>
      exists t,
        fst (POSController.add_transaction self C n colored images now) = Ok t
        /\ Transaction.pages t = n
        /\ POSController.get_current_transactions
             (snd (POSController.add_transaction self C n colored images now))
           = POSController.get_current_transactions self ++ [t]
  | Raise e =>
      POSController.add_transaction self C n colored images now = (Raise e, self)
  end.
Proof.
  intros Hrates.
  unfold POSController.add_transaction.
  set (t0 := Transaction.init C n colored images now).
  pose proof (calculate_subtotal_result t0 (POSController.config self)) as Hres.
  subst t0. cbn [Transaction.init Transaction.service_type Transaction.pages
                 Transaction.is_colored Transaction.has_images] in Hres.
  unfold spec_subtotal in Hres.
  pose proof (Hrates Monochrome) as Hm. pose proof (Hrates Colored) as Hc.
  pose proof (Hrates Surcharge) as Hs. cbn [lookup_rate] in Hm, Hc, Hs.
  destruct (monochrome_rate (POSController.config self) C) as [pm|]; [|discriminate].
  destruct (colored_rate (POSController.config self) C) as [pc|]; [|discriminate].
  destruct (image_surcharge (POSController.config self) C) as [ps|]; [|discriminate].
  unfold Py.mul_int in Hres.
  destruct (Transaction.calculate_subtotal _ _) as [r t'] eqn:E. cbn [fst] in Hres.
  destruct (Py.float_of_int n) as [y|e].
  - assert (exists x, r = Ok x) as [x ->].
    { rewrite Hres. destruct colored, images; cbn [bind]; eauto. }
    rewrite (calculate_subtotal_stores _ _ _ _ E).
    eexists. split; [reflexivity|]. split; reflexivity.
  - assert (r = Raise e) as ->.
    { rewrite Hres. destruct colored; reflexivity. }
    reflexivity.
Qed.

Lemma add_transaction_page_count_witness :
  exists t,
    fst (POSController.add_transaction fresh_controller PRINT (-3) false false noon) = Ok t
    /\ Transaction.pages t = -3
    /\ POSController.get_current_transactions
         (snd (POSController.add_transaction fresh_controller PRINT (-3) false false noon))
       = POSController.get_current_transactions fresh_controller ++ [t].
Proof.
  refine (add_transaction_page_count fresh_controller PRINT (-3) false false noon _).
  intros f. destruct f; vm_compute; reflexivity.
Defined.

(** ** The list of receipt files *)

Lemma ascii_compare_refl (a : ascii) : Ascii.compare a a = Eq.
Proof. unfold Ascii.compare. apply N.compare_refl. Qed.

Lemma string_compare_refl (s : string) : String.compare s s = Eq.
Proof. induction s as [|a s IH]; cbn; [reflexivity|]. rewrite ascii_compare_refl. exact IH. Qed.

Lemma string_leb_refl (s : string) : String.leb s s = true.
Proof. unfold String.leb. rewrite string_compare_refl. reflexivity. Qed.

Lemma string_leb_trans (a : string) : forall b c : string,
  String.leb a b = true -> String.leb b c = true -> String.leb a c = true.
Proof.
  unfold String.leb.
  induction a as [|x a IH]; intros [|y b] [|z c]; cbn; try (intros; congruence).
  destruct (Ascii.compare x y) eqn:E1; [|idtac|intros; discriminate].
  - apply Ascii.compare_eq_iff in E1 as ->.
    destruct (Ascii.compare y z); [apply IH|reflexivity|intros; discriminate].
  - intros _. destruct (Ascii.compare y z) eqn:E2; [| |intros; discriminate]; intros _.
    + apply Ascii.compare_eq_iff in E2 as <-. rewrite E1. reflexivity.
    + unfold Ascii.compare in *. rewrite N.compare_lt_iff in E1, E2.
      assert (H : (N_of_ascii x ?= N_of_ascii z)%N = Lt)
        by (apply N.compare_lt_iff; lia).
      rewrite H. reflexivity.
Qed.

Lemma string_compare_lt_leb (a b : string) :
  String.compare a b = Lt -> String.leb b a = false.
Proof.
  intros H. unfold String.leb. rewrite String.compare_antisym, H. reflexivity.
Qed.

Lemma insert_desc_perm (x : string) (l : list string) :
  Permutation (Py.insert_desc x l) (x :: l).
Proof.
  induction l as [|y r IH]; cbn [Py.insert_desc]; [reflexivity|].
  destruct (String.leb y x); [reflexivity|].
  rewrite IH. apply perm_swap.
Qed.

Lemma sorted_reverse_perm (l : list string) : Permutation (Py.sorted_reverse l) l.
Proof.
  induction l as [|x l IH]; cbn; [reflexivity|].
  rewrite insert_desc_perm. constructor. exact IH.
Qed.

Lemma insert_desc_sorted (x : string) (l : list string) :
  descending l -> descending (Py.insert_desc x l).
Proof.
  unfold descending. induction 1 as [|y r Hr IH Hy]; cbn [Py.insert_desc].
  - constructor; constructor.
  - destruct (String.leb y x) eqn:E.
    + constructor; [constructor; assumption|].
      constructor; [exact E|].
      eapply Forall_impl; [exact Hy|]. intros b Hb. cbn beta in Hb |- *.
      eapply string_leb_trans; eassumption.
    + constructor; [exact IH|].
      eapply Permutation_Forall; [symmetry; apply insert_desc_perm|].
      constructor; [|exact Hy].
      destruct (String.leb_total x y) as [H|H]; [exact H|congruence].
Qed.

Lemma sorted_reverse_sorted (l : list string) : descending (Py.sorted_reverse l).
Proof.
  induction l as [|x l IH]; cbn; [constructor|]. apply insert_desc_sorted, IH.
Qed.

Lemma descending_unique (l1 : list string) : forall l2 : list string,
  descending l1 -> descending l2 -> Permutation l1 l2 -> l1 = l2.
Proof.
  unfold descending.
  induction l1 as [|a l1 IH]; intros [|b l2] H1 H2 Hp.
  - reflexivity.
  - apply Permutation_nil in Hp. discriminate.
  - symmetry in Hp. apply Permutation_nil in Hp. discriminate.
  - inversion H1 as [|? ? Hs1 Ha]; subst. inversion H2 as [|? ? Hs2 Hb]; subst.
    assert (a = b) as ->.
    { assert (Hin1 : In a (b :: l2)) by (eapply Permutation_in; [exact Hp|left; reflexivity]).
      assert (Hin2 : In b (a :: l1))
        by (eapply Permutation_in; [symmetry; exact Hp|left; reflexivity]).
      destruct Hin1 as [->|Hin1]; [reflexivity|].
      destruct Hin2 as [->|Hin2]; [reflexivity|].
      rewrite List.Forall_forall in Ha, Hb.
      apply String.leb_antisym; [apply Hb, Hin1|apply Ha, Hin2]. }
    f_equal. apply IH; [assumption|assumption|].
    eapply Permutation_cons_inv; exact Hp.
Qed.

Lemma descending_before (l : list string) (a b : string) :
  descending l -> In a l -> In b l -> String.compare a b = Lt -> listed_before b a l.
Proof.
  unfold descending. intros Hs Ha Hb Hlt.
  pose proof (string_compare_lt_leb _ _ Hlt) as Hle.
  induction Hs as [|x r Hr IH Hx].
  - destruct Ha.
  - destruct Hb as [->|Hb].
    + destruct Ha as [->|Ha].
      * rewrite string_compare_refl in Hlt. discriminate.
      * apply in_split in Ha as (l2 & l3 & ->). exists [], l2, l3. reflexivity.
    + destruct Ha as [->|Ha].
      * rewrite List.Forall_forall in Hx. rewrite (Hx b Hb) in Hle. discriminate.
      * destruct (IH Ha Hb) as (l1 & l2 & l3 & ->).
        exists (x :: l1), l2, l3. reflexivity.
Qed.

Lemma select_receipts_in (dir : string) (names : list string) (p : string) :
  In p (Utils.select_receipts dir names) <->
  exists filename,
    In filename names
    /\ Py.startswith filename "Receipt_" = true
    /\ Py.endswith filename ".txt" = true
    /\ p = dir +:+ "/" +:+ filename.
Proof.
  unfold Utils.select_receipts. split.
  - intros Hin. apply (Permutation_in _ (sorted_reverse_perm _)) in Hin.
    apply in_map_iff in Hin as (f & <- & Hf).
    apply list_elem_of_In, list_elem_of_filter in Hf as [Hp Hf].
    apply andb_prop in Hp as [Hp1 Hp2].
    exists f. repeat split; [apply list_elem_of_In, Hf|assumption|assumption].
  - intros (f & Hf & Hp1 & Hp2 & ->).
    apply (Permutation_in _ (Permutation_sym (sorted_reverse_perm _))).
    apply in_map_iff. exists f. split; [reflexivity|].
    apply list_elem_of_In, list_elem_of_filter. split.
    + rewrite Hp1, Hp2. reflexivity.
    + apply list_elem_of_In, Hf.
Qed.

(** X16: the list [get_receipt_files] builds from a listing of the
    directory: it holds, under the directory's name, exactly the names
    that start with [Receipt_] and end with [.txt], as many times as
    the listing has them; it is in descending order of the strings; it
    does not depend on the order of the listing; and it is the only
    descending arrangement of these paths, so any sorting procedure
    yields it. *)
Theorem select_receipts_spec (dir : string) (names : list string) :
  let selected :=
    map (fun filename => dir +:+ "/" +:+ filename)
      (filter (fun filename =>
                 Py.startswith filename "Receipt_" && Py.endswith filename ".txt" = true)
         names) in
  Permutation (Utils.select_receipts dir names) selected
  /\ descending (Utils.select_receipts dir names)
  /\ (forall p, In p (Utils.select_receipts dir names) <->
        exists filename,
          In filename names
          /\ Py.startswith filename "Receipt_" = true
          /\ Py.endswith filename ".txt" = true
          /\ p = dir +:+ "/" +:+ filename)
  /\ (forall names', Permutation names names' ->
        Utils.select_receipts dir names' = Utils.select_receipts dir names)
  /\ (forall l, descending l -> Permutation l selected ->
        l = Utils.select_receipts dir names).
Proof.
  intros selected. unfold Utils.select_receipts. fold selected.
  split; [apply sorted_reverse_perm|].
  split; [apply sorted_reverse_sorted|].
  split; [intros p; apply select_receipts_in|].
  split.
  { intros names' Hp. apply descending_unique; try apply sorted_reverse_sorted.
    rewrite !sorted_reverse_perm. subst selected.
    apply Permutation_map. rewrite Hp. reflexivity. }
  intros l Hs Hp. apply descending_unique; [exact Hs|apply sorted_reverse_sorted|].
  rewrite sorted_reverse_perm. exact Hp.
Qed.

Lemma select_receipts_spec_witness :
  Utils.select_receipts "receipts" ["notes.txt"; "Receipt_a.txt"; "Receipt_b.txt"]
  = Utils.select_receipts "receipts" ["Receipt_b.txt"; "notes.txt"; "Receipt_a.txt"].
Proof.
  refine (proj1 (proj2 (proj2 (proj2
            (select_receipts_spec "receipts"
               ["Receipt_b.txt"; "notes.txt"; "Receipt_a.txt"]))))
            ["notes.txt"; "Receipt_a.txt"; "Receipt_b.txt"] _)%string.
  apply (Permutation_cons_append ["notes.txt"; "Receipt_a.txt"]%string).
Defined.

Lemma starts_with_app (p l : list ascii) : Py.starts_with p (p ++ l) = true.
Proof.
  induction p as [|a p IH]; [reflexivity|].
  cbn. rewrite Ascii.eqb_refl. exact IH.
Qed.

Lemma digit_not_slash (c : ascii) : Py.is_digit c = true -> Ascii.eqb "/" c = false.
Proof.
  intros H. destruct (Ascii.eqb_spec "/" c) as [<-|]; [discriminate H|reflexivity].
Qed.

Lemma pad_digits_no_slash (w : nat) : forall (n : Z) (acc : list ascii),
  existsb (Ascii.eqb "/") (Py.pad_digits w n acc) = existsb (Ascii.eqb "/") acc.
Proof.
  induction w as [|w IH]; intros n acc; [reflexivity|].
  cbn [Py.pad_digits]. rewrite IH. cbn [existsb].
  rewrite (digit_not_slash _ (is_digit_mod10 n)). reflexivity.
Qed.

Lemma receipt_filename_no_slash (r : Receipt.t) :
  existsb (Ascii.eqb "/") (list_ascii_of_string (Receipt.get_receipt_filename r)) = false.
Proof.
  rewrite receipt_filename_chars. cbv zeta.
  rewrite !existsb_app, !pad_digits_no_slash. reflexivity.
Qed.

Lemma receipt_filename_selected (r : Receipt.t) :
  Py.startswith (Receipt.get_receipt_filename r) "Receipt_" = true
  /\ Py.endswith (Receipt.get_receipt_filename r) ".txt" = true.
Proof.
  unfold Py.startswith, Py.endswith. rewrite receipt_filename_chars. cbv zeta. split.
  - apply starts_with_app.
  - rewrite !app_assoc, rev_app_distr. apply starts_with_app.
Qed.

Lemma entry_name_export_path (r : Receipt.t) :
  Utils.entry_name "receipts" (export_path r) = Some (Receipt.get_receipt_filename r).
Proof.
  unfold Utils.entry_name, export_path, POSController.receipt_path.
  rewrite list_ascii_of_string_app.
  change (list_ascii_of_string "receipts" ++ ["/"%char])
    with (list_ascii_of_string "receipts/").
  rewrite starts_with_app, skipn_app, Nat.sub_diag, skipn_all. cbn [skipn app].
  pose proof (receipt_filename_no_slash r) as Hns.
  pose proof (string_of_list_ascii_of_string (Receipt.get_receipt_filename r)) as Hname.
  destruct (list_ascii_of_string (Receipt.get_receipt_filename r)) as [|c name] eqn:E.
  - rewrite receipt_filename_chars in E. discriminate E.
  - cbn [skipn]. rewrite Hns, Hname. reflexivity.
Qed.

Lemma listdir_in (w : World) (dir name : string) (names : list string) :
  Utils.listdir w dir = Ok names ->
  (In name names <-> exists p, p ∈ Utils.paths w /\ Utils.entry_name dir p = Some name).
Proof.
  unfold Utils.listdir. destruct (bool_decide _); [|discriminate]. intros [= <-].
  rewrite <- list_elem_of_In, list_elem_of_omap. split.
  - intros (p & Hp & He). exists p. split; [apply elem_of_elements, Hp|exact He].
  - intros (p & Hp & He). exists p. split; [apply elem_of_elements, Hp|exact He].
Qed.

(** X17: a receipt that [generate_receipt] has written is found by
    [get_receipt_files]: on the file system the call leaves, the list
    is returned, holds the path the call returned (the export path of
    the receipt), is in descending order, and still holds every file
    that was listed before the call. *)
Theorem generated_receipt_is_listed (self self' : POSController.t) (w w' : World)
    (makedirs_ok : bool) (io : write_outcome string) (now : Py.datetime) (path : string) :
  POSController.generate_receipt self w makedirs_ok io now = (Ok path, self', w') ->
  exists l,
    Utils.get_receipt_files w' = Ok l
    /\ path = export_path (POSController.current_receipt self)
    /\ In path l
    /\ descending l
    /\ forall l0, Utils.get_receipt_files w = Ok l0 -> forall p, In p l0 -> In p l.
Proof.
  unfold POSController.generate_receipt.
  destruct (Receipt.transactions (POSController.current_receipt self)); [discriminate|].
  destruct makedirs_ok; cbn [negb]; [|discriminate].
  destruct io; try discriminate. intros [= <- <- <-].
  set (r := POSController.current_receipt self).
  set (w' := {| ini_files := _; text_files := _; directories := _ |}).
  assert (Hdir : "receipts" ∈ directories w')
    by (apply elem_of_union_l, elem_of_singleton; reflexivity).
  assert (Hsub : Utils.paths w ⊆ Utils.paths w').
  { unfold Utils.paths. cbn [w' ini_files text_files directories].
    rewrite dom_insert. intros p Hp.
    apply elem_of_union in Hp as [Hp|Hp]; [|apply elem_of_union_r, elem_of_union_r, Hp].
    apply elem_of_union in Hp as [Hp|Hp].
    - apply elem_of_union_l, elem_of_union_l, elem_of_union_r, Hp.
    - apply elem_of_union_l, elem_of_union_r, Hp. }
  assert (Hpath : export_path r ∈ Utils.paths w').
  { unfold Utils.paths. cbn [w' ini_files text_files directories].
    rewrite dom_insert.
    apply elem_of_union_l, elem_of_union_l, elem_of_union_l, elem_of_singleton.
    reflexivity. }
  unfold Utils.get_receipt_files, Utils.path_exists.
  rewrite (bool_decide_eq_true_2 ("receipts" ∈ Utils.paths w'))
    by (apply elem_of_union_r, Hdir).
  cbn [negb]. destruct (Utils.listdir w' "receipts") as [names|] eqn:El;
    [|unfold Utils.listdir in El; rewrite bool_decide_eq_true_2 in El by exact Hdir;
      discriminate].
  cbn [bind]. eexists. split; [reflexivity|]. split; [reflexivity|].
  split.
  { apply select_receipts_in. exists (Receipt.get_receipt_filename r).
    destruct (receipt_filename_selected r) as [H1 H2].
    split; [|repeat split; assumption].
    apply (listdir_in _ _ _ _ El). exists (export_path r).
    split; [exact Hpath|apply entry_name_export_path]. }
  split; [apply sorted_reverse_sorted|].
  intros l0.
  destruct (bool_decide ("receipts" ∈ Utils.paths w)); cbn [negb];
    [|intros [= <-] p []].
  destruct (Utils.listdir w "receipts") as [names0|] eqn:El0; [|discriminate].
  cbn [bind]. intros [= <-] p Hp.
  apply select_receipts_in in Hp as (f & Hf & H1 & H2 & ->).
  apply select_receipts_in. exists f. split; [|repeat split; assumption].
  apply (listdir_in _ _ _ _ El0) in Hf as (q & Hq & He).
  apply (listdir_in _ _ _ _ El). exists q. split; [apply Hsub, Hq|exact He].
Qed.

Lemma generated_receipt_is_listed_witness :
  let self := snd (POSController.add_transaction fresh_controller PRINT 5 true true noon) in
  exists l,
    Utils.get_receipt_files
      (snd (POSController.generate_receipt self empty_world true Written noon)) = Ok l
    /\ In "receipts/Receipt_07-04-2025_12-00-00.txt"%string l.
Proof.
  intros self.
  destruct (generated_receipt_is_listed self
              (snd (fst (POSController.generate_receipt self empty_world true Written noon)))
              empty_world
              (snd (POSController.generate_receipt self empty_world true Written noon))
              true Written noon "receipts/Receipt_07-04-2025_12-00-00.txt")
    as (l & Hl & _ & Hin & _).
  - vm_compute. reflexivity.
  - exists l. split; assumption.
Defined.

(** The file names compare by the month first: the year comes after the
    month and the day in them. *)
Lemma export_path_month_order (r1 r2 : Receipt.t) :
  clock_reading (Receipt.timestamp r1) ->
  clock_reading (Receipt.timestamp r2) ->
  Py.month (Receipt.timestamp r1) < Py.month (Receipt.timestamp r2) ->
  String.compare (export_path r1) (export_path r2) = Lt.
Proof.
  destruct r1 as [l1 [y1 m1 d1 H1 M1 S1] t1], r2 as [l2 [y2 m2 d2 H2 M2 S2] t2].
  unfold clock_reading, Py.valid_datetime. cbn [Receipt.timestamp Py.month Py.year].
  intros [(_ & Hm1 & _) _] [(_ & Hm2 & _) _] Hlt.
  assert (C1 : m1 = 1 \/ m1 = 2 \/ m1 = 3 \/ m1 = 4 \/ m1 = 5 \/ m1 = 6 \/ m1 = 7
               \/ m1 = 8 \/ m1 = 9 \/ m1 = 10 \/ m1 = 11 \/ m1 = 12) by lia.
  assert (C2 : m2 = 1 \/ m2 = 2 \/ m2 = 3 \/ m2 = 4 \/ m2 = 5 \/ m2 = 6 \/ m2 = 7
               \/ m2 = 8 \/ m2 = 9 \/ m2 = 10 \/ m2 = 11 \/ m2 = 12) by lia.
  clear Hm1 Hm2.
  repeat (destruct C1 as [->|C1]); try subst m1;
    repeat (destruct C2 as [->|C2]); try subst m2;
    try (exfalso; lia); reflexivity.
Qed.

(** X18: the list is ordered by the file names, which begin with the
    month: of two receipts in the directory, the one created in the
    later month of the year is listed first, whatever the years; so a
    receipt of December is listed before one of the January after it,
    and the list is not from the most recent down. *)
Theorem receipts_listed_month_first (r1 r2 : Receipt.t) (names : list string) :
  clock_reading (Receipt.timestamp r1) ->
  clock_reading (Receipt.timestamp r2) ->
  Py.month (Receipt.timestamp r1) < Py.month (Receipt.timestamp r2) ->
  In (Receipt.get_receipt_filename r1) names ->
  In (Receipt.get_receipt_filename r2) names ->
  listed_before (export_path r2) (export_path r1)
    (Utils.select_receipts "receipts" names).
Proof.
  intros Hc1 Hc2 Hlt Hn1 Hn2.
  apply descending_before.
  - apply sorted_reverse_sorted.
  - apply select_receipts_in. exists (Receipt.get_receipt_filename r1).
    destruct (receipt_filename_selected r1) as [H1 H2]. repeat split; assumption.
  - apply select_receipts_in. exists (Receipt.get_receipt_filename r2).
    destruct (receipt_filename_selected r2) as [H1 H2]. repeat split; assumption.
  - apply export_path_month_order; assumption.
Qed.

Lemma receipts_listed_month_first_witness :
  let january := {| Py.year := 2025; Py.month := 1; Py.day := 1;
                    Py.hour := 9; Py.minute := 0; Py.second := 0 |} in
  let december := {| Py.year := 2024; Py.month := 12; Py.day := 31;
                     Py.hour := 9; Py.minute := 0; Py.second := 0 |} in
  listed_before (export_path (Receipt.init december)) (export_path (Receipt.init january))
    (Utils.select_receipts "receipts"
       [Receipt.get_receipt_filename (Receipt.init january);
        Receipt.get_receipt_filename (Receipt.init december)]).
Proof.
  intros january december.
  apply (receipts_listed_month_first (Receipt.init january) (Receipt.init december)).
  - unfold clock_reading, Py.valid_datetime. cbn. lia.
  - unfold clock_reading, Py.valid_datetime. cbn. lia.
  - cbn. lia.
  - left. reflexivity.
  - right. left. reflexivity.
Defined.

(** ** Amounts *)

(** X19: [validate_pricing] accepts only finite, strictly positive
    prices: a [nan], an infinity, a zero or a negative number is
    rejected. *)
Theorem validate_pricing_sound (price : float) :
  Utils.validate_pricing price = true ->
  exists m e, Prim2SF price = S754_finite false m e.
Proof.
  unfold Utils.validate_pricing, Py.float_le.
  remember (Prim2SF 0.01) as lo eqn:Hlo. vm_compute in Hlo.
  remember (Prim2SF 100) as hi eqn:Hhi. vm_compute in Hhi. subst lo hi.
  destruct (Prim2SF price) as [s|s| |s m e].
  - destruct s; discriminate.
  - destruct s; discriminate.
  - discriminate.
  - destruct s; [discriminate|]. intros _. eauto.
Qed.

Lemma validate_pricing_sound_witness :
  exists m e, Prim2SF 2.5 = S754_finite false m e.
Proof. apply validate_pricing_sound. vm_compute. reflexivity. Defined.

Lemma string_app_assoc (a b c : string) : (a +:+ b) +:+ c = a +:+ (b +:+ c).
Proof.
  induction a as [|x a IH]; [reflexivity|].
  change (String x a +:+ b) with (String x (a +:+ b)).
  change (String x (a +:+ b) +:+ c) with (String x ((a +:+ b) +:+ c)).
  rewrite IH. reflexivity.
Qed.

(** X20: the receipt prints its amounts as [format_currency] formats
    them: every transaction line ends with the formatted subtotal, the
    total line is [TOTAL: ] and the formatted total, and a finite
    amount is formatted as the peso sign and a number on exactly two
    decimals. *)
Theorem receipt_amounts_as_format_currency :
  (forall t, exists item,
     Transaction.to_string t
     = item +:+ ": " +:+ Utils.format_currency (Transaction.subtotal t))
  /\ (forall r, In ("TOTAL: " +:+ Utils.format_currency (Receipt.total r))
                  (Receipt.receipt_lines r))
  /\ (forall x, is_finite x = true ->
        exists s, Utils.format_currency x = "₱" +:+ s /\ two_decimals s = true).
Proof.
  split; [|split].
  - intros t. unfold Transaction.to_string, Utils.format_currency. cbv zeta.
    exists (value (Transaction.service_type t) +:+ " - "
            +:+ Py.str_int (Transaction.pages t) +:+ " pages - "
            +:+ (if Transaction.is_colored t then "Colored" else "Monochrome")
            +:+ (if Transaction.has_images t then " (with images)" else "")).
    rewrite !string_app_assoc. reflexivity.
  - intros r. unfold Receipt.receipt_lines. apply in_or_app. right.
    apply in_or_app. right. right. right. left. reflexivity.
  - intros x Hx. exists (Py.format_2f x).
    split; [reflexivity|apply format_2f_two_decimals, Hx].
Qed.

Lemma receipt_amounts_as_format_currency_witness :
  exists s, Utils.format_currency 2.5 = "₱" +:+ s /\ two_decimals s = true.
Proof.
  apply (proj2 (proj2 receipt_amounts_as_format_currency) 2.5%float). reflexivity.
Defined.

(** ** Saving the table and starting again *)

Lemma fold_insert_union (kvs : list (string * string)) :
  NoDup kvs.*1 ->
  Forall (fun kv => ConfigParser.optionxform (fst kv) = fst kv) kvs ->
  forall d0 : gmap string string,
    fold_left (fun acc kv => <[ConfigParser.optionxform (fst kv) := snd kv]> acc) kvs d0
    = list_to_map kvs ∪ d0.
Proof.
  induction kvs as [|[k v] kvs IH]; intros Hnd Hk d0.
  - cbn. rewrite (left_id_L ∅ (∪)). reflexivity.
  - apply NoDup_cons in Hnd as [Hnot Hnd]. inversion Hk as [|? ? Hk1 Hk2]; subst.
    cbn [fold_left fst snd list_to_map foldr uncurry] in *. rewrite Hk1.
    rewrite (IH Hnd Hk2). rewrite <- insert_union_l.
    rewrite insert_union_r by (apply not_elem_of_list_to_map_1, Hnot). reflexivity.
Qed.

Lemma rate_options_normal (d : gmap string string) :
  dom d = rate_options ->
  Forall (fun kv => ConfigParser.optionxform (fst kv) = fst kv) (map_to_list d).
Proof.
  intros Hdom. apply List.Forall_forall. intros [k v] Hin.
  apply list_elem_of_In, elem_of_map_to_list in Hin.
  assert (Hk : k ∈ rate_options) by (rewrite <- Hdom; apply elem_of_dom; eauto).
  unfold rate_options in Hk.
  apply elem_of_union in Hk as [Hk|Hk]; [apply elem_of_union in Hk as [Hk|Hk]|];
    apply elem_of_singleton in Hk; subst k; reflexivity.
Qed.

Lemma read_section_dump (acc : ConfigParser.t) (S : string) (d : gmap string string) :
  String.eqb S ConfigParser.default_section = false ->
  dom d = rate_options ->
  PriceConfig.read_section acc S (map_to_list d)
  = {| ConfigParser.defaults := ConfigParser.defaults acc;
       ConfigParser.sections :=
         <[S := d ∪ default ∅ (ConfigParser.sections acc !! S)]>
           (ConfigParser.sections acc) |}.
Proof.
  intros HS Hdom. unfold PriceConfig.read_section. rewrite HS.
  rewrite fold_insert_union.
  - rewrite list_to_map_to_list. reflexivity.
  - apply NoDup_fst_map_to_list.
  - apply rate_options_normal, Hdom.
Qed.

Lemma category_section_not_default (S : string) :
  S ∈ category_sections -> String.eqb S ConfigParser.default_section = false.
Proof.
  unfold category_sections. intros H.
  apply elem_of_union in H as [H|H]; [apply elem_of_union in H as [H|H]|];
    apply elem_of_singleton in H; subst S; reflexivity.
Qed.

Lemma category_section_not_empty (S : string) :
  S ∈ category_sections -> String.eqb S "" = false.
Proof.
  unfold category_sections. intros H.
  apply elem_of_union in H as [H|H]; [apply elem_of_union in H as [H|H]|];
    apply elem_of_singleton in H; subst S; reflexivity.
Qed.

Lemma read_sections_dump (secs : list (string * gmap string string)) :
  NoDup secs.*1 ->
  Forall (fun s => fst s ∈ category_sections /\ dom (snd s) = rate_options) secs ->
  forall acc : ConfigParser.t,
    let cp := PriceConfig.read_sections acc
                (map (fun s => (fst s, map_to_list (snd s))) secs) in
    ConfigParser.defaults cp = ConfigParser.defaults acc
    /\ forall S, ConfigParser.sections cp !! S
                 = match (list_to_map secs : gmap string (gmap string string)) !! S with
                   | Some d => Some (d ∪ default ∅ (ConfigParser.sections acc !! S))
                   | None => ConfigParser.sections acc !! S
                   end.
Proof.
  unfold PriceConfig.read_sections.
  induction secs as [|[S0 d0] secs IH]; intros Hnd Hall acc.
  - cbn. split; [reflexivity|]. intros S. rewrite lookup_empty. reflexivity.
  - apply NoDup_cons in Hnd as [Hnot Hnd]. inversion Hall as [|? ? [H1 H2] Hall']; subst.
    cbn [map fold_left fst snd] in *.
    rewrite (read_section_dump acc S0 d0 (category_section_not_default _ H1) H2).
    destruct (IH Hnd Hall'
                {| ConfigParser.defaults := ConfigParser.defaults acc;
                   ConfigParser.sections :=
                     <[S0 := d0 ∪ default ∅ (ConfigParser.sections acc !! S0)]>
                       (ConfigParser.sections acc) |}) as [IHd IHs].
    cbv zeta in IHd, IHs. split; [exact IHd|].
    intros S. rewrite IHs. cbn [list_to_map foldr uncurry ConfigParser.sections fst snd].
    destruct (decide (S = S0)) as [->|Hne].
    + rewrite (not_elem_of_list_to_map_1 _ _ Hnot), !lookup_insert_eq. reflexivity.
    + rewrite !lookup_insert_ne by congruence. reflexivity.
Qed.

Lemma union_covered (d d0 : gmap string string) : dom d0 ⊆ dom d -> d ∪ d0 = d.
Proof.
  intros Hsub. apply map_eq. intros k. rewrite lookup_union.
  destruct (d !! k) as [v|] eqn:E.
  - destruct (d0 !! k); reflexivity.
  - assert (Hk : d0 !! k = None).
    { apply not_elem_of_dom. intros Hin. apply Hsub in Hin.
      apply elem_of_dom in Hin as [? Hin]. congruence. }
    rewrite Hk. reflexivity.
Qed.

Lemma default_table_section (C : ServiceType) :
  ConfigParser.sections (PriceConfig.config default_table) !! section_name C
  = Some (list_to_map [(option_name Monochrome, default_raw C Monochrome);
                       (option_name Colored, default_raw C Colored);
                       (option_name Surcharge, default_raw C Surcharge)]).
Proof. destruct C; vm_compute; reflexivity. Qed.

Lemma default_table_standard : standard default_table.
Proof.
  assert (Hdom : dom (ConfigParser.sections (PriceConfig.config default_table))
                 = category_sections) by (vm_compute; reflexivity).
  split; [reflexivity|]. split; [reflexivity|]. split; [exact Hdom|].
  intros S d Hd.
  assert (HS : S ∈ category_sections) by (rewrite <- Hdom; apply elem_of_dom; eauto).
  unfold category_sections in HS.
  assert (HC : exists C, S = section_name C).
  { apply elem_of_union in HS as [HS|HS]; [apply elem_of_union in HS as [HS|HS]|];
      apply elem_of_singleton in HS; eauto. }
  destruct HC as [C ->]. rewrite default_table_section in Hd.
  apply (inj Some) in Hd. subst d.
  cbn [list_to_map foldr uncurry fst snd]. split.
  - rewrite !dom_insert_L, dom_empty_L. unfold rate_options.
    apply set_eq. intros k. rewrite !elem_of_union, !elem_of_singleton, elem_of_empty.
    tauto.
  - repeat (apply map_Forall_insert_2; [left; eauto|]). apply map_Forall_empty.
Qed.

(** Reading what was written over the built-in table gives the table
    that was written. *)
Lemma read_dump_standard (cfg : PriceConfig.t) :
  standard cfg ->
  PriceConfig.read_sections (PriceConfig.config default_table)
    (PriceConfig.dump (PriceConfig.config cfg))
  = PriceConfig.config cfg.
Proof.
  intros (Hfile & Hdef & Hdom & Hsec).
  unfold PriceConfig.dump. rewrite Hdef.
  rewrite bool_decide_eq_true_2 by reflexivity. cbn [app].
  set (secs := map_to_list (ConfigParser.sections (PriceConfig.config cfg))).
  destruct (read_sections_dump secs) with (acc := PriceConfig.config default_table)
    as [Hd Hs].
  - apply NoDup_fst_map_to_list.
  - apply List.Forall_forall. intros [S d] Hin.
    apply list_elem_of_In, elem_of_map_to_list in Hin. cbn [fst snd]. split.
    + rewrite <- Hdom. apply elem_of_dom. eauto.
    + apply (Hsec S d Hin).
  - cbv zeta in Hd, Hs.
    destruct (PriceConfig.read_sections _ _) as [defs secs'] eqn:E.
    destruct (PriceConfig.config cfg) as [defs0 secs0] eqn:E0.
    cbn [ConfigParser.defaults ConfigParser.sections] in *.
    f_equal.
    + rewrite Hd, Hdef. reflexivity.
    + apply map_eq. intros S. rewrite Hs. subst secs.
      rewrite list_to_map_to_list.
      destruct default_table_standard as (_ & _ & Hdom0 & Hsec0).
      destruct (secs0 !! S) as [d|] eqn:Ed.
      * f_equal. apply union_covered.
        destruct (ConfigParser.sections (PriceConfig.config default_table) !! S)
          as [d0|] eqn:Ed0; cbn [default].
        -- cbn. rewrite (proj1 (Hsec0 S d0 Ed0)), (proj1 (Hsec S d Ed)). reflexivity.
        -- rewrite dom_empty_L. apply empty_subseteq.
      * apply not_elem_of_dom. rewrite Hdom0, <- Hdom. apply not_elem_of_dom, Ed.
Qed.

Lemma dump_options_nodup (secs : list (string * gmap string string)) :
  NoDup secs.*1 ->
  Forall (fun s => dom (snd s) = rate_options) secs ->
  NoDup (file_options (map (fun s => (fst s, map_to_list (snd s))) secs))
  /\ forall k, k ∈ file_options (map (fun s => (fst s, map_to_list (snd s))) secs) ->
               fst k ∈ secs.*1.
Proof.
  induction secs as [|[S0 d0] secs IH]; intros Hnd Hall.
  - split; [constructor|]. intros k Hk. inversion Hk.
  - rewrite fmap_cons in Hnd. cbn [fst] in Hnd. apply NoDup_cons in Hnd as [Hnot Hnd].
    apply Forall_cons in Hall as [Hd0 Hall]. cbn [snd] in Hd0.
    destruct (IH Hnd Hall) as [IH1 IH2].
    change (file_options (map (fun s => (fst s, map_to_list (snd s))) ((S0, d0) :: secs)))
      with (map (fun kv : string * string => (S0, Py.lower (fst kv))) (map_to_list d0)
            ++ file_options (map (fun s => (fst s, map_to_list (snd s))) secs)).
    assert (Hmap : map (fun kv : string * string => (S0, Py.lower (fst kv))) (map_to_list d0)
                   = (pair S0) <$> (map_to_list d0).*1).
    { rewrite <- list_fmap_compose. apply map_ext_in. intros kv Hkv.
      pose proof (rate_options_normal d0 Hd0) as Hn.
      rewrite List.Forall_forall in Hn. cbn. f_equal. exact (Hn kv Hkv). }
    rewrite Hmap. split.
    + apply NoDup_app. split; [|split; [|exact IH1]].
      * apply (NoDup_fmap_2 _), NoDup_fst_map_to_list.
      * intros k Hk Hk'. apply list_elem_of_fmap in Hk as (x & -> & _).
        apply IH2 in Hk'. exact (Hnot Hk').
    + intros k Hk. rewrite fmap_cons. apply elem_of_app in Hk as [Hk|Hk].
      * apply list_elem_of_fmap in Hk as (x & -> & _). left.
      * right. exact (IH2 k Hk).
Qed.

(** What [write] leaves repeats no section and no option. *)
Lemma check_dump_standard (cfg : PriceConfig.t) :
  standard cfg ->
  PriceConfig.check_sections (PriceConfig.dump (PriceConfig.config cfg)) ∅ ∅ = Ok tt.
Proof.
  intros (Hfile & Hdef & Hdom & Hsec).
  pose proof (check_sections_strict (PriceConfig.dump (PriceConfig.config cfg))) as H.
  destruct (PriceConfig.check_sections _ ∅ ∅) as [[]|e]; [reflexivity|].
  exfalso. apply (proj2 H). unfold PriceConfig.dump. rewrite Hdef.
  rewrite bool_decide_eq_true_2 by reflexivity. cbn [app].
  set (secs := map_to_list (ConfigParser.sections (PriceConfig.config cfg))).
  split.
  - unfold file_sections. apply NoDup_filter.
    rewrite map_map. cbn [fst]. apply NoDup_fst_map_to_list.
  - apply dump_options_nodup; [apply NoDup_fst_map_to_list|].
    apply List.Forall_forall. intros [S d] Hin.
    apply list_elem_of_In, elem_of_map_to_list in Hin. exact (proj1 (Hsec S d Hin)).
Qed.

Lemma standard_update (cfg : PriceConfig.t) (X : string) (m c s : float) :
  standard cfg -> X ∈ category_sections ->
  standard
    {| PriceConfig.config_file := PriceConfig.config_file cfg;
       PriceConfig.config :=
         {| ConfigParser.defaults := ConfigParser.defaults (PriceConfig.config cfg);
            ConfigParser.sections :=
              <[X := <[option_name Surcharge := Py.str_float s]>
                       (<[option_name Colored := Py.str_float c]>
                          (<[option_name Monochrome := Py.str_float m]>
                             (default ∅
                                (ConfigParser.sections (PriceConfig.config cfg) !! X))))]>
                (ConfigParser.sections (PriceConfig.config cfg)) |} |}.
Proof.
  intros (Hfile & Hdef & Hdom & Hsec) HX.
  assert (HXd : exists d, ConfigParser.sections (PriceConfig.config cfg) !! X = Some d).
  { apply elem_of_dom. rewrite Hdom. exact HX. }
  destruct HXd as [d Hd]. destruct (Hsec X d Hd) as [Hdd Hdv].
  split; [exact Hfile|]. split; [exact Hdef|].
  cbn [PriceConfig.config ConfigParser.sections]. split.
  - rewrite dom_insert_L, Hdom.
    apply set_eq. intros k. rewrite elem_of_union, elem_of_singleton.
    split; [intros [->|H]; assumption|intros H; right; exact H].
  - intros S d' Hd'. rewrite Hd in Hd'. cbn [default] in Hd'.
    destruct (decide (S = X)) as [->|Hne].
    + rewrite lookup_insert_eq in Hd'. injection Hd' as <-. split.
      * rewrite !dom_insert_L, Hdd. unfold rate_options.
        apply set_eq. intros k. rewrite !elem_of_union, !elem_of_singleton. tauto.
      * repeat (apply map_Forall_insert_2; [right; eauto|]). exact Hdv.
    + rewrite lookup_insert_ne in Hd' by congruence. exact (Hsec S d' Hd').
Qed.

(** X21: prices survive a restart.  A controller started without a
    configuration file holds the standard table.  On a standard table,
    [update_pricing] for one of the three categories, the file being
    written, returns, leaves the table standard, and a controller
    started afterwards on the file system it leaves holds exactly the
    table the call left. *)
Theorem prices_survive_restart :
  (forall w now self,
     config_ini w = None -> POSController.init w now = Ok self ->
     standard (POSController.config self))
  /\ (forall self w service m c s now,
        standard (POSController.config self) ->
        category_service service ->
        let call := POSController.update_pricing self w Written service m c s in
        fst (fst call) = Ok tt
        /\ standard (POSController.config (snd (fst call)))
        /\ POSController.init (snd call) now
           = Ok {| POSController.config := POSController.config (snd (fst call));
                   POSController.current_receipt := Receipt.init now;
                   POSController.receipt_history := [] |}).
Proof.
  split.
  - intros w now self Hfile. unfold POSController.init.
    rewrite init_over_defaults. unfold PriceConfig.load_config.
    cbn [PriceConfig.config_file]. unfold config_ini in Hfile. rewrite Hfile.
    cbn [bind]. intros [= <-]. exact default_table_standard.
  - intros self w service m c s now Hstd Hcat call. subst call.
    unfold category_service in Hcat.
    rewrite (update_pricing_sets self w Written service m c s
               (category_section_not_empty _ Hcat) (category_section_not_default _ Hcat)).
    cbn [fst snd POSController.config POSController.with_config].
    pose proof (standard_update _ _ m c s Hstd Hcat) as Hstd'.
    set (cfg' := {| PriceConfig.config_file := _; PriceConfig.config := _ |}) in *.
    split; [reflexivity|]. split; [exact Hstd'|].
    unfold POSController.init. rewrite init_over_defaults.
    unfold PriceConfig.load_config, PriceConfig.save_config.
    cbn [snd ini_files PriceConfig.config_file].
    destruct Hstd' as (Hfile' & Hrest).
    rewrite Hfile', lookup_insert_eq.
    unfold PriceConfig.with_config. cbn [PriceConfig.config_file PriceConfig.config bind].
    rewrite (check_dump_standard cfg' (conj Hfile' Hrest)). cbn [bind].
    rewrite (read_dump_standard cfg' (conj Hfile' Hrest)).
    rewrite <- Hfile'. destruct cfg'; reflexivity.
Qed.

Lemma prices_survive_restart_witness :
  let call := POSController.update_pricing fresh_controller empty_world Written
                "print" 6 9 3 in
  POSController.init (snd call) noon
  = Ok {| POSController.config := POSController.config (snd (fst call));
          POSController.current_receipt := Receipt.init noon;
          POSController.receipt_history := [] |}.
Proof.
  refine (proj2 (proj2 (proj2 prices_survive_restart fresh_controller empty_world
                          "print" 6%float 9%float 3%float noon _ _))).
  - apply (proj1 prices_survive_restart empty_world noon fresh_controller).
    + reflexivity.
    + vm_compute. reflexivity.
  - unfold category_service, category_sections.
    apply elem_of_union_l, elem_of_union_l, elem_of_singleton. reflexivity.
Defined.

(** ** Reading the total *)

(** X22: in a state the controller can reach, [get_current_total] only
    reads: it returns the sum of the subtotals of the current
    transactions and leaves the controller exactly as it was. *)
Theorem get_current_total_reads (self : POSController.t) :
  reachable self ->
  POSController.get_current_total self
  = (Py.sum (map Transaction.subtotal (POSController.get_current_transactions self)),
     self).
Proof.
  intros Hreach. destruct (reachable_invariant self Hreach) as (Htot & _).
  unfold POSController.get_current_total, POSController.get_current_transactions,
    Receipt.calculate_total, POSController.with_receipt.
  unfold total_is_sum in Htot. rewrite <- Htot.
  destruct self as [cfg [l ts x] h]. reflexivity.
Qed.

Lemma get_current_total_reads_witness :
  let self := snd (POSController.add_transaction fresh_controller PHOTOCOPY 3 false false
                     noon) in
  POSController.get_current_total self
  = (Py.sum (map Transaction.subtotal (POSController.get_current_transactions self)),
     self).
Proof.
  intros self. apply get_current_total_reads.
  eapply reachable_step; [|apply step_add].
  apply (reachable_init empty_world noon). vm_compute. reflexivity.
Defined.
